(** * The MCP client of [utils/mcp_client.py]: model and properties

    The client talks newline-delimited JSON-RPC to a child process.  This
    development embeds [MCPClient] ([__init__], [initialize],
    [_send_message], [_read_json_line], [call_tool], [cleanup]) and proves
    properties of the request/response correlator, the response normaliser
    and the process life cycle.  It also embeds the callers of the client
    in [assistants/thehive/assistant.py] and [assistants/wazuh/assistant.py]
    ([handle_tool_call], [_format_id], [cleanup_resources]) with the
    rewriting of the arguments they do before [call_tool].

    Modelling choices, all taken from the Python source:
    - JSON values as Python sees them after [json.loads]; [None] is [JNull];
    - the child process as the data its pipes carry: the lines still to be
      read from its stdout, what its stdout does once they are consumed
      (end of file, or a blocking read), how many writes its stdin still
      accepts, and what [wait(timeout=5)] does;
    - every method as a computation over the client that may return,
      raise or block, and that records its I/O (writes, reads, sleeps,
      signals, prints) in a trace;
    - text as the bytes of its UTF-8 form, and stdout as a UTF-8 stream with
      the strict encoder: a [print] of text that the server chose raises
      [UnicodeEncodeError] when the text holds a lone surrogate, which
      [json.loads] makes of an escape such as [\ud800]. *)

From Stdlib Require Import ZArith String List Bool Lia Sorted.
From Stdlib Require Import Floats.SpecFloat.
Import ListNotations.
Local Open Scope string_scope.
Local Open Scope list_scope.
Local Open Scope Z_scope.

(** ** JSON values and the Python builtins applied to them *)

Module Json.

#[local] Set Warnings "-register-all".

Inductive json : Type :=
| JNull
| JBool (b : bool)
| JInt (z : Z)
| JFloat (f : spec_float)
| JStr (s : string)
| JList (items : list json)
| JObj (fields : list (string * json)).

(** [d[k]] / [k in d] on the fields of a dict. *)
Fixpoint lookup (k : string) (fields : list (string * json)) : option json :=
  match fields with
  | [] => None
  | (k', v) :: rest => if String.eqb k k' then Some v else lookup k rest
  end.

(** [k in d]. *)
Definition has_key (k : string) (fields : list (string * json)) : bool :=
  match lookup k fields with Some _ => true | None => false end.

(** [d.get(k, default)]. *)
Definition get_default (k : string) (default : json)
    (fields : list (string * json)) : json :=
  match lookup k fields with Some v => v | None => default end.

(** The integer a float denotes, compared exactly as Python does for
    [float == int]. *)
Definition float_eq_int (f : spec_float) (n : Z) : bool :=
  match f with
  | S754_zero _ => n =? 0
  | S754_finite s m e =>
      let v := if s then Z.neg m else Z.pos m in
      if 0 <=? e then n =? v * 2 ^ e else v =? n * 2 ^ (- e)
  | _ => false
  end.

(** [v == n] for a Python value [v] and an [int] [n]: [bool] is a subclass
    of [int], a float equals the integer it denotes, everything else
    differs from every integer. *)
Definition eq_int (v : json) (n : Z) : bool :=
  match v with
  | JInt z => z =? n
  | JBool b => (if b then 1 else 0) =? n
  | JFloat f => float_eq_int f n
  | _ => false
  end.

(** Truth value of [v] in a condition ([if msg:], [if not tools]). *)
Definition truthy (v : json) : bool :=
  match v with
  | JNull => false
  | JBool b => b
  | JInt z => negb (z =? 0)
  | JFloat (S754_zero _) => false
  | JFloat _ => true
  | JStr s => negb (String.eqb s EmptyString)
  | JList items => match items with [] => false | _ => true end
  | JObj fields => match fields with [] => false | _ => true end
  end.

(** [len(v)] is defined for strings, lists and dicts and raises
    [TypeError] on every other value. *)
Definition has_len (v : json) : bool :=
  match v with
  | JStr _ | JList _ | JObj _ => true
  | _ => false
  end.

(** [sep.join(parts)] on strings. *)
Fixpoint join (sep : string) (parts : list string) : string :=
  match parts with
  | [] => EmptyString
  | [s] => s
  | s :: rest => (s ++ sep ++ join sep rest)%string
  end.

(** The strings of a list of values, when all of them are strings:
    [str.join] raises [TypeError] on any other element. *)
Fixpoint all_strings (vs : list json) : option (list string) :=
  match vs with
  | [] => Some []
  | JStr s :: rest =>
      match all_strings rest with
      | Some ss => Some (s :: ss)
      | None => None
      end
  | _ :: _ => None
  end.

End Json.
Import Json.

(** ** Text and the encoder of stdout

    A Python [str] is held as the bytes of its UTF-8 form, generalised to
    the lone surrogates that [json.loads] makes of an escape such as
    [\ud800]: the code points U+D800 to U+DFFF are the three bytes
    ED, A0..BF, 80..BF, which strict UTF-8 excludes.  [print] encodes its
    text for stdout with the strict UTF-8 encoder and raises
    [UnicodeEncodeError] on a lone surrogate. *)

(** The text has no lone surrogate: stdout can encode it. *)
Fixpoint encodable (s : string) : bool :=
  match s with
  | EmptyString => true
  | String a rest =>
      match rest with
      | EmptyString => true
      | String b _ =>
          if ((Ascii.nat_of_ascii a =? 237) && (160 <=? Ascii.nat_of_ascii b)
              && (Ascii.nat_of_ascii b <=? 191))%nat
          then false
          else encodable rest
      end
  end.

(** The number of bytes of the character that starts with the byte [a]. *)
Definition char_width (a : Ascii.ascii) : nat :=
  let b := Ascii.nat_of_ascii a in
  if (b <? 192)%nat then 1%nat
  else if (b <? 224)%nat then 2%nat
  else if (b <? 240)%nat then 3%nat
  else 4%nat.

(** [s[:n]], the first [n] characters of [s]; [pending] counts the bytes
    still to come of a character that has begun. *)
Fixpoint first_chars (n pending : nat) (s : string) : string :=
  match s with
  | EmptyString => EmptyString
  | String a rest =>
      match pending with
      | S k => String a (first_chars n k rest)
      | O =>
          match n with
          | O => EmptyString
          | S n' => String a (first_chars n' (char_width a - 1) rest)
          end
      end
  end.

(** [print(f"{v}")] goes through: a string is printed as it is, any other
    value through [repr], which escapes a lone surrogate. *)
Definition printable (v : json) : bool :=
  match v with
  | JStr s => encodable s
  | _ => true
  end.

(** [print(str(v)[:n])] goes through. *)
Definition printable_prefix (n : nat) (v : json) : bool :=
  match v with
  | JStr s => encodable (first_chars n 0 s)
  | _ => true
  end.

(** ** Exceptions *)

Inductive exn : Type :=
| NotInitialized                 (* Exception("MCP client not initialized") *)
| ProcessNotRunning              (* Exception("MCP process not running") *)
| SendFailed (cause : exn)       (* Exception("Failed to send MCP call: ...") *)
| ResponseTimeout                (* Exception("Timeout waiting for MCP response") *)
| ToolError (error_msg : json)   (* Exception("MCP tool error: ...") *)
| InvalidResponse                (* Exception("Invalid MCP response: missing result") *)
| InitError (error : json)       (* Exception("MCP initialization error: ...") *)
| ToolsListTimeout               (* Exception("Timeout waiting for tools list") *)
| InitFailed (cause : exn)       (* Exception("Failed to initialize MCP client: ...") *)
| JSONDecodeError (doc : string) (* json.JSONDecodeError, with the text it rejected *)
| KeyError
| UnicodeDecodeError             (* raised by readline() in text mode *)
| UnicodeEncodeError             (* raised by print() on text that stdout cannot encode *)
| OSError                        (* Popen, write, flush or wait failing *)
| TimeoutExpired                 (* subprocess.TimeoutExpired *)
| AttributeError
| TypeError.

(** [print(str(e))] goes through: of the messages of these exceptions only
    those of the initialization error and of the tool error hold text of
    the server. *)
Fixpoint printable_exn (e : exn) : bool :=
  match e with
  | InitError v | ToolError v => printable v
  | SendFailed cause | InitFailed cause => printable_exn cause
  | _ => true
  end.

(** ** The child process *)

(** One line delivered on the child's stdout, classified by what
    [readline], [strip] and [json.loads] make of it.  [Undecodable lost] is
    a chunk of bytes that is no text: the [readline()] that takes the chunk
    off the pipe raises, and the reader discards the chunk whole, so that
    the [lost] pending lines behind it, which the child wrote in the same
    chunk, are never delivered. *)
Inductive line : Type :=
| Blank                (* only white space: [strip()] leaves the empty string *)
| Text (raw : string)  (* non-empty text that [json.loads] rejects *)
| Json (v : json)      (* the serialisation of [v] *)
| Undecodable (lost : nat).

(** What [readline()] does once the pending lines are consumed: the child
    has closed its stdout (the call returns the empty string), or the
    child is alive and silent (the call does not return). *)
Inductive stream_end : Type := Eof | Blocks.

(** What [wait(timeout=5)] does after [terminate()]. *)
Inductive wait_outcome : Type := Exits | TimesOut | WaitFails.

Record Popen : Type := mkPopen {
  pid : Z;
  stdin_budget : option nat;   (* [Some n]: the pipe breaks after n more writes *)
  stdout_pending : list line;
  stdout_end : stream_end;
  on_wait : wait_outcome
}.

Record MCPClient : Type := mkClient {
  server_path : string;
  client_name : string;
  client_version : string;
  process : option Popen;
  rpc_id_counter : Z
}.

(** [MCPClient.__init__]. *)
Definition __init__ (path name version : string) : MCPClient :=
  {| server_path := path; client_name := name; client_version := version;
     process := None; rpc_id_counter := 100 |}.

Definition with_process (c : MCPClient) (p : option Popen) : MCPClient :=
  {| server_path := server_path c; client_name := client_name c;
     client_version := client_version c; process := p;
     rpc_id_counter := rpc_id_counter c |}.

Definition with_counter (c : MCPClient) (n : Z) : MCPClient :=
  {| server_path := server_path c; client_name := client_name c;
     client_version := client_version c; process := process c;
     rpc_id_counter := n |}.

(** [_setup_logging]: the prefix of every printed line. *)
Definition log_prefix (c : MCPClient) : string :=
  ("[MCP-" ++ client_name c ++ "]")%string.

(** ** Effects *)

(** The [print] statements, one tag per statement. *)
Inductive log_line : Type :=
| LogStarting | LogStarted (p : Z) | LogSendingInit
| LogSendingMessage (i : nat) (method : json)
| LogWaitingTools | LogReceivedMessage (msg : json) | LogFoundTools
| LogInitOk | LogInitFailed (e : exn)
| LogSending (message : json)
| LogReceived (l : line) | LogJsonDecodeError (doc : string) | LogReadError (e : exn)
| LogCalling (tool_name : string) (arguments : json)
| LogSendFailed (e : exn) | LogWaiting (call_id : Z)
| LogGotResponse (call_id : Z) | LogTimeout
| LogToolError (error_msg : json) | LogInvalid | LogSuccess
| LogContent | LogItem (i : nat) | LogCombined
| LogCleaning | LogTerminated | LogKilled | LogCleanupError (e : exn).

Inductive event : Type :=
| EvSpawn (path : string)            (* subprocess.Popen([server_path], ...) *)
| EvStderrThread                     (* the daemon thread draining stderr *)
| EvSleep (ms : Z)                   (* time.sleep *)
| EvWrite (message : json) (ok : bool) (* stdin.write of one JSON line, and whether it went through *)
| EvReadline                         (* one call of stdout.readline() *)
| EvTerminate | EvWait | EvKill
| EvPrint (l : log_line).

Inductive result (A : Type) : Type :=
| Ret (a : A)
| Raise (e : exn)
| Hang.
Arguments Ret {A} a.
Arguments Raise {A} e.
Arguments Hang {A}.

(** A method body: from the client before to the result, the client after
    and the I/O performed. *)
Definition M (A : Type) : Type := MCPClient -> result A * MCPClient * list event.

Definition res_of {A} (o : result A * MCPClient * list event) : result A := fst (fst o).
Definition self_of {A} (o : result A * MCPClient * list event) : MCPClient := snd (fst o).
Definition trace_of {A} (o : result A * MCPClient * list event) : list event := snd o.

Definition ret {A} (a : A) : M A := fun c => (Ret a, c, []).
Definition raise {A} (e : exn) : M A := fun c => (Raise e, c, []).
Definition hang {A} : M A := fun c => (Hang, c, []).

Definition bind {A B} (m : M A) (k : A -> M B) : M B :=
  fun c =>
    match m c with
    | (Ret a, c1, t1) => let '(r, c2, t2) := k a c1 in (r, c2, t1 ++ t2)
    | (Raise e, c1, t1) => (Raise e, c1, t1)
    | (Hang, c1, t1) => (Hang, c1, t1)
    end.

(** [try: m  except Exception as e: h e]. *)
Definition try_except {A} (m : M A) (h : exn -> M A) : M A :=
  fun c =>
    match m c with
    | (Raise e, c1, t1) => let '(r, c2, t2) := h e c1 in (r, c2, t1 ++ t2)
    | o => o
    end.

(** [try: m  finally: f]: [f] runs whether [m] returned or raised. *)
Definition try_finally {A} (m : M A) (f : M unit) : M A :=
  fun c =>
    match m c with
    | (Hang, c1, t1) => (Hang, c1, t1)
    | (r, c1, t1) =>
        match f c1 with
        | (Ret _, c2, t2) => (r, c2, t1 ++ t2)
        | (Raise e, c2, t2) => (Raise e, c2, t1 ++ t2)
        | (Hang, c2, t2) => (Hang, c2, t1 ++ t2)
        end
    end.

Declare Scope mcp_scope.
Delimit Scope mcp_scope with mcp.
Notation "x <- m ;; k" := (bind m (fun x => k))
  (at level 100, m at next level, right associativity) : mcp_scope.
Notation "m ;; k" := (bind m (fun _ => k))
  (at level 100, right associativity) : mcp_scope.
Local Open Scope mcp_scope.

Definition emit (e : event) : M unit := fun c => (Ret tt, c, [e]).
Definition print (l : log_line) : M unit := emit (EvPrint l).
Definition sleep (ms : Z) : M unit := emit (EvSleep ms).

(** A [print] whose line holds text of the server: it raises when stdout
    cannot encode the text ([ok] tells whether it can), and nothing is
    printed then.  Every other [print] of the client has text that is
    fixed by the program or that is ASCII by construction ([json.dumps],
    [repr], [type], numbers), or text that was decoded from the pipe, which
    holds no surrogate; the name of the client, the path of the server and
    the names of the tools are those the assistants pass, which are
    ASCII. *)
Definition print_text (ok : bool) (l : log_line) : M unit :=
  if ok then print l else raise UnicodeEncodeError.

Definition get_self : M MCPClient := fun c => (Ret c, c, []).

Definition get_process : M (option Popen) := fun c => (Ret (process c), c, []).

(** [self.process = p]. *)
Definition set_process (p : option Popen) : M unit :=
  fun c => (Ret tt, with_process c p, []).

(** [self.rpc_id_counter += 1; call_id = self.rpc_id_counter]. *)
Definition next_call_id : M Z :=
  fun c =>
    let n := rpc_id_counter c + 1 in
    (Ret n, with_counter c n, []).

(** ** The pipes *)

Definition with_stdin (p : Popen) (b : option nat) : Popen :=
  {| pid := pid p; stdin_budget := b; stdout_pending := stdout_pending p;
     stdout_end := stdout_end p; on_wait := on_wait p |}.

Definition with_stdout (p : Popen) (pending : list line) : Popen :=
  {| pid := pid p; stdin_budget := stdin_budget p; stdout_pending := pending;
     stdout_end := stdout_end p; on_wait := on_wait p |}.

(** [self.process.stdin.write(json_str); self.process.stdin.flush()] for
    the line that serialises [message]. *)
Definition stdin_write (p : Popen) (message : json) : M unit :=
  match stdin_budget p with
  | Some O => emit (EvWrite message false) ;; raise OSError
  | Some (S n) =>
      emit (EvWrite message true) ;; set_process (Some (with_stdin p (Some n)))
  | None => emit (EvWrite message true)
  end.

(** [self.process.stdout.readline()]: the next pending line; at the end of
    the pending lines, [None] for the empty string read at end of file, or
    no return at all while the child stays silent. *)
Definition stdout_readline (p : Popen) : M (option line) :=
  emit EvReadline ;;
  match stdout_pending p with
  | Undecodable lost :: rest =>
      set_process (Some (with_stdout p (skipn lost rest))) ;;
      raise UnicodeDecodeError
  | l :: rest => set_process (Some (with_stdout p rest)) ;; ret (Some l)
  | [] => match stdout_end p with Eof => ret None | Blocks => hang end
  end.

(** [json.loads(line)] on a stripped, non-empty line. *)
Definition json_loads (l : line) : M json :=
  match l with
  | Json v => ret v
  | Text raw => raise (JSONDecodeError raw)
  | Blank => raise (JSONDecodeError EmptyString)
  | Undecodable _ => raise UnicodeDecodeError
  end.

(** ** [_send_message] *)

Definition _send_message (message : json) : M unit :=
  p <- get_process ;;
  match p with
  | None => raise ProcessNotRunning
  | Some p =>
      print (LogSending message) ;;
      stdin_write p message
  end.

(** ** [_read_json_line]

    Returns the parsed value, or [None] ([JNull]) when there is no process,
    at end of file, on a blank line, on a line that is no JSON and on a
    failing read. *)
Definition _read_json_line : M json :=
  p <- get_process ;;
  match p with
  | None => ret JNull
  | Some p =>
      try_except
        (l <- stdout_readline p ;;
         match l with
         | None => ret JNull
         | Some Blank => ret JNull
         | Some l =>
             print (LogReceived l) ;;
             json_loads l
         end)
        (fun e =>
           match e with
           | JSONDecodeError doc => print (LogJsonDecodeError doc) ;; ret JNull
           | _ => print (LogReadError e) ;; ret JNull
           end)
  end.

(** [msg.get("id")] on a value that need not be a dict. *)
Definition dot_get (msg : json) (k : string) : M json :=
  match msg with
  | JObj fields => ret (get_default k JNull fields)
  | _ => raise AttributeError
  end.

(** [d.get(k, default)] on a value that need not be a dict. *)
Definition dot_get_default (d : json) (k : string) (default : json) : M json :=
  match d with
  | JObj fields => ret (get_default k default fields)
  | _ => raise AttributeError
  end.

(** [d[k]] on a dict. *)
Definition subscript (d : json) (k : string) : M json :=
  match d with
  | JObj fields =>
      match lookup k fields with Some v => ret v | None => raise KeyError end
  | _ => raise TypeError
  end.

(** [sep.join(parts)] on a list of arbitrary values. *)
Definition str_join (sep : string) (parts : list json) : M string :=
  match all_strings parts with
  | Some ss => ret (join sep ss)
  | None => raise TypeError
  end.

(** The separator ["\n\n"]. *)
Definition blank_line : string :=
  String (Ascii.ascii_of_nat 10) (String (Ascii.ascii_of_nat 10) EmptyString).

Section Client.

(** The builtin [str] on a value that is not itself a string. *)
Variable py_str : json -> string.

(** ** [call_tool] *)

(** The value appended to [combined_text] for one content item
    (the [if]/[elif] chain of the [for] loop). *)
Definition content_text (item : json) : json :=
  match item with
  | JObj fields =>
      match lookup "text" fields with
      | Some text => text
      | None =>
          match lookup "raw" fields with
          | Some (JObj raw) =>
              match lookup "text" raw with
              | Some text => text
              | None => JStr (py_str item)
              end
          | _ => JStr (py_str item)
          end
      end
  | JStr _ => item
  | _ => JStr (py_str item)
  end.

(** [for i, item in enumerate(content): ...], from item number [i]. *)
Fixpoint combine_content (i : nat) (content combined_text : list json)
    : M (list json) :=
  match content with
  | [] => ret combined_text
  | item :: rest =>
      print (LogItem (S i)) ;;
      combine_content (S i) rest (combined_text ++ [content_text item])
  end.

(** The response normaliser: from [result = response["result"]] to the
    returned value. *)
Definition normalize (result : json) : M json :=
  print LogSuccess ;;
  match result with
  | JObj fields =>
      match lookup "content" fields with
      | Some content =>
          (* the print evaluates len(content) *)
          (if has_len content then print LogContent else raise TypeError) ;;
          match content with
          | JList ((_ :: _) as items) =>
              combined_text <- combine_content 0 items [] ;;
              final_result <- str_join blank_line combined_text ;;
              print LogCombined ;;
              ret (JStr final_result)
          | _ => ret content
          end
      | None => ret result
      end
  | _ => ret result
  end.

(** "Handle response": the matched response is a non-empty dict. *)
Definition handle_response (response : json) : M json :=
  match response with
  | JObj fields =>
      match lookup "error" fields with
      | Some error =>
          error_msg <- dot_get_default error "message" (JStr "Unknown MCP error") ;;
          print_text (printable error_msg) (LogToolError error_msg) ;;
          raise (ToolError error_msg)
      | None =>
          match lookup "result" fields with
          | None => print LogInvalid ;; raise InvalidResponse
          | Some result => normalize result
          end
      end
  | _ => raise TypeError
  end.

(** [max_attempts = 50  # 5 second timeout]. *)
Definition call_max_attempts : nat := 50.

(** The polling loop [while attempts < max_attempts], with
    [budget = max_attempts - attempts] iterations left.  Returns the
    matching message, or [None] when the attempts are used up. *)
Fixpoint wait_for_response (budget : nat) (call_id : Z) : M json :=
  match budget with
  | O => ret JNull
  | S budget' =>
      msg <- _read_json_line ;;
      if negb (truthy msg) then
        sleep 100 ;; wait_for_response budget' call_id
      else
        id <- dot_get msg "id" ;;
        if eq_int id call_id then
          print (LogGotResponse call_id) ;; ret msg
        else
          sleep 100 ;; wait_for_response budget' call_id
  end.

Definition rpc_call (call_id : Z) (tool_name : string) (arguments : json) : json :=
  JObj [("jsonrpc", JStr "2.0");
        ("id", JInt call_id);
        ("method", JStr "tools/call");
        ("params", JObj [("name", JStr tool_name); ("arguments", arguments)])].

(** "Wait for response with timeout": the matching response, or the
    timeout once the attempts are used up. *)
Definition await_response (call_id : Z) : M json :=
  print (LogWaiting call_id) ;;
  response <- wait_for_response call_max_attempts call_id ;;
  if negb (truthy response) then
    print LogTimeout ;; raise ResponseTimeout
  else
    ret response.

Definition call_tool (tool_name : string) (arguments : json) : M json :=
  p <- get_process ;;
  match p with
  | None => raise NotInitialized
  | Some _ =>
      call_id <- next_call_id ;;
      print (LogCalling tool_name arguments) ;;
      try_except
        (_send_message (rpc_call call_id tool_name arguments))
        (fun e => print (LogSendFailed e) ;; raise (SendFailed e)) ;;
      response <- await_response call_id ;;
      handle_response response
  end.

(** ** [initialize] *)

Definition init_messages (c : MCPClient) : list json :=
  [ JObj [("jsonrpc", JStr "2.0");
          ("id", JInt 0);
          ("method", JStr "initialize");
          ("params",
           JObj [("protocolVersion", JStr "2024-11-05");
                 ("capabilities",
                  JObj [("sampling", JObj []);
                        ("roots", JObj [("listChanged", JBool true)])]);
                 ("clientInfo",
                  JObj [("name", JStr (client_name c));
                        ("version", JStr (client_version c))])])];
    JObj [("jsonrpc", JStr "2.0"); ("method", JStr "notifications/initialized")];
    JObj [("jsonrpc", JStr "2.0"); ("id", JInt 1);
          ("method", JStr "tools/list"); ("params", JObj [])] ].

(** [self.process = subprocess.Popen([self.server_path], ...)]: [launch] is
    the child the operating system starts, [None] when [Popen] raises. *)
Definition spawn (launch : option Popen) : M unit :=
  fun c =>
    match launch with
    | Some p => (Ret tt, with_process c (Some p), [EvSpawn (server_path c)])
    | None => (Raise OSError, c, [EvSpawn (server_path c)])
    end.

(** [for i, msg in enumerate(init_messages): ...], from message number [i]. *)
Fixpoint send_init (i : nat) (msgs : list json) : M unit :=
  match msgs with
  | [] => ret tt
  | msg :: rest =>
      method <- subscript msg "method" ;;
      print (LogSendingMessage (S i) method) ;;
      _send_message msg ;;
      sleep 100 ;;
      send_init (S i) rest
  end.

(** [max_attempts = 20]. *)
Definition init_max_attempts : nat := 20.

(** One received message of the handshake loop: [Some tools] at the
    [break], [None] to go on polling. *)
Definition check_tools_list (msg : json) : M (option json) :=
  print (LogReceivedMessage msg) ;;
  id <- dot_get msg "id" ;;
  match msg with
  | JObj fields =>
      if eq_int id 1 && has_key "result" fields then
        result <- subscript msg "result" ;;
        tools <- dot_get_default result "tools" (JList []) ;;
        (* the print evaluates len(tools) *)
        (if has_len tools then print LogFoundTools else raise TypeError) ;;
        ret (Some tools)
      else if eq_int id 1 && has_key "error" fields then
        error <- subscript msg "error" ;;
        raise (InitError error)
      else ret None
  | _ => raise AttributeError
  end.

(** The handshake loop [while attempts < max_attempts], with
    [budget = max_attempts - attempts] iterations left.  Returns [tools]
    and whether [attempts >= max_attempts] at the exit. *)
Fixpoint wait_for_tools (budget : nat) : M (json * bool) :=
  match budget with
  | O => ret (JList [], true)
  | S budget' =>
      msg <- _read_json_line ;;
      found <- (if truthy msg then check_tools_list msg else ret None) ;;
      match found with
      | Some tools => ret (tools, false)
      | None => sleep 100 ;; wait_for_tools budget'
      end
  end.

(** The body of [initialize] once the child is started: the three
    handshake messages, then the wait for the tools list. *)
Definition handshake : M json :=
  p <- get_process ;;
  print (LogStarted (match p with Some p => pid p | None => 0 end)) ;;
  emit EvStderrThread ;;
  sleep 200 ;;
  print LogSendingInit ;;
  self <- get_self ;;
  send_init 0 (init_messages self) ;;
  print LogWaitingTools ;;
  r <- wait_for_tools init_max_attempts ;;
  let '(tools, exhausted) := r in
  if negb (truthy tools) && exhausted then raise ToolsListTimeout
  else print LogInitOk ;; ret tools.

(** [except Exception as e:] of [initialize]. *)
Definition initialize_failed (e : exn) : M json :=
  print_text (printable_exn e) (LogInitFailed e) ;;
  p <- get_process ;;
  match p with
  | Some _ => emit EvKill ;; set_process None
  | None => ret tt
  end ;;
  raise (InitFailed e).

Definition initialize (launch : option Popen) : M json :=
  try_except
    (print LogStarting ;;
     spawn launch ;;
     handshake)
    initialize_failed.

(** ** [cleanup] *)

(** [self.process.wait(timeout=5)]. *)
Definition process_wait (p : Popen) : M unit :=
  emit EvWait ;;
  match on_wait p with
  | Exits => ret tt
  | TimesOut => raise TimeoutExpired
  | WaitFails => raise OSError
  end.

Definition cleanup : M unit :=
  print LogCleaning ;;
  p <- get_process ;;
  match p with
  | None => ret tt
  | Some p =>
      try_finally
        (try_except
           (emit EvTerminate ;; process_wait p ;; print LogTerminated)
           (fun e =>
              match e with
              | TimeoutExpired => emit EvKill ;; print LogKilled
              | _ => print (LogCleanupError e)
              end))
        (set_process None)
  end.

(** ** Runs of one client *)

(** What happens to a client: its methods are invoked, and between two
    invocations the child process moves on (it writes more lines, closes a
    pipe, dies). *)
Inductive op : Type :=
| Initialize (launch : option Popen)
| CallTool (tool_name : string) (arguments : json)
| Cleanup
| Server (p : Popen).

Definition server_moves (p : Popen) (c : MCPClient) : MCPClient :=
  match process c with
  | Some _ => with_process c (Some p)
  | None => c
  end.

Definition step (o : op) (c : MCPClient) : MCPClient * list event :=
  match o with
  | Initialize launch => let r := initialize launch c in (self_of r, trace_of r)
  | CallTool tool_name arguments =>
      let r := call_tool tool_name arguments c in (self_of r, trace_of r)
  | Cleanup => let r := cleanup c in (self_of r, trace_of r)
  | Server p => (server_moves p c, [])
  end.

Fixpoint run (ops : list op) (c : MCPClient) : MCPClient * list event :=
  match ops with
  | [] => (c, [])
  | o :: rest =>
      let '(c1, t1) := step o c in
      let '(c2, t2) := run rest c1 in
      (c2, t1 ++ t2)
  end.

(** The identifier of a [tools/call] request handed to the child's stdin. *)
Definition call_id_of (e : event) : list Z :=
  match e with
  | EvWrite (JObj fields) _ =>
      match lookup "method" fields, lookup "id" fields with
      | Some (JStr m), Some (JInt id) =>
          if String.eqb m "tools/call" then [id] else []
      | _, _ => []
      end
  | _ => []
  end.

(** The identifiers of the tool calls of a trace, in the order of the calls. *)
Definition request_ids (t : list event) : list Z := flat_map call_id_of t.

(** The number of [readline()] calls of a trace. *)
Definition reads (t : list event) : nat :=
  length (filter (fun e => match e with EvReadline => true | _ => false end) t).

End Client.

(** ** Sample data for the concrete runs *)

(** An instance of [str]: Python's text for [None], [True] and [False],
    and a placeholder for the values whose [repr] is not spelled out. *)
Definition sample_str (v : json) : string :=
  match v with
  | JNull => "None"
  | JBool true => "True"
  | JBool false => "False"
  | _ => "<value>"
  end.

(** A child process with the given lines pending on its stdout. *)
Definition server (pending : list line) (e : stream_end) : Popen :=
  {| pid := 4242; stdin_budget := None; stdout_pending := pending;
     stdout_end := e; on_wait := Exits |}.

(** A client whose handshake with [p] has completed. *)
Definition connected (p : Popen) : MCPClient :=
  with_process (__init__ "/app/mcp-server" "wazuh" "1.0") (Some p).

Definition notification : json :=
  JObj [("jsonrpc", JStr "2.0"); ("method", JStr "notifications/progress")].

Definition tool_reply (id : Z) (text : string) : json :=
  JObj [("jsonrpc", JStr "2.0"); ("id", JInt id);
        ("result",
         JObj [("content", JList [JObj [("type", JStr "text"); ("text", JStr text)]])])].

Definition tools_reply : json :=
  JObj [("jsonrpc", JStr "2.0"); ("id", JInt 1);
        ("result",
         JObj [("tools",
                JList [JObj [("name", JStr "foo"); ("description", JStr "d")]])])].

(** A connected client whose server writes [k] notifications ahead of the
    reply to call 101. *)
Definition busy (k : nat) : MCPClient :=
  connected
    (server (map Json (repeat notification k) ++ [Json (tool_reply 101 "ok")]) Eof).

(** A response to call 101 that carries neither a result nor an error. *)
Definition bare_reply : json :=
  JObj [("jsonrpc", JStr "2.0"); ("id", JInt 101)].

(** A client that was constructed and never initialised. *)
Definition fresh : MCPClient := __init__ "/app/mcp-server" "wazuh" "1.0".

(** The server's refusal of the tools list. *)
Definition error_reply : json :=
  JObj [("jsonrpc", JStr "2.0"); ("id", JInt 1);
        ("error", JObj [("code", JInt (-32602)); ("message", JStr "bad version")])].

(** A child that dies after reading one line from its stdin. *)
Definition dying_server : Popen :=
  {| pid := 4242; stdin_budget := Some 1%nat; stdout_pending := [];
     stdout_end := Eof; on_wait := Exits |}.

(** The server's reply to the [initialize] request. *)
Definition init_reply : json :=
  JObj [("jsonrpc", JStr "2.0"); ("id", JInt 0);
        ("result",
         JObj [("protocolVersion", JStr "2024-11-05");
               ("capabilities", JObj [("tools", JObj [])]);
               ("serverInfo", JObj [("name", JStr "mcp-server-wazuh")])])].

(** The code point U+D800, a surrogate without its pair: what
    [json.loads] makes of the escape [\ud800]. *)
Definition lone_surrogate : string :=
  String (Ascii.ascii_of_nat 237)
    (String (Ascii.ascii_of_nat 160) (String (Ascii.ascii_of_nat 128) EmptyString)).

(** The server's refusal of the tools list, with a plain string as the
    error: the line [{"jsonrpc":"2.0","id":1,"error":"bad \ud800"}]. *)
Definition surrogate_error_reply : json :=
  JObj [("jsonrpc", JStr "2.0"); ("id", JInt 1);
        ("error", JStr ("bad " ++ lone_surrogate))].

(** The content [[{"text":"a"},{"raw":{"text":"b"}},"c"]]. *)
Definition abc_content : list json :=
  [JObj [("text", JStr "a")]; JObj [("raw", JObj [("text", JStr "b")])]; JStr "c"].

(** ** The extraction priority in the words of the specification

    (a) a direct text field, (b) the text field of a nested [raw] object,
    (c) the item itself if it is plain text, (d) a textual coercion. *)

Definition direct_text (item : json) : option json :=
  match item with
  | JObj fields => lookup "text" fields
  | _ => None
  end.

Definition nested_text (item : json) : option json :=
  match item with
  | JObj fields =>
      match lookup "raw" fields with
      | Some (JObj raw) => lookup "text" raw
      | _ => None
      end
  | _ => None
  end.

Definition plain_text (item : json) : option json :=
  match item with
  | JStr _ => Some item
  | _ => None
  end.

Definition text_by_priority (py_str : json -> string) (item : json) : json :=
  match direct_text item with
  | Some text => text
  | None =>
      match nested_text item with
      | Some text => text
      | None =>
          match plain_text item with
          | Some text => text
          | None => JStr (py_str item)
          end
      end
  end.

(** ** What the transport does with one pending line *)

(** The value [_read_json_line] returns for a line. *)
Definition parsed (l : line) : json :=
  match l with
  | Json v => v
  | _ => JNull
  end.

(** The I/O of [_read_json_line] for a line. *)
Definition read_trace (l : line) : list event :=
  match l with
  | Blank => [EvReadline]
  | Text raw =>
      [EvReadline; EvPrint (LogReceived (Text raw)); EvPrint (LogJsonDecodeError raw)]
  | Json v => [EvReadline; EvPrint (LogReceived (Json v))]
  | Undecodable _ => [EvReadline; EvPrint (LogReadError UnicodeDecodeError)]
  end.

(** The pending lines that go with the line when it is read, besides the
    line itself. *)
Definition lost_with (l : line) : nat :=
  match l with
  | Undecodable lost => lost
  | _ => 0%nat
  end.

(** The lines the polling loop of [call_tool] passes over while it waits
    for [call_id], one by one: lines that are read as [None] and take no
    other line with them, falsy values, and dicts whose [id] is absent or
    differs. *)
Definition skipped (call_id : Z) (l : line) : bool :=
  match l with
  | Json (JObj fields) => negb (eq_int (get_default "id" JNull fields) call_id)
  | Json v => negb (truthy v)
  | Undecodable lost => (lost =? 0)%nat
  | _ => true
  end.

(** A message whose [id] field is absent or differs from [call_id]. *)
Definition unrelated (call_id : Z) (msg : json) : Prop :=
  exists fields,
    msg = JObj fields /\ eq_int (get_default "id" JNull fields) call_id = false.

(** A response whose [id] field equals [call_id]. *)
Definition answers (call_id : Z) (msg : json) : Prop :=
  exists fields,
    msg = JObj fields /\ eq_int (get_default "id" JNull fields) call_id = true.

(** Prints, as opposed to I/O on the pipes, sleeps and signals. *)
Definition is_print (e : event) : Prop :=
  match e with
  | EvPrint _ => True
  | _ => False
  end.

(** A method body respects the relation [R] between the client before and
    after it, and the property [T] of the I/O it performs. *)
Definition obeys {A} (R : MCPClient -> MCPClient -> Prop)
    (T : list event -> Prop) (m : M A) : Prop :=
  forall c, R c (self_of (m c)) /\ T (trace_of (m c)).

(** An outcome with the I/O [t] put in front of its trace. *)
Definition prefixed {A} (t : list event) (o : result A * MCPClient * list event)
    : result A * MCPClient * list event :=
  (res_of o, self_of o, t ++ trace_of o).

(** The process after one successful write to its stdin. *)
Definition after_write (p : Popen) : Popen :=
  match stdin_budget p with
  | Some (S n) => with_stdin p (Some n)
  | _ => p
  end.

(** ** Relations between the client before and after a method *)

Definition same_counter (c c' : MCPClient) : Prop :=
  rpc_id_counter c' = rpc_id_counter c.

Definition no_requests (t : list event) : Prop := request_ids t = [].

Definition keeps_process (c c' : MCPClient) : Prop :=
  process c <> None -> process c' <> None.

Definition any_trace (t : list event) : Prop := True.

(** [N] invocations of [call_tool] on one connection: before each of them
    the server has moved on to some state of its pipes. *)
Definition calls_on_connection (calls : list (Popen * string * json)) : list op :=
  flat_map (fun call => [Server (fst (fst call));
                         CallTool (snd (fst call)) (snd call)]) calls.

(** A method body that neither reads nor writes the counter: on a client
    with another counter value it does the same, and leaves that value. *)
Definition counter_blind {A} (m : M A) : Prop :=
  forall c n,
    m (with_counter c n) = (res_of (m c), with_counter (self_of (m c)) n, trace_of (m c)).

(** ** The handshake, line by line *)

(** The lines the handshake loop passes over, one by one: lines that are
    read as [None] and take no other line with them, falsy values, and
    dicts that are neither the result nor the error of request 1. *)
Definition tools_skipped (l : line) : bool :=
  match l with
  | Json (JObj fields) =>
      negb (eq_int (get_default "id" JNull fields) 1
            && (has_key "result" fields || has_key "error" fields))
  | Json v => negb (truthy v)
  | Undecodable lost => (lost =? 0)%nat
  | _ => true
  end.

(** The I/O of one iteration of the handshake loop that reads [l] and goes
    on: the read, and the print of a message that is truthy. *)
Definition handshake_read_trace (l : line) : list event :=
  read_trace l
  ++ (if truthy (parsed l) then [EvPrint (LogReceivedMessage (parsed l))] else []).

(** The end of [handshake], once the three messages are sent: the wait for
    the tools list and the check after the loop. *)
Definition await_tools : M json :=
  print LogWaitingTools ;;
  r <- wait_for_tools init_max_attempts ;;
  let '(tools, exhausted) := r in
  if negb (truthy tools) && exhausted then raise ToolsListTimeout
  else print LogInitOk ;; ret tools.

(** The I/O of [initialize] up to the wait for the tools list, when the
    child is started and takes the three messages. *)
Definition handshake_sent_trace (c : MCPClient) (p : Popen) : list event :=
  [EvPrint (LogStarted (pid p)); EvStderrThread; EvSleep 200; EvPrint LogSendingInit]
  ++ flat_map
       (fun im =>
          [EvPrint (LogSendingMessage (fst im) (get_default "method" JNull
                                                  match snd im with
                                                  | JObj fields => fields
                                                  | _ => []
                                                  end));
           EvPrint (LogSending (snd im)); EvWrite (snd im) true; EvSleep 100])
       (combine [1%nat; 2%nat; 3%nat] (init_messages c)).

(** The child's stdin takes [k] more writes. *)
Definition accepts (k : nat) (p : Popen) : bool :=
  match stdin_budget p with
  | None => true
  | Some n => (k <=? n)%nat
  end.

(** ** Measures of a trace *)

(** The messages that went through to the child's stdin, in order. *)
Definition writes (t : list event) : list json :=
  flat_map (fun e => match e with EvWrite m true => [m] | _ => [] end) t.

(** The sum of a cost over the events of a trace. *)
Definition weight (w : event -> Z) (t : list event) : Z :=
  fold_right (fun e acc => w e + acc) 0 t.

(** The time slept, in milliseconds. *)
Definition sleep_cost (e : event) : Z :=
  match e with
  | EvSleep ms => ms
  | _ => 0
  end.

Definition slept (t : list event) : Z := weight sleep_cost t.

(** One for each call of [readline]. *)
Definition read_cost (e : event) : Z :=
  match e with
  | EvReadline => 1
  | _ => 0
  end.

(** Nothing is written to the child. *)
Definition no_write (e : event) : Prop :=
  match e with
  | EvWrite _ _ => False
  | _ => True
  end.

(** ** The assistants that call the client

    [TheHiveAssistant] and [WazuhAssistant] hold an [MCPClient] in
    [self.mcp_client] ([None] until [initialize_resources] has run) and
    hand every tool call of the model to [call_tool], after rewriting the
    arguments.  The arguments are a dict, updated in place: the functions
    below give the dict after the updates. *)

(** [args[k] = v]: the value of an existing key is replaced where it
    stands, a new key goes to the end. *)
Fixpoint dict_set (k : string) (v : json) (fields : list (string * json))
    : list (string * json) :=
  match fields with
  | [] => [(k, v)]
  | (k', v') :: rest =>
      if String.eqb k k' then (k', v) :: rest else (k', v') :: dict_set k v rest
  end.

(** What is left of the dict after [args.pop(k)]. *)
Fixpoint dict_pop (k : string) (fields : list (string * json))
    : list (string * json) :=
  match fields with
  | [] => []
  | (k', v') :: rest =>
      if String.eqb k k' then rest else (k', v') :: dict_pop k rest
  end.

Module TheHiveAssistant.

Section Assistant.

Variable py_str : json -> string.

(** The builtin [str]: a string is returned as it is. *)
Definition str (v : json) : string :=
  match v with
  | JStr s => s
  | _ => py_str v
  end.

Definition _format_id (id_value : json) : string :=
  let id_str := str id_value in
  if negb (String.prefix "~" id_str) then ("~" ++ id_str)%string else id_str.

Definition id_keys : list string :=
  ["id"; "case_id"; "alert_id"; "observable_id"; "task_id"].

(** [for key in keys: if key in args: args[key] = self._format_id(args[key])]. *)
Fixpoint format_ids (keys : list string) (args : list (string * json))
    : list (string * json) :=
  match keys with
  | [] => args
  | key :: rest =>
      format_ids rest
        match lookup key args with
        | Some id_value => dict_set key (JStr (_format_id id_value)) args
        | None => args
        end
  end.

Definition handle_tool_call (tool_name : string) (args : list (string * json))
    (mcp_client : option MCPClient)
    : result json * option MCPClient * list event :=
  match mcp_client with
  | None => (Raise NotInitialized, None, [])
  | Some c =>
      let r := call_tool py_str tool_name (JObj (format_ids id_keys args)) c in
      (res_of r, Some (self_of r), trace_of r)
  end.

Definition cleanup_resources (mcp_client : option MCPClient)
    : result unit * option MCPClient * list event :=
  match mcp_client with
  | None => (Ret tt, None, [])
  | Some c => let r := cleanup c in (res_of r, Some (self_of r), trace_of r)
  end.

End Assistant.

End TheHiveAssistant.

Module WazuhAssistant.

(** The [DEBUG] prints of [handle_tool_call], one tag per statement. *)
Inductive debug_line : Type :=
| DebugCalled (tool_name : string) (args : list (string * json))
| DebugNoClient
| DebugAboutToCall
| DebugReturned (result : json)
| DebugLength (result : json)
| DebugPreview (result : json).

(** What the assistant does: its own prints, and the I/O of its client. *)
Inductive output : Type :=
| Debug (d : debug_line)
| Client (e : event).

Section Assistant.

Variable py_str : json -> string.

(** "Handle argument normalization". *)
Definition normalize_args (tool_name : string) (args : list (string * json))
    : list (string * json) :=
  if String.eqb tool_name "get_wazuh_agent_processes" then
    if has_key "process_name" args && negb (has_key "search" args) then
      match lookup "process_name" args with
      | Some process_name => dict_set "search" process_name (dict_pop "process_name" args)
      | None => args
      end
    else args
  else args.

Definition handle_tool_call (tool_name : string) (args : list (string * json))
    (mcp_client : option MCPClient)
    : result json * option MCPClient * list output :=
  match mcp_client with
  | None =>
      (Raise NotInitialized, None, [Debug (DebugCalled tool_name args); Debug DebugNoClient])
  | Some c =>
      let r := call_tool py_str tool_name (JObj (normalize_args tool_name args)) c in
      match res_of r with
      | Ret result =>
          (* the last print is [str(result)[:500]], as it is *)
          (if printable_prefix 500 result then Ret result
           else Raise UnicodeEncodeError,
           Some (self_of r),
           [Debug (DebugCalled tool_name args); Debug DebugAboutToCall]
           ++ map Client (trace_of r)
           ++ [Debug (DebugReturned result); Debug (DebugLength result)]
           ++ (if printable_prefix 500 result
               then [Debug (DebugPreview result)] else []))
      | o =>
          (o, Some (self_of r),
           [Debug (DebugCalled tool_name args); Debug DebugAboutToCall]
           ++ map Client (trace_of r))
      end
  end.

(** The I/O of the client within the outputs of the assistant. *)
Definition client_trace (t : list output) : list event :=
  flat_map (fun o => match o with Client e => [e] | Debug _ => [] end) t.

End Assistant.

End WazuhAssistant.

(** * Properties *)

(** ** Basic facts about the monad *)

Ltac munfold :=
  unfold bind, try_except, try_finally, ret, raise, hang, print, sleep, emit,
    get_process, set_process, next_call_id in *.

Lemma res_of_pair {A} (r : result A) (c : MCPClient) (t : list event) :
  res_of (r, c, t) = r.
Proof. reflexivity. Qed.

Lemma self_of_pair {A} (r : result A) (c : MCPClient) (t : list event) :
  self_of (r, c, t) = c.
Proof. reflexivity. Qed.

Lemma trace_of_pair {A} (r : result A) (c : MCPClient) (t : list event) :
  trace_of (r, c, t) = t.
Proof. reflexivity. Qed.

Lemma outcome_eta {A} (o : result A * MCPClient * list event) :
  o = (res_of o, self_of o, trace_of o).
Proof. destruct o as [[r c] t]; reflexivity. Qed.

Lemma res_of_prefixed {A} (t : list event) (o : result A * MCPClient * list event) :
  res_of (prefixed t o) = res_of o.
Proof. reflexivity. Qed.

Lemma self_of_prefixed {A} (t : list event) (o : result A * MCPClient * list event) :
  self_of (prefixed t o) = self_of o.
Proof. reflexivity. Qed.

Lemma trace_of_prefixed {A} (t : list event) (o : result A * MCPClient * list event) :
  trace_of (prefixed t o) = t ++ trace_of o.
Proof. reflexivity. Qed.

(** [bind], one step at a time. *)
Lemma bind_run {A B} (m : M A) (k : A -> M B) (c : MCPClient) :
  bind m k c
  = match res_of (m c) with
    | Ret a => prefixed (trace_of (m c)) (k a (self_of (m c)))
    | Raise e => (Raise e, self_of (m c), trace_of (m c))
    | Hang => (Hang, self_of (m c), trace_of (m c))
    end.
Proof.
  unfold bind, prefixed. destruct (m c) as [[[a|e|] c1] t1]; try reflexivity.
  cbn. destruct (k a c1) as [[r c2] t2]. reflexivity.
Qed.

Lemma with_process_process (c : MCPClient) (p : option Popen) :
  process (with_process c p) = p.
Proof. reflexivity. Qed.

Lemma with_process_same (c : MCPClient) :
  with_process c (process c) = c.
Proof. destruct c; reflexivity. Qed.

(** ** The response normaliser *)

Section Normaliser.

Variable py_str : json -> string.

Lemma combine_content_run (items : list json) :
  forall (i : nat) (acc : list json) (c : MCPClient),
    exists t,
      combine_content py_str i items acc c
      = (Ret (acc ++ map (content_text py_str) items), c, t)
      /\ Forall is_print t.
Proof.
  induction items as [|item rest IH]; intros i acc c; simpl.
  - exists []. unfold ret. rewrite app_nil_r. auto.
  - destruct (IH (S i) (acc ++ [content_text py_str item]) c) as [t [Ht Hp]].
    munfold. rewrite Ht. rewrite <- app_assoc. simpl.
    eexists. split; [reflexivity|]. constructor; [exact I | exact Hp].
Qed.

(** What [normalize] returns on a non-empty content list, whatever the
    client. *)
Lemma normalize_content_list (fields : list (string * json))
    (item : json) (rest : list json) (c : MCPClient) :
  lookup "content" fields = Some (JList (item :: rest)) ->
  res_of (normalize py_str (JObj fields) c)
  = match all_strings (map (content_text py_str) (item :: rest)) with
    | Some texts => Ret (JStr (join blank_line texts))
    | None => Raise TypeError
    end
  /\ self_of (normalize py_str (JObj fields) c) = c
  /\ Forall is_print (trace_of (normalize py_str (JObj fields) c)).
Proof.
  intros Hc. unfold normalize. rewrite Hc.
  destruct (combine_content_run (item :: rest) 0 [] c) as [t [Ht Hp]].
  munfold. cbn [has_len]. cbn beta iota. rewrite Ht.
  unfold str_join. cbn [app].
  destruct (all_strings (map (content_text py_str) (item :: rest))); munfold;
    (split; [reflexivity|]; split; [reflexivity|]);
    unfold trace_of; cbn [snd]; repeat constructor;
    apply Forall_app; split; auto; repeat constructor.
Qed.

Lemma normalize_state (result : json) (c : MCPClient) :
  self_of (normalize py_str result c) = c.
Proof.
  destruct result as [| | | | |items|fields]; try reflexivity.
  destruct (lookup "content" fields) as [content|] eqn:Hc.
  - destruct content as [| | | | |[|item rest]|fs];
      try (unfold normalize; rewrite Hc; reflexivity).
    apply (normalize_content_list fields item rest c Hc).
  - unfold normalize; rewrite Hc; reflexivity.
Qed.

Lemma normalize_prints (result : json) (c : MCPClient) :
  Forall is_print (trace_of (normalize py_str result c)).
Proof.
  destruct result as [| | | | |items|fields];
    try solve [repeat constructor].
  destruct (lookup "content" fields) as [content|] eqn:Hc.
  - destruct content as [| | | | |[|item rest]|fs];
      try solve [unfold normalize; rewrite Hc; repeat constructor].
    apply (proj2 (proj2 (normalize_content_list fields item rest c Hc))).
  - unfold normalize; rewrite Hc; repeat constructor.
Qed.

End Normaliser.

Lemma prints_no_reads (t : list event) : Forall is_print t -> reads t = 0%nat.
Proof.
  induction 1 as [|e t He _ IH]; [reflexivity|].
  destruct e; try contradiction. exact IH.
Qed.

Lemma prints_no_requests (t : list event) : Forall is_print t -> request_ids t = [].
Proof.
  induction 1 as [|e t He _ IH]; [reflexivity|].
  destruct e; try contradiction. exact IH.
Qed.

(** The loop body of the normaliser picks the text of an item by the
    priority the specification gives. *)
Lemma content_text_by_priority (py_str : json -> string) (item : json) :
  content_text py_str item = text_by_priority py_str item.
Proof.
  unfold text_by_priority, direct_text, nested_text, plain_text.
  destruct item as [| | | | | |fields]; cbn [content_text]; try reflexivity.
  destruct (lookup "text" fields); [reflexivity|].
  destruct (lookup "raw" fields) as [[| | | | | |raw]|]; reflexivity.
Qed.

(** C4, as the code has it: for every tool-call result whose content
    field holds the empty list, the normaliser returns that content value
    itself, the empty list, and not the empty string; only the two
    prints happen. *)
Theorem normalize_empty_content (py_str : json -> string)
    (fields : list (string * json)) (c : MCPClient)
    (Hcontent : lookup "content" fields = Some (JList [])) :
  normalize py_str (JObj fields) c
  = (Ret (JList []), c, [EvPrint LogSuccess; EvPrint LogContent]).
Proof.
  unfold normalize. rewrite Hcontent. reflexivity.
Qed.

Lemma normalize_empty_content_witness :
  normalize sample_str (JObj [("content", JList [])]) (connected (server [] Eof))
  = (Ret (JList []), connected (server [] Eof),
     [EvPrint LogSuccess; EvPrint LogContent]).
Proof.
  apply (normalize_empty_content sample_str [("content", JList [])]).
  reflexivity.
Defined.

(** C4 as stated fails: the result [{"content": []}] is normalised to the
    empty list, which is not the empty string, and [call_tool] returns
    that list to its caller. *)
Lemma empty_content_is_not_the_empty_string :
  res_of (normalize sample_str (JObj [("content", JList [])])
            (connected (server [] Eof)))
  = Ret (JList [])
  /\ Ret (JList []) <> Ret (JStr EmptyString)
  /\ res_of (call_tool sample_str "get_wazuh_agents" (JObj [])
               (connected
                  (server
                     [Json (JObj [("jsonrpc", JStr "2.0"); ("id", JInt 101);
                                  ("result", JObj [("content", JList [])])])]
                     Eof)))
     = Ret (JList []).
Proof.
  split; [reflexivity|]. split; [discriminate|]. vm_compute. reflexivity.
Qed.

(** C5, as the code has it: for every result whose content field holds a
    non-empty list, the normaliser takes from each item, in order, its
    text field if present, else the text field of its raw sub-object, else
    the item itself if it is a string, else [str(item)]; when all the
    values taken are strings it returns them joined by a blank line, and
    when a text field holds something else the join raises [TypeError]. *)
Theorem normalize_joins_content_texts (py_str : json -> string)
    (fields : list (string * json)) (items : list json) (c : MCPClient)
    (Hcontent : lookup "content" fields = Some (JList items))
    (Hitems : items <> []) :
  res_of (normalize py_str (JObj fields) c)
  = match all_strings (map (text_by_priority py_str) items) with
    | Some texts => Ret (JStr (join blank_line texts))
    | None => Raise TypeError
    end.
Proof.
  destruct items as [|item rest]; [congruence|].
  rewrite (proj1 (normalize_content_list py_str fields item rest c Hcontent)).
  rewrite (map_ext _ _ (content_text_by_priority py_str)).
  reflexivity.
Qed.

Lemma normalize_joins_content_texts_witness :
  res_of (normalize sample_str (JObj [("content", JList abc_content)])
            (connected (server [] Eof)))
  = Ret (JStr ("a" ++ blank_line ++ "b" ++ blank_line ++ "c")%string).
Proof.
  apply (normalize_joins_content_texts sample_str
           [("content", JList abc_content)] abc_content).
  - reflexivity.
  - discriminate.
Defined.

(** C5 as stated fails: on the content [[{"text": 1}]] the text field is
    present, the value taken is the number 1, and the join raises
    [TypeError] instead of returning a text. *)
Lemma normalize_number_text_raises :
  lookup "content" [("content", JList [JObj [("text", JInt 1)]])]
  = Some (JList [JObj [("text", JInt 1)]])
  /\ direct_text (JObj [("text", JInt 1)]) = Some (JInt 1)
  /\ res_of (normalize sample_str
               (JObj [("content", JList [JObj [("text", JInt 1)]])])
               (connected (server [] Eof)))
     = Raise TypeError.
Proof. repeat split. Qed.

(** ** The transport *)

Lemma read_json_line_no_process (c : MCPClient) :
  process c = None -> _read_json_line c = (Ret JNull, c, []).
Proof. intros H. unfold _read_json_line. munfold. rewrite H. reflexivity. Qed.

(** The read of a pending line: the line goes off the pipe, with the lines
    that are lost with it. *)
Lemma read_json_line_next (c : MCPClient) (p : Popen) (l : line) (rest : list line) :
  process c = Some p ->
  stdout_pending p = l :: rest ->
  _read_json_line c
  = (Ret (parsed l),
     with_process c (Some (with_stdout p (skipn (lost_with l) rest))),
     read_trace l).
Proof.
  intros Hp Hl. unfold _read_json_line, stdout_readline. munfold.
  rewrite Hp, Hl. destruct l; reflexivity.
Qed.

Lemma read_json_line_pending (c : MCPClient) (p : Popen) (l : line) (rest : list line) :
  process c = Some p ->
  stdout_pending p = l :: rest ->
  lost_with l = 0%nat ->
  _read_json_line c
  = (Ret (parsed l), with_process c (Some (with_stdout p rest)), read_trace l).
Proof.
  intros Hp Hl Hlost. rewrite (read_json_line_next c p l rest Hp Hl), Hlost.
  reflexivity.
Qed.

Lemma skipped_lost (call_id : Z) (l : line) :
  skipped call_id l = true -> lost_with l = 0%nat.
Proof.
  destruct l as [|raw|v|lost]; try reflexivity.
  cbn [skipped lost_with]. intros H. now apply Nat.eqb_eq in H.
Qed.

Lemma read_json_line_eof (c : MCPClient) (p : Popen) :
  process c = Some p ->
  stdout_pending p = [] ->
  stdout_end p = Eof ->
  _read_json_line c = (Ret JNull, c, [EvReadline]).
Proof.
  intros Hp Hl He. unfold _read_json_line, stdout_readline. munfold.
  rewrite Hp, Hl, He. reflexivity.
Qed.

Lemma read_json_line_blocks (c : MCPClient) (p : Popen) :
  process c = Some p ->
  stdout_pending p = [] ->
  stdout_end p = Blocks ->
  _read_json_line c = (Hang, c, [EvReadline]).
Proof.
  intros Hp Hl He. unfold _read_json_line, stdout_readline. munfold.
  rewrite Hp, Hl, He. reflexivity.
Qed.

(** ** The polling loop of [call_tool] *)

Lemma answers_truthy (call_id : Z) (fields : list (string * json)) :
  eq_int (get_default "id" JNull fields) call_id = true ->
  truthy (JObj fields) = true.
Proof. destruct fields; [discriminate | reflexivity]. Qed.

Lemma wait_skip (n : nat) (call_id : Z) (c : MCPClient) (p : Popen)
    (l : line) (rest : list line) :
  process c = Some p ->
  stdout_pending p = l :: rest ->
  skipped call_id l = true ->
  let o' := wait_for_response n call_id (with_process c (Some (with_stdout p rest))) in
  wait_for_response (S n) call_id c
  = (res_of o', self_of o', read_trace l ++ EvSleep 100 :: trace_of o').
Proof.
  intros Hp Hl Hs o'. cbn [wait_for_response]. unfold bind at 1.
  rewrite (read_json_line_pending c p l rest Hp Hl (skipped_lost _ _ Hs)).
  subst o'.
  destruct (wait_for_response n call_id (with_process c (Some (with_stdout p rest))))
    as [[r c2] t2] eqn:Hw.
  assert (Hgo : forall t,
             (let '(r0, c0, t0) :=
                (sleep 100 ;; wait_for_response n call_id)
                  (with_process c (Some (with_stdout p rest)))
              in (r0, c0, t ++ t0))
             = (r, c2, t ++ EvSleep 100 :: t2)).
  { intros t. munfold. cbn beta iota. rewrite Hw. reflexivity. }
  destruct l as [|raw|v|]; cbn [parsed truthy negb]; try apply Hgo.
  destruct v as [|b|z|f|s|items|fields]; cbn [skipped truthy negb] in Hs |- *;
    try apply Hgo.
  - destruct b; [discriminate|]. apply Hgo.
  - destruct (z =? 0); [|discriminate]. apply Hgo.
  - destruct f; try discriminate. apply Hgo.
  - destruct (String.eqb s EmptyString); [|discriminate]. apply Hgo.
  - destruct items; [|discriminate]. apply Hgo.
  - destruct fields as [|kv fields']; [apply Hgo|].
    cbn [negb dot_get]. unfold bind at 1, ret at 1. cbn beta iota.
    destruct (eq_int (get_default "id" JNull (kv :: fields')) call_id);
      [discriminate|].
    specialize (Hgo (read_trace (Json (JObj (kv :: fields'))))).
    destruct ((sleep 100;; wait_for_response n call_id)
                (with_process c (Some (with_stdout p rest)))) as [[r0 c0] t0].
    exact Hgo.
Qed.

Lemma wait_match (n : nat) (call_id : Z) (c : MCPClient) (p : Popen)
    (fields : list (string * json)) (rest : list line) :
  process c = Some p ->
  stdout_pending p = Json (JObj fields) :: rest ->
  eq_int (get_default "id" JNull fields) call_id = true ->
  wait_for_response (S n) call_id c
  = (Ret (JObj fields), with_process c (Some (with_stdout p rest)),
     read_trace (Json (JObj fields)) ++ [EvPrint (LogGotResponse call_id)]).
Proof.
  intros Hp Hl Hid. cbn [wait_for_response]. unfold bind at 1.
  rewrite (read_json_line_pending c p _ rest Hp Hl eq_refl).
  cbn [parsed]. rewrite (answers_truthy call_id fields Hid).
  cbn [negb dot_get]. munfold. rewrite Hid. reflexivity.
Qed.

Lemma reads_app (t1 t2 : list event) :
  reads (t1 ++ t2) = (reads t1 + reads t2)%nat.
Proof. unfold reads. rewrite filter_app, length_app. reflexivity. Qed.

Lemma reads_read_trace (l : line) : reads (read_trace l) = 1%nat.
Proof. destruct l; reflexivity. Qed.

Lemma with_stdout_same (p : Popen) : with_stdout p (stdout_pending p) = p.
Proof. destruct p; reflexivity. Qed.

Lemma with_process_current (c : MCPClient) (p : Popen) :
  process c = Some p -> with_process c (Some p) = c.
Proof. intros H. rewrite <- H. apply with_process_same. Qed.

Lemma unrelated_skipped (call_id : Z) (msg : json) :
  unrelated call_id msg -> skipped call_id (Json msg) = true.
Proof.
  intros [fields [-> H]]. cbn [skipped]. now rewrite H.
Qed.

(** The loop passes over any run of skipped lines, one attempt each. *)
Lemma wait_skips (call_id : Z) (ls : list line) :
  forall (n : nat) (c : MCPClient) (p : Popen) (rest : list line),
    process c = Some p ->
    stdout_pending p = ls ++ rest ->
    Forall (fun l => skipped call_id l = true) ls ->
    let o := wait_for_response (length ls + n) call_id c in
    let o' := wait_for_response n call_id (with_process c (Some (with_stdout p rest))) in
    res_of o = res_of o' /\ self_of o = self_of o'
    /\ reads (trace_of o) = (length ls + reads (trace_of o'))%nat.
Proof.
  induction ls as [|l ls IH]; intros n c p rest Hp Hl Hs.
  - cbn [length Nat.add app] in *. rewrite <- Hl, with_stdout_same.
    rewrite (with_process_current c p Hp). auto.
  - inversion Hs as [|? ? Hl1 Hls]; subst.
    cbn [length Nat.add]. cbn [app] in Hl.
    rewrite (wait_skip (length ls + n) call_id c p l (ls ++ rest) Hp Hl Hl1).
    destruct (IH n (with_process c (Some (with_stdout p (ls ++ rest))))
                (with_stdout p (ls ++ rest)) rest eq_refl eq_refl Hls)
      as (Hr & Hc & Ht).
    cbn zeta in *. rewrite res_of_pair, self_of_pair, trace_of_pair.
    split; [exact Hr|]. split; [exact Hc|].
    rewrite reads_app, reads_read_trace.
    change (EvSleep 100 :: ?t) with ([EvSleep 100] ++ t).
    rewrite reads_app. cbn [reads filter length Nat.add]. 
    rewrite Ht. reflexivity.
Qed.

(** After the skipped lines, a response with the awaited identifier ends
    the wait. *)
Lemma await_response_answer (call_id : Z) (c : MCPClient) (p : Popen)
    (ls : list line) (fields : list (string * json)) (rest : list line) :
  process c = Some p ->
  stdout_pending p = ls ++ Json (JObj fields) :: rest ->
  Forall (fun l => skipped call_id l = true) ls ->
  (length ls < call_max_attempts)%nat ->
  eq_int (get_default "id" JNull fields) call_id = true ->
  let o := await_response call_id c in
  res_of o = Ret (JObj fields)
  /\ self_of o = with_process c (Some (with_stdout p rest))
  /\ reads (trace_of o) = S (length ls).
Proof.
  intros Hp Hl Hs Hlen Hid.
  set (m := (call_max_attempts - S (length ls))%nat).
  assert (Hm : call_max_attempts = (length ls + S m)%nat) by (subst m; lia).
  destruct (wait_skips call_id ls (S m) c p _ Hp Hl Hs) as (Hr & Hc & Ht).
  cbn zeta in Hr, Hc, Ht.
  rewrite (wait_match m call_id
             (with_process c (Some (with_stdout p (Json (JObj fields) :: rest))))
             (with_stdout p (Json (JObj fields) :: rest)) fields rest
             eq_refl eq_refl Hid) in Hr, Hc, Ht.
  rewrite res_of_pair in Hr. rewrite self_of_pair in Hc. rewrite trace_of_pair in Ht.
  cbn zeta. unfold await_response. rewrite Hm. munfold.
  destruct (wait_for_response (length ls + S m) call_id c) as [[r c2] t2].
  unfold res_of, self_of, trace_of in Hr, Hc, Ht. cbn [fst snd] in Hr, Hc, Ht.
  subst r c2. rewrite (answers_truthy call_id fields Hid).
  cbn [negb]. unfold res_of, self_of, trace_of. cbn [fst snd].
  split; [reflexivity|]. split; [reflexivity|].
  change (EvPrint (LogWaiting call_id) :: ?t) with ([EvPrint (LogWaiting call_id)] ++ t).
  rewrite !app_nil_r.
  change (reads ([EvPrint (LogWaiting call_id)] ++ t2) = S (length ls)).
  rewrite reads_app, Ht, reads_app, reads_read_trace. cbn. lia.
Qed.

(** ** [call_tool], phase by phase *)

Section CallTool.

Variable py_str : json -> string.

Lemma normalize_result_any_state (result : json) (c c' : MCPClient) :
  res_of (normalize py_str result c) = res_of (normalize py_str result c').
Proof.
  destruct result as [| | | | |items|fields]; try reflexivity.
  destruct (lookup "content" fields) as [content|] eqn:Hc.
  - destruct content as [| | | | |[|item rest]|fs];
      try (unfold normalize; rewrite Hc; reflexivity).
    rewrite (proj1 (normalize_content_list py_str fields item rest c Hc)).
    rewrite (proj1 (normalize_content_list py_str fields item rest c' Hc)).
    reflexivity.
  - unfold normalize; rewrite Hc; reflexivity.
Qed.

(** A response with an error: the message is printed, when stdout can
    encode it, and raised. *)
Lemma handle_response_error (fields : list (string * json)) (error : json)
    (c : MCPClient) :
  lookup "error" fields = Some error ->
  handle_response py_str (JObj fields) c
  = match error with
    | JObj details =>
        let error_msg := get_default "message" (JStr "Unknown MCP error") details in
        if printable error_msg
        then (Raise (ToolError error_msg), c, [EvPrint (LogToolError error_msg)])
        else (Raise UnicodeEncodeError, c, [])
    | _ => (Raise AttributeError, c, [])
    end.
Proof.
  intros He. cbn [handle_response]. rewrite He.
  destruct error as [| | | | | |details]; try reflexivity.
  cbn [dot_get_default]. unfold bind, ret, print_text. cbn zeta.
  destruct (printable (get_default "message" (JStr "Unknown MCP error") details));
    reflexivity.
Qed.

Ltac error_case He :=
  rewrite (handle_response_error _ _ _ He);
  match goal with
  | |- context [match ?error with JObj _ => _ | _ => _ end] =>
      destruct error as [| | | | | |?details]; try reflexivity;
      cbn zeta; destruct (printable _); try reflexivity
  end.

Lemma handle_response_state (response : json) (c : MCPClient) :
  self_of (handle_response py_str response c) = c.
Proof.
  destruct response as [| | | | | |fields]; try reflexivity.
  destruct (lookup "error" fields) as [error|] eqn:He; [error_case He|].
  cbn [handle_response]. rewrite He.
  destruct (lookup "result" fields); [apply normalize_state | reflexivity].
Qed.

Lemma handle_response_any_state (response : json) (c c' : MCPClient) :
  res_of (handle_response py_str response c)
  = res_of (handle_response py_str response c').
Proof.
  destruct response as [| | | | | |fields]; try reflexivity.
  destruct (lookup "error" fields) as [error|] eqn:He.
  - rewrite !(handle_response_error _ _ _ He).
    destruct error as [| | | | | |details]; try reflexivity.
    cbn zeta. destruct (printable _); reflexivity.
  - cbn [handle_response]. rewrite He.
    destruct (lookup "result" fields);
      [apply normalize_result_any_state | reflexivity].
Qed.

Lemma handle_response_prints (response : json) (c : MCPClient) :
  Forall is_print (trace_of (handle_response py_str response c)).
Proof.
  destruct response as [| | | | | |fields]; try solve [repeat constructor].
  destruct (lookup "error" fields) as [error|] eqn:He.
  - rewrite (handle_response_error _ _ _ He).
    destruct error as [| | | | | |details]; try solve [repeat constructor].
    cbn zeta. destruct (printable _); repeat constructor.
  - cbn [handle_response]. rewrite He.
    destruct (lookup "result" fields);
      [apply normalize_prints | repeat constructor].
Qed.

(** A response with a result and no error is handed to the normaliser. *)
Lemma handle_response_result (fields : list (string * json)) (result : json)
    (c : MCPClient) :
  lookup "error" fields = None ->
  lookup "result" fields = Some result ->
  handle_response py_str (JObj fields) c = normalize py_str result c.
Proof. intros He Hr. cbn [handle_response]. rewrite He, Hr. reflexivity. Qed.

(** A response with neither field is invalid. *)
Lemma handle_response_invalid (fields : list (string * json)) (c : MCPClient) :
  lookup "error" fields = None ->
  lookup "result" fields = None ->
  handle_response py_str (JObj fields) c
  = (Raise InvalidResponse, c, [EvPrint LogInvalid]).
Proof. intros He Hr. cbn [handle_response]. rewrite He, Hr. reflexivity. Qed.

(** Without a process handle the guard raises before anything happens. *)
Lemma call_tool_no_process (tool_name : string) (arguments : json) (c : MCPClient) :
  process c = None ->
  call_tool py_str tool_name arguments c = (Raise NotInitialized, c, []).
Proof. intros H. unfold call_tool. munfold. rewrite H. reflexivity. Qed.

(** With a process whose stdin takes the request, the call is the wait
    and the handling of the response, run on the client with the new
    counter. *)
Lemma call_tool_sent (tool_name : string) (arguments : json)
    (c : MCPClient) (p : Popen) :
  process c = Some p ->
  stdin_budget p <> Some O ->
  let call_id := rpc_id_counter c + 1 in
  let request := rpc_call call_id tool_name arguments in
  call_tool py_str tool_name arguments c
  = prefixed
      [EvPrint (LogCalling tool_name arguments); EvPrint (LogSending request);
       EvWrite request true]
      ((response <- await_response call_id ;; handle_response py_str response)
         (with_process (with_counter c call_id) (Some (after_write p)))).
Proof.
  intros Hp Hb call_id request.
  assert (Hsame : with_process (with_counter c call_id) (Some p)
                  = with_counter c call_id).
  { apply with_process_current. exact Hp. }
  unfold call_tool, _send_message, stdin_write, after_write, prefixed.
  unfold bind at 1. unfold get_process at 1. rewrite Hp.
  unfold bind at 1. unfold next_call_id at 1. fold call_id.
  unfold bind at 1. unfold print at 1, emit at 1.
  unfold bind at 1. unfold try_except at 1.
  unfold bind at 1. unfold get_process at 1.
  cbn [process with_counter]. rewrite Hp.
  unfold bind at 1. unfold print at 1, emit at 1. fold request.
  destruct (stdin_budget p) as [[|k]|]; [congruence| |].
  - munfold. cbn [app].
    destruct (let '(r, c2, t2) := await_response call_id _ in _) as [[r c2] t2].
    reflexivity.
  - munfold. cbn [app]. rewrite Hsame.
    destruct (let '(r, c2, t2) := await_response call_id _ in _) as [[r c2] t2].
    reflexivity.
Qed.

(** The call whose response arrives after skipped lines, within the
    attempts: the result is the handling of that response, the lines up to
    it are consumed, and one read was made per line. *)
Lemma call_tool_answered (tool_name : string) (arguments : json)
    (c : MCPClient) (p : Popen) (ls : list line)
    (fields : list (string * json)) (rest : list line) :
  process c = Some p ->
  stdin_budget p <> Some O ->
  stdout_pending p = ls ++ Json (JObj fields) :: rest ->
  Forall (fun l => skipped (rpc_id_counter c + 1) l = true) ls ->
  (length ls < call_max_attempts)%nat ->
  eq_int (get_default "id" JNull fields) (rpc_id_counter c + 1) = true ->
  let o := call_tool py_str tool_name arguments c in
  let c' := with_process (with_counter c (rpc_id_counter c + 1))
              (Some (with_stdout (after_write p) rest)) in
  res_of o = res_of (handle_response py_str (JObj fields) c)
  /\ self_of o = c'
  /\ reads (trace_of o) = S (length ls).
Proof.
  intros Hp Hb Hl Hs Hlen Hid o c'. subst o.
  rewrite (call_tool_sent tool_name arguments c p Hp Hb). cbn zeta.
  set (c1 := with_process (with_counter c (rpc_id_counter c + 1)) (Some (after_write p))).
  assert (Hl1 : stdout_pending (after_write p) = ls ++ Json (JObj fields) :: rest).
  { unfold after_write. destruct (stdin_budget p) as [[|k]|]; exact Hl. }
  destruct (await_response_answer (rpc_id_counter c + 1) c1 (after_write p)
              ls fields rest eq_refl Hl1 Hs Hlen Hid) as (Hr & Hc & Ht).
  cbn zeta in Hr, Hc, Ht. unfold prefixed. unfold bind.
  destruct (await_response (rpc_id_counter c + 1) c1) as [[r c2] t2].
  unfold res_of, self_of, trace_of in Hr, Hc, Ht. cbn [fst snd] in Hr, Hc, Ht.
  subst r c2.
  pose proof (handle_response_state (JObj fields)
                (with_process c1 (Some (with_stdout (after_write p) rest)))) as Hst.
  pose proof (handle_response_any_state (JObj fields)
                (with_process c1 (Some (with_stdout (after_write p) rest))) c) as Hres.
  pose proof (handle_response_prints (JObj fields)
                (with_process c1 (Some (with_stdout (after_write p) rest)))) as Hpr.
  destruct (handle_response py_str (JObj fields)
              (with_process c1 (Some (with_stdout (after_write p) rest))))
    as [[r3 c3] t3].
  rewrite res_of_pair in Hres. rewrite self_of_pair in Hst.
  rewrite trace_of_pair in Hpr.
  unfold res_of, self_of, trace_of. cbn [fst snd].
  split; [exact Hres|]. split; [exact Hst|].
  change (reads ([EvPrint (LogCalling tool_name arguments);
                  EvPrint (LogSending (rpc_call (rpc_id_counter c + 1) tool_name arguments));
                  EvWrite (rpc_call (rpc_id_counter c + 1) tool_name arguments) true]
                 ++ (t2 ++ t3)) = S (length ls)).
  rewrite !reads_app, Ht, (prints_no_reads t3 Hpr). cbn. lia.
Qed.

End CallTool.

(** C1, as the code has it: on a connection whose stdin takes the request,
    if the inbound stream delivers K <= 49 messages whose id is absent or
    differs from the call's identifier, followed by a response whose id
    equals it and which carries a result and no error, then [call_tool]
    passes over the K messages, each at the cost of one read, consumes the
    stream up to the response, and returns what the normaliser makes of
    the response's result. *)
Theorem call_tool_skips_unrelated (py_str : json -> string)
    (tool_name : string) (arguments : json) (c : MCPClient) (p : Popen)
    (msgs : list json) (fields : list (string * json)) (result : json)
    (rest : list line)
    (Hprocess : process c = Some p)
    (Hstdin : stdin_budget p <> Some O)
    (Hstream : stdout_pending p = map Json msgs ++ Json (JObj fields) :: rest)
    (Hunrelated : Forall (unrelated (rpc_id_counter c + 1)) msgs)
    (HK : (length msgs <= 49)%nat)
    (Hid : eq_int (get_default "id" JNull fields) (rpc_id_counter c + 1) = true)
    (Herror : lookup "error" fields = None)
    (Hresult : lookup "result" fields = Some result) :
  res_of (call_tool py_str tool_name arguments c)
  = res_of (normalize py_str result c)
  /\ self_of (call_tool py_str tool_name arguments c)
     = with_process (with_counter c (rpc_id_counter c + 1))
         (Some (with_stdout (after_write p) rest))
  /\ reads (trace_of (call_tool py_str tool_name arguments c)) = S (length msgs).
Proof.
  assert (Hs : Forall (fun l => skipped (rpc_id_counter c + 1) l = true)
                 (map Json msgs)).
  { apply Forall_map. eapply Forall_impl; [|exact Hunrelated].
    intros m Hm. now apply unrelated_skipped. }
  assert (Hlen : (length (map Json msgs) < call_max_attempts)%nat).
  { rewrite length_map. unfold call_max_attempts. lia. }
  destruct (call_tool_answered py_str tool_name arguments c p (map Json msgs)
              fields rest Hprocess Hstdin Hstream Hs Hlen Hid) as (Hr & Hc & Ht).
  cbn zeta in Hr, Hc, Ht.
  rewrite (handle_response_result py_str fields result c Herror Hresult) in Hr.
  rewrite length_map in Ht. auto.
Qed.

Lemma call_tool_skips_unrelated_witness :
  res_of (call_tool sample_str "get_wazuh_agents" (JObj []) (busy 2))
  = Ret (JStr "ok")
  /\ self_of (call_tool sample_str "get_wazuh_agents" (JObj []) (busy 2))
     = with_counter (connected (server [] Eof)) 101
  /\ reads (trace_of (call_tool sample_str "get_wazuh_agents" (JObj []) (busy 2)))
     = 3%nat.
Proof.
  apply (call_tool_skips_unrelated sample_str "get_wazuh_agents" (JObj [])
           (busy 2)
           (server (map Json (repeat notification 2) ++ [Json (tool_reply 101 "ok")]) Eof)
           (repeat notification 2)
           [("jsonrpc", JStr "2.0"); ("id", JInt 101);
            ("result",
             JObj [("content",
                    JList [JObj [("type", JStr "text"); ("text", JStr "ok")]])])]
           (JObj [("content",
                   JList [JObj [("type", JStr "text"); ("text", JStr "ok")]])])
           []).
  - reflexivity.
  - discriminate.
  - reflexivity.
  - repeat constructor; eexists; split; reflexivity.
  - simpl; lia.
  - reflexivity.
  - reflexivity.
  - reflexivity.
Defined.

(** C1 as stated fails for K = 50: fifty notifications without an id use
    up the fifty attempts, the response with the call's identifier 101 is
    never read, and the call raises the timeout. *)
Lemma call_tool_fifty_unrelated_times_out :
  process (busy 50)
  = Some (server (map Json (repeat notification 50) ++ [Json (tool_reply 101 "ok")]) Eof)
  /\ rpc_id_counter (busy 50) + 1 = 101
  /\ Forall (unrelated 101) (repeat notification 50)
  /\ answers 101 (tool_reply 101 "ok")
  /\ res_of (call_tool sample_str "get_wazuh_agents" (JObj []) (busy 50))
     = Raise ResponseTimeout
  /\ reads (trace_of (call_tool sample_str "get_wazuh_agents" (JObj []) (busy 50)))
     = 50%nat.
Proof.
  split; [reflexivity|]. split; [reflexivity|].
  split; [apply Forall_forall; intros m Hm; apply repeat_spec in Hm; subst m;
          eexists; split; reflexivity|].
  split; [eexists; split; reflexivity|].
  split; vm_compute; reflexivity.
Qed.

(** ** What the polling loop can return *)

Lemma wait_step_none (n : nat) (call_id : Z) (c c1 : MCPClient) (t : list event) :
  _read_json_line c = (Ret JNull, c1, t) ->
  wait_for_response (S n) call_id c
  = prefixed (t ++ [EvSleep 100]) (wait_for_response n call_id c1).
Proof.
  intros Hread. cbn [wait_for_response]. unfold bind at 1. rewrite Hread.
  cbn [truthy negb]. munfold. unfold prefixed.
  destruct (wait_for_response n call_id c1) as [[r c2] t2].
  unfold res_of, self_of, trace_of. cbn [fst snd app].
  now rewrite <- app_assoc.
Qed.

Lemma wait_step_hang (n : nat) (call_id : Z) (c c1 : MCPClient) (t : list event) :
  _read_json_line c = (Hang, c1, t) ->
  wait_for_response (S n) call_id c = (Hang, c1, t).
Proof.
  intros Hread. cbn [wait_for_response]. unfold bind at 1. now rewrite Hread.
Qed.

Lemma In_skipn {A} (x : A) (n : nat) (l : list A) : In x (skipn n l) -> In x l.
Proof.
  intros H. rewrite <- (firstn_skipn n l). apply in_or_app. now right.
Qed.

(** A line that the loop does not pass over is a response with the awaited
    identifier, a truthy value that is no dict, or an undecodable chunk
    that takes other lines with it. *)
Lemma not_skipped (call_id : Z) (l : line) :
  skipped call_id l = false ->
  (exists fields,
      l = Json (JObj fields)
      /\ eq_int (get_default "id" JNull fields) call_id = true)
  \/ (exists v,
         l = Json v /\ truthy v = true
         /\ forall fields, v <> JObj fields)
  \/ (exists lost, l = Undecodable (S lost)).
Proof.
  destruct l as [|raw|v|lost]; try discriminate.
  2: { cbn [skipped]. destruct lost; [discriminate|]. intros _. right. right. eauto. }
  destruct v as [| | | | | |fields]; cbn [skipped]; intros H;
    try (right; left; eexists; split; [reflexivity|]; split;
         [now apply negb_false_iff in H | intros; discriminate]).
  left. exists fields. split; [reflexivity|]. now apply negb_false_iff in H.
Qed.

Lemma wait_step_not_dict (n : nat) (call_id : Z) (c c1 : MCPClient)
    (v : json) (t : list event) :
  _read_json_line c = (Ret v, c1, t) ->
  truthy v = true ->
  (forall fields, v <> JObj fields) ->
  wait_for_response (S n) call_id c = (Raise AttributeError, c1, t).
Proof.
  intros Hread Ht Hv. cbn [wait_for_response]. unfold bind at 1.
  rewrite Hread, Ht. cbn [negb].
  destruct v as [| | | | | |fields];
    try (exfalso; eapply Hv; reflexivity);
    cbn [dot_get]; munfold; cbn beta iota; now rewrite app_nil_r.
Qed.

(** Whatever the loop returns as a response was a pending line carrying
    the awaited identifier. *)
Lemma wait_returns_answer (call_id : Z) (n : nat) :
  forall (c : MCPClient) (msg : json),
    res_of (wait_for_response n call_id c) = Ret msg ->
    truthy msg = true ->
    exists p fields,
      process c = Some p /\ msg = JObj fields
      /\ In (Json msg) (stdout_pending p)
      /\ eq_int (get_default "id" JNull fields) call_id = true.
Proof.
  induction n as [|n IH]; intros c msg Hr Ht.
  - cbn in Hr. injection Hr as <-. discriminate.
  - destruct (process c) as [p|] eqn:Hp.
    + destruct (stdout_pending p) as [|l rest] eqn:Hl.
      * destruct (stdout_end p) eqn:He.
        -- rewrite (wait_step_none n call_id c c [EvReadline]
                      (read_json_line_eof c p Hp Hl He)) in Hr.
           destruct (IH c msg Hr Ht) as (p' & fields & Hp' & Hm & Hin & Hid).
           rewrite Hp in Hp'. injection Hp' as <-. rewrite Hl in Hin. contradiction Hin.
        -- rewrite (wait_step_hang n call_id c c [EvReadline]
                      (read_json_line_blocks c p Hp Hl He)) in Hr.
           discriminate.
      * destruct (skipped call_id l) eqn:Hs.
        -- rewrite (wait_skip n call_id c p l rest Hp Hl Hs) in Hr.
           rewrite res_of_pair in Hr.
           destruct (IH _ msg Hr Ht) as (p' & fields & Hp' & Hm & Hin & Hid).
           cbn [process with_process] in Hp'. injection Hp' as <-.
           exists p, fields. repeat split; auto.
           rewrite Hl. cbn [In]. right. exact Hin.
        -- destruct (not_skipped call_id l Hs)
             as [(fields & -> & Hid) | [(v & -> & Hv & Hnd) | (lost & ->)]].
           ++ rewrite (wait_match n call_id c p fields rest Hp Hl Hid) in Hr.
              injection Hr as <-.
              exists p, fields. repeat split; auto.
              rewrite Hl. cbn [In]. left. reflexivity.
           ++ rewrite (wait_step_not_dict n call_id c _ v _
                         (read_json_line_pending c p (Json v) rest Hp Hl eq_refl) Hv Hnd)
                in Hr.
              discriminate.
           ++ rewrite (wait_step_none n call_id c _ _
                         (read_json_line_next c p _ rest Hp Hl)) in Hr.
              rewrite res_of_prefixed in Hr.
              destruct (IH _ msg Hr Ht) as (p' & fields & Hp' & Hm & Hin & Hid).
              cbn [process with_process] in Hp'. injection Hp' as <-.
              exists p, fields. repeat split; auto.
              rewrite Hl. cbn [In]. right.
              exact (In_skipn _ (S lost) rest Hin).
    + rewrite (wait_step_none n call_id c c []
                 (read_json_line_no_process c Hp)) in Hr.
      destruct (IH c msg Hr Ht) as (p' & ? & Hp' & _). congruence.
Qed.

Section Returned.

Variable py_str : json -> string.

Lemma call_tool_send_failed (tool_name : string) (arguments : json)
    (c : MCPClient) (p : Popen) :
  process c = Some p ->
  stdin_budget p = Some O ->
  res_of (call_tool py_str tool_name arguments c) = Raise (SendFailed OSError)
  /\ self_of (call_tool py_str tool_name arguments c)
     = with_counter c (rpc_id_counter c + 1)
  /\ reads (trace_of (call_tool py_str tool_name arguments c)) = 0%nat.
Proof.
  intros Hp Hb. unfold call_tool, _send_message, stdin_write. munfold.
  rewrite Hp. cbn [process with_counter]. rewrite Hp, Hb. auto.
Qed.

Lemma await_response_ret (call_id : Z) (c : MCPClient) (response : json) :
  res_of (await_response call_id c) = Ret response ->
  res_of (wait_for_response call_max_attempts call_id c) = Ret response
  /\ truthy response = true
  /\ self_of (await_response call_id c)
     = self_of (wait_for_response call_max_attempts call_id c).
Proof.
  unfold await_response. munfold.
  destruct (wait_for_response call_max_attempts call_id c) as [[[v| |] c2] t2];
    cbn; try discriminate.
  destruct (truthy v) eqn:Htv; cbn; [|discriminate].
  intros H. injection H as <-. auto.
Qed.

Lemma handle_response_ret (fields : list (string * json)) (c : MCPClient) (v : json) :
  res_of (handle_response py_str (JObj fields) c) = Ret v ->
  lookup "error" fields = None
  /\ exists result,
       lookup "result" fields = Some result
       /\ res_of (normalize py_str result c) = Ret v.
Proof.
  destruct (lookup "error" fields) as [error|] eqn:He.
  - rewrite (handle_response_error py_str _ _ _ He).
    destruct error as [| | | | | |details]; try discriminate.
    cbn zeta. destruct (printable _); discriminate.
  - cbn [handle_response]. rewrite He.
    destruct (lookup "result" fields) as [result|]; [|discriminate].
    intros H. split; [reflexivity|]. exists result. auto.
Qed.

(** A value comes back from [call_tool] only for a pending line that is a
    response with the call's identifier, a result and no error. *)
Lemma call_tool_ret (tool_name : string) (arguments : json) (c : MCPClient) (v : json) :
  res_of (call_tool py_str tool_name arguments c) = Ret v ->
  exists p fields result,
    process c = Some p
    /\ In (Json (JObj fields)) (stdout_pending p)
    /\ eq_int (get_default "id" JNull fields) (rpc_id_counter c + 1) = true
    /\ lookup "error" fields = None
    /\ lookup "result" fields = Some result
    /\ res_of (normalize py_str result c) = Ret v.
Proof.
  intros Hr.
  destruct (process c) as [p|] eqn:Hp;
    [|rewrite (call_tool_no_process py_str _ _ c Hp) in Hr; discriminate].
  destruct (stdin_budget p) as [[|k]|] eqn:Hb.
  1: { rewrite (proj1 (call_tool_send_failed _ _ c p Hp Hb)) in Hr. discriminate. }
  all: rewrite (call_tool_sent py_str tool_name arguments c p Hp) in Hr
         by (rewrite Hb; discriminate);
       cbn zeta in Hr; rewrite res_of_prefixed, bind_run in Hr;
       match type of Hr with
       | context [await_response ?i ?c1] =>
           pose proof (await_response_ret i c1) as Ha;
           destruct (res_of (await_response i c1)) as [response| |];
           [ | exfalso; clear Ha; discriminate Hr | exfalso; clear Ha; discriminate Hr ];
           destruct (Ha response eq_refl) as (Hw & Ht & _); clear Ha;
           destruct (wait_returns_answer _ _ _ response Hw Ht)
             as (p' & fields & Hp' & -> & Hin & Hid);
           cbn [process with_process] in Hp'; injection Hp' as <-;
           rewrite res_of_prefixed in Hr;
           destruct (handle_response_ret fields _ v Hr)
             as (Herr & result & Hres & Hn);
           exists p, fields, result;
           rewrite (normalize_result_any_state py_str result c
                      (self_of (await_response i c1)));
           (split; [reflexivity|]); (split; [|auto]);
           revert Hin; unfold after_write; rewrite Hb; auto
       end.
Qed.

End Returned.

(** C9: a matched response that carries neither a result nor an error
    makes [call_tool] raise the invalid-response error, and no value is
    returned for it; whenever [call_tool] does return a value, the response
    it matched carries a result (and no error), and the value is the
    normalised result. *)
Theorem matched_response_without_result_is_invalid (py_str : json -> string)
    (tool_name : string) (arguments : json) (c : MCPClient) (p : Popen)
    (ls : list line) (fields : list (string * json)) (rest : list line)
    (Hprocess : process c = Some p)
    (Hstdin : stdin_budget p <> Some O)
    (Hstream : stdout_pending p = ls ++ Json (JObj fields) :: rest)
    (Hskipped : Forall (fun l => skipped (rpc_id_counter c + 1) l = true) ls)
    (Hattempts : (length ls < call_max_attempts)%nat)
    (Hid : eq_int (get_default "id" JNull fields) (rpc_id_counter c + 1) = true)
    (Herror : lookup "error" fields = None)
    (Hresult : lookup "result" fields = None) :
  handle_response py_str (JObj fields) c
  = (Raise InvalidResponse, c, [EvPrint LogInvalid])
  /\ res_of (call_tool py_str tool_name arguments c) = Raise InvalidResponse
  /\ (forall (tool_name' : string) (arguments' : json) (c' : MCPClient) (v : json),
         res_of (call_tool py_str tool_name' arguments' c') = Ret v ->
         exists p' fields' result,
           process c' = Some p'
           /\ In (Json (JObj fields')) (stdout_pending p')
           /\ eq_int (get_default "id" JNull fields') (rpc_id_counter c' + 1) = true
           /\ lookup "error" fields' = None
           /\ lookup "result" fields' = Some result
           /\ res_of (normalize py_str result c') = Ret v).
Proof.
  split; [now apply handle_response_invalid|]. split.
  - destruct (call_tool_answered py_str tool_name arguments c p ls fields rest
                Hprocess Hstdin Hstream Hskipped Hattempts Hid) as (Hr & _).
    cbn zeta in Hr. rewrite Hr.
    now rewrite (handle_response_invalid py_str fields c Herror Hresult).
  - intros tn ar c' v Hv. exact (call_tool_ret py_str tn ar c' v Hv).
Qed.

Lemma matched_response_without_result_is_invalid_witness :
  handle_response sample_str bare_reply (connected (server [Json notification; Json bare_reply] Eof))
  = (Raise InvalidResponse,
     connected (server [Json notification; Json bare_reply] Eof),
     [EvPrint LogInvalid])
  /\ res_of (call_tool sample_str "get_wazuh_agents" (JObj [])
               (connected (server [Json notification; Json bare_reply] Eof)))
     = Raise InvalidResponse.
Proof.
  destruct (matched_response_without_result_is_invalid sample_str
              "get_wazuh_agents" (JObj [])
              (connected (server [Json notification; Json bare_reply] Eof))
              (server [Json notification; Json bare_reply] Eof)
              [Json notification]
              [("jsonrpc", JStr "2.0"); ("id", JInt 101)] [])
    as (H1 & H2 & _).
  - reflexivity.
  - discriminate.
  - reflexivity.
  - repeat constructor.
  - unfold call_max_attempts. simpl. lia.
  - reflexivity.
  - reflexivity.
  - reflexivity.
  - split; [exact H1 | exact H2].
Defined.

(** ** Malformed lines *)

Lemma tools_step_none (n : nat) (c c1 : MCPClient) (v : json) (t : list event) :
  _read_json_line c = (Ret v, c1, t) ->
  truthy v = false ->
  wait_for_tools (S n) c
  = prefixed (t ++ [EvSleep 100]) (wait_for_tools n c1).
Proof.
  intros Hread Hv. cbn [wait_for_tools]. unfold bind at 1. rewrite Hread, Hv.
  munfold. unfold prefixed.
  destruct (wait_for_tools n c1) as [[r c2] t2].
  unfold res_of, self_of, trace_of. cbn [fst snd app].
  now rewrite <- app_assoc.
Qed.

(** C6, as amended: a line of text that [json.loads] rejects is read as
    [None]: it is consumed, the decode error is printed, nothing is
    raised.  It satisfies neither the wait of [call_tool] nor the wait of
    the handshake: each goes on with the lines that follow, one attempt
    shorter.  A response with the awaited identifier that follows it
    completes the call when it is read within the attempts that are left,
    that is, when at most 49 lines, all of them passed over, are read
    before it: the outcome of [call_tool] is then the handling of that
    response, wherever the rejected line stands among the 49. *)
Theorem malformed_line_is_dropped (py_str : json -> string) (raw : string) :
  (forall (c : MCPClient) (p : Popen) (rest : list line),
      process c = Some p ->
      stdout_pending p = Text raw :: rest ->
      _read_json_line c
      = (Ret JNull, with_process c (Some (with_stdout p rest)),
         [EvReadline; EvPrint (LogReceived (Text raw));
          EvPrint (LogJsonDecodeError raw)])
      /\ (forall (n : nat) (call_id : Z),
             wait_for_response (S n) call_id c
             = prefixed
                 [EvReadline; EvPrint (LogReceived (Text raw));
                  EvPrint (LogJsonDecodeError raw); EvSleep 100]
                 (wait_for_response n call_id
                    (with_process c (Some (with_stdout p rest)))))
      /\ (forall n : nat,
             wait_for_tools (S n) c
             = prefixed
                 [EvReadline; EvPrint (LogReceived (Text raw));
                  EvPrint (LogJsonDecodeError raw); EvSleep 100]
                 (wait_for_tools n (with_process c (Some (with_stdout p rest))))))
  /\ (forall (tool_name : string) (arguments : json) (c : MCPClient) (p : Popen)
             (before after : list line) (fields : list (string * json))
             (rest : list line),
         process c = Some p ->
         stdin_budget p <> Some O ->
         stdout_pending p
         = before ++ Text raw :: after ++ Json (JObj fields) :: rest ->
         Forall (fun l => skipped (rpc_id_counter c + 1) l = true) before ->
         Forall (fun l => skipped (rpc_id_counter c + 1) l = true) after ->
         (length before + length after <= 48)%nat ->
         eq_int (get_default "id" JNull fields) (rpc_id_counter c + 1) = true ->
         res_of (call_tool py_str tool_name arguments c)
         = res_of (handle_response py_str (JObj fields) c)
         /\ self_of (call_tool py_str tool_name arguments c)
            = with_process (with_counter c (rpc_id_counter c + 1))
                (Some (with_stdout (after_write p) rest))
         /\ reads (trace_of (call_tool py_str tool_name arguments c))
            = (length before + length after + 2)%nat).
Proof.
  split.
  - intros c p rest Hprocess Hline.
    pose proof (read_json_line_pending c p (Text raw) rest Hprocess Hline eq_refl)
      as Hread.
    cbn [parsed read_trace] in Hread.
    split; [exact Hread|]. split.
    + intros n call_id. now rewrite (wait_step_none n call_id c _ _ Hread).
    + intros n. now rewrite (tools_step_none n c _ JNull _ Hread eq_refl).
  - intros tool_name arguments c p before after fields rest
           Hprocess Hb Hstream Hbefore Hafter Hlen Hid.
    destruct (call_tool_answered py_str tool_name arguments c p
                (before ++ Text raw :: after) fields rest Hprocess Hb)
      as (Hr & Hc & Ht).
    + rewrite Hstream, <- app_assoc. reflexivity.
    + apply Forall_app. split; [exact Hbefore|].
      constructor; [reflexivity | exact Hafter].
    + unfold call_max_attempts. rewrite length_app. cbn [length]. lia.
    + exact Hid.
    + cbn zeta in Hr, Hc, Ht. rewrite Hr, Hc, Ht.
      split; [reflexivity|]. split; [reflexivity|].
      rewrite length_app. cbn [length]. lia.
Qed.

Lemma malformed_line_is_dropped_witness :
  _read_json_line
    (connected (server [Text "Server listening on stdio"; Json (tool_reply 101 "ok")] Eof))
  = (Ret JNull, connected (server [Json (tool_reply 101 "ok")] Eof),
     [EvReadline; EvPrint (LogReceived (Text "Server listening on stdio"));
      EvPrint (LogJsonDecodeError "Server listening on stdio")])
  /\ res_of (call_tool sample_str "get_wazuh_agents" (JObj [])
               (connected
                  (server [Json notification; Text "Server listening on stdio";
                           Blank; Json (tool_reply 101 "ok")] Eof)))
     = Ret (JStr "ok").
Proof.
  destruct (malformed_line_is_dropped sample_str "Server listening on stdio")
    as (Hread & Hcall).
  split.
  - exact (proj1 (Hread
                    (connected
                       (server [Text "Server listening on stdio";
                                Json (tool_reply 101 "ok")] Eof))
                    (server [Text "Server listening on stdio";
                             Json (tool_reply 101 "ok")] Eof)
                    [Json (tool_reply 101 "ok")] eq_refl eq_refl)).
  - destruct (Hcall "get_wazuh_agents" (JObj [])
                (connected
                   (server [Json notification; Text "Server listening on stdio";
                            Blank; Json (tool_reply 101 "ok")] Eof))
                (server [Json notification; Text "Server listening on stdio";
                         Blank; Json (tool_reply 101 "ok")] Eof)
                [Json notification] [Blank]
                [("jsonrpc", JStr "2.0"); ("id", JInt 101);
                 ("result",
                  JObj [("content",
                         JList [JObj [("type", JStr "text"); ("text", JStr "ok")]])])]
                []) as (Hr & _).
    + reflexivity.
    + discriminate.
    + reflexivity.
    + repeat constructor.
    + repeat constructor.
    + simpl. lia.
    + reflexivity.
    + exact Hr.
Defined.

(** C6 as stated fails in three ways.  A rejected line uses up an attempt:
    when it is the fiftieth line read, the response that follows it is not
    read and the call times out.  The line [NaN] is no JSON, but
    [json.loads] accepts it: it is not read as [None], and the float it
    yields, which has no [get], ends the call with [AttributeError].  And
    bytes that are no text make the read fail and lose their whole chunk:
    a response that the child wrote in the same chunk is never delivered,
    and the call times out. *)
Lemma rejected_line_can_cost_the_call :
  (* the rejected line is the fiftieth read *)
  (skipped 101 (Text "Server listening on stdio") = true
   /\ answers 101 (tool_reply 101 "ok")
   /\ res_of (call_tool sample_str "get_wazuh_agents" (JObj [])
                (connected
                   (server (repeat (Json notification) 49
                            ++ [Text "Server listening on stdio";
                                Json (tool_reply 101 "ok")]) Eof)))
      = Raise ResponseTimeout)
  (* the line NaN *)
  /\ (res_of (_read_json_line
                (connected
                   (server [Json (JFloat S754_nan); Json (tool_reply 101 "ok")] Eof)))
      = Ret (JFloat S754_nan)
      /\ res_of (call_tool sample_str "get_wazuh_agents" (JObj [])
                   (connected
                      (server [Json (JFloat S754_nan); Json (tool_reply 101 "ok")]
                         Eof)))
         = Raise AttributeError)
  (* bytes that are no text, and the response in the same chunk *)
  /\ (res_of (_read_json_line
                (connected (server [Undecodable 1; Json (tool_reply 101 "ok")] Eof)))
      = Ret JNull
      /\ process (self_of (_read_json_line
                             (connected
                                (server [Undecodable 1; Json (tool_reply 101 "ok")]
                                   Eof))))
         = Some (server [] Eof)
      /\ res_of (call_tool sample_str "get_wazuh_agents" (JObj [])
                   (connected
                      (server [Undecodable 1; Json (tool_reply 101 "ok")] Eof)))
         = Raise ResponseTimeout).
Proof.
  split; [split; [reflexivity|]; split|split].
  - eexists. split; reflexivity.
  - vm_compute. reflexivity.
  - split; vm_compute; reflexivity.
  - split; [|split]; vm_compute; reflexivity.
Qed.

(** ** Invariants of the methods

    A relation [R] between the client before and after, and a property [T]
    of the I/O performed, that every step of a method respects. *)

Lemma try_except_run {A} (m : M A) (h : exn -> M A) (c : MCPClient) :
  try_except m h c
  = match res_of (m c) with
    | Raise e => prefixed (trace_of (m c)) (h e (self_of (m c)))
    | _ => m c
    end.
Proof.
  unfold try_except, prefixed. destruct (m c) as [[[a|e|] c1] t1]; try reflexivity.
  cbn. destruct (h e c1) as [[r c2] t2]. reflexivity.
Qed.

Lemma try_finally_run {A} (m : M A) (f : M unit) (c : MCPClient) :
  try_finally m f c
  = match res_of (m c) with
    | Hang => m c
    | r =>
        (match res_of (f (self_of (m c))) with
         | Ret _ => r
         | Raise e => Raise e
         | Hang => Hang
         end,
         self_of (f (self_of (m c))),
         trace_of (m c) ++ trace_of (f (self_of (m c))))
    end.
Proof.
  unfold try_finally. destruct (m c) as [[[a|e|] c1] t1]; try reflexivity;
    cbn; destruct (f c1) as [[[u|e'|] c2] t2]; reflexivity.
Qed.

Section Invariant.

Variable R : MCPClient -> MCPClient -> Prop.
Variable T : list event -> Prop.

Hypothesis R_refl : forall c, R c c.
Hypothesis R_trans : forall c1 c2 c3, R c1 c2 -> R c2 c3 -> R c1 c3.
Hypothesis R_process : forall c p, R c (with_process c (Some p)).
Hypothesis T_nil : T [].
Hypothesis T_app : forall t1 t2, T t1 -> T t2 -> T (t1 ++ t2).
Hypothesis T_event : forall e, call_id_of e = [] -> T [e].

Lemma obeys_ret {A} (a : A) : obeys R T (ret a).
Proof. intros c. split; [apply R_refl | apply T_nil]. Qed.

Lemma obeys_raise {A} (e : exn) : obeys R T (@raise A e).
Proof. intros c. split; [apply R_refl | apply T_nil]. Qed.

Lemma obeys_hang {A} : obeys R T (@hang A).
Proof. intros c. split; [apply R_refl | apply T_nil]. Qed.

Lemma obeys_emit (e : event) : call_id_of e = [] -> obeys R T (emit e).
Proof. intros He c. split; [apply R_refl | now apply T_event]. Qed.

Lemma obeys_print (l : log_line) : obeys R T (print l).
Proof. now apply obeys_emit. Qed.

Lemma obeys_print_text (ok : bool) (l : log_line) : obeys R T (print_text ok l).
Proof. destruct ok; [apply obeys_print | apply obeys_raise]. Qed.

Lemma obeys_sleep (ms : Z) : obeys R T (sleep ms).
Proof. now apply obeys_emit. Qed.

Lemma obeys_get_process : obeys R T get_process.
Proof. intros c. split; [apply R_refl | apply T_nil]. Qed.

Lemma obeys_get_self : obeys R T get_self.
Proof. intros c. split; [apply R_refl | apply T_nil]. Qed.

Lemma obeys_set_process (p : Popen) : obeys R T (set_process (Some p)).
Proof. intros c. split; [apply R_process | apply T_nil]. Qed.

Lemma obeys_bind {A B} (m : M A) (k : A -> M B) :
  obeys R T m -> (forall a, obeys R T (k a)) -> obeys R T (bind m k).
Proof.
  intros Hm Hk c. rewrite bind_run. destruct (Hm c) as [HR HT].
  destruct (res_of (m c)) as [a|e|]; [|split; assumption|split; assumption].
  destruct (Hk a (self_of (m c))) as [HR' HT'].
  rewrite self_of_prefixed, trace_of_prefixed.
  split; [eapply R_trans; eassumption | now apply T_app].
Qed.

Lemma obeys_try_except {A} (m : M A) (h : exn -> M A) :
  obeys R T m -> (forall e, obeys R T (h e)) -> obeys R T (try_except m h).
Proof.
  intros Hm Hh c. rewrite try_except_run. destruct (Hm c) as [HR HT].
  destruct (res_of (m c)) as [a|e|]; [split; assumption| |split; assumption].
  destruct (Hh e (self_of (m c))) as [HR' HT'].
  rewrite self_of_prefixed, trace_of_prefixed.
  split; [eapply R_trans; eassumption | now apply T_app].
Qed.

Lemma obeys_try_finally {A} (m : M A) (f : M unit) :
  obeys R T m -> obeys R T f -> obeys R T (try_finally m f).
Proof.
  intros Hm Hf c. rewrite try_finally_run. destruct (Hm c) as [HR HT].
  destruct (Hf (self_of (m c))) as [HR' HT'].
  destruct (res_of (m c)) as [a|e|]; [| |split; assumption];
    (split; [eapply R_trans; eassumption | now apply T_app]).
Qed.

Ltac obey :=
  repeat
    (match goal with
     | |- obeys _ _ (bind _ _) => apply obeys_bind; [|intro]
     | |- obeys _ _ (try_except _ _) => apply obeys_try_except; [|intro]
     | |- obeys _ _ (try_finally _ _) => apply obeys_try_finally
     | |- obeys _ _ (ret _) => apply obeys_ret
     | |- obeys _ _ (raise _) => apply obeys_raise
     | |- obeys _ _ hang => apply obeys_hang
     | |- obeys _ _ (print _) => apply obeys_print
     | |- obeys _ _ (sleep _) => apply obeys_sleep
     | |- obeys _ _ (emit _) => apply obeys_emit; reflexivity
     | |- obeys _ _ get_process => apply obeys_get_process
     | |- obeys _ _ get_self => apply obeys_get_self
     | |- obeys _ _ (set_process (Some _)) => apply obeys_set_process
     | |- obeys _ _ (match ?x with _ => _ end) => destruct x
     | H : _ |- _ => solve [apply H]
     end).

Lemma obeys_read_json_line : obeys R T _read_json_line.
Proof. unfold _read_json_line, stdout_readline, json_loads. obey. Qed.

Lemma obeys_dot_get (msg : json) (k : string) : obeys R T (dot_get msg k).
Proof. unfold dot_get. obey. Qed.

Lemma obeys_dot_get_default (d : json) (k : string) (default : json) :
  obeys R T (dot_get_default d k default).
Proof. unfold dot_get_default. obey. Qed.

Lemma obeys_subscript (d : json) (k : string) : obeys R T (subscript d k).
Proof. unfold subscript. obey. Qed.

(** Sending a message that is no tool call. *)
Lemma obeys_send_message (message : json) :
  (forall ok, call_id_of (EvWrite message ok) = []) ->
  obeys R T (_send_message message).
Proof.
  intros Hm. unfold _send_message, stdin_write. obey;
    apply obeys_emit; apply Hm.
Qed.

Lemma obeys_send_init (msgs : list json) :
  Forall (fun message => forall ok, call_id_of (EvWrite message ok) = []) msgs ->
  forall i, obeys R T (send_init i msgs).
Proof.
  induction 1 as [|msg rest Hmsg _ IH]; intros i; cbn [send_init].
  - obey.
  - apply obeys_bind; [apply obeys_subscript|]. intros method.
    apply obeys_bind; [apply obeys_print|]. intros _.
    apply obeys_bind; [now apply obeys_send_message|]. intros _.
    apply obeys_bind; [apply obeys_sleep|]. intros _. apply IH.
Qed.

Lemma obeys_check_tools_list (msg : json) : obeys R T (check_tools_list msg).
Proof.
  unfold check_tools_list.
  apply obeys_bind; [apply obeys_print|]. intros _.
  apply obeys_bind; [apply obeys_dot_get|]. intros id.
  destruct msg; try apply obeys_raise.
  destruct (eq_int id 1 && has_key "result" fields).
  - apply obeys_bind; [apply obeys_subscript|]. intros result.
    apply obeys_bind; [apply obeys_dot_get_default|]. intros tools.
    obey.
  - destruct (eq_int id 1 && has_key "error" fields).
    + apply obeys_bind; [apply obeys_subscript|]. intros error. obey.
    + obey.
Qed.

Lemma obeys_wait_for_tools (budget : nat) : obeys R T (wait_for_tools budget).
Proof.
  induction budget as [|budget IH]; cbn [wait_for_tools]; [obey|].
  apply obeys_bind; [apply obeys_read_json_line|]. intros msg.
  apply obeys_bind.
  - destruct (truthy msg); [apply obeys_check_tools_list | obey].
  - intros [tools|]; [obey|].
    apply obeys_bind; [apply obeys_sleep|]. intros _. exact IH.
Qed.

Lemma obeys_wait_for_response (call_id : Z) (budget : nat) :
  obeys R T (wait_for_response budget call_id).
Proof.
  induction budget as [|budget IH]; cbn [wait_for_response]; [obey|].
  apply obeys_bind; [apply obeys_read_json_line|]. intros msg.
  destruct (negb (truthy msg)).
  - apply obeys_bind; [apply obeys_sleep|]. intros _. exact IH.
  - apply obeys_bind; [apply obeys_dot_get|]. intros id.
    destruct (eq_int id call_id); [obey|].
    apply obeys_bind; [apply obeys_sleep|]. intros _. exact IH.
Qed.

Lemma obeys_await_response (call_id : Z) : obeys R T (await_response call_id).
Proof.
  unfold await_response.
  apply obeys_bind; [apply obeys_print|]. intros _.
  apply obeys_bind; [apply obeys_wait_for_response|]. intros response.
  destruct (negb (truthy response)); obey.
Qed.

Lemma obeys_prints_only {A} (m : M A) :
  (forall c, self_of (m c) = c /\ Forall is_print (trace_of (m c))) ->
  obeys R T m.
Proof.
  intros Hm c. destruct (Hm c) as [-> Hp]. split; [apply R_refl|].
  induction Hp as [|e t He _ IH]; [apply T_nil|].
  change (e :: t) with ([e] ++ t). apply T_app; [|exact IH].
  apply T_event. destruct e; try contradiction. reflexivity.
Qed.

Lemma obeys_handle_response (py_str : json -> string) (response : json) :
  obeys R T (handle_response py_str response).
Proof.
  apply obeys_prints_only. intros c.
  split; [apply handle_response_state | apply handle_response_prints].
Qed.

(** The part of [call_tool] that follows the sending of the request. *)
Lemma obeys_await_and_handle (py_str : json -> string) (call_id : Z) :
  obeys R T (response <- await_response call_id ;; handle_response py_str response).
Proof.
  apply obeys_bind; [apply obeys_await_response|]. intros response.
  apply obeys_handle_response.
Qed.

(** The handshake, from the first message to the tools list. *)
Lemma obeys_handshake : obeys R T handshake.
Proof.
  unfold handshake.
  apply obeys_bind; [apply obeys_get_process|]. intros p.
  apply obeys_bind; [apply obeys_print|]. intros _.
  apply obeys_bind; [now apply obeys_emit|]. intros _.
  apply obeys_bind; [apply obeys_sleep|]. intros _.
  apply obeys_bind; [apply obeys_print|]. intros _.
  apply obeys_bind; [apply obeys_get_self|]. intros self.
  apply obeys_bind.
  { apply obeys_send_init. unfold init_messages. repeat constructor. }
  intros _.
  apply obeys_bind; [apply obeys_print|]. intros _.
  apply obeys_bind; [apply obeys_wait_for_tools|]. intros [tools exhausted].
  destruct (negb (truthy tools) && exhausted); obey.
Qed.

Hypothesis R_clear : forall c, R c (with_process c None).

Lemma obeys_clear_process : obeys R T (set_process None).
Proof. intros c. split; [apply R_clear | apply T_nil]. Qed.

Lemma obeys_spawn (launch : option Popen) : obeys R T (spawn launch).
Proof.
  intros c. unfold spawn. destruct launch as [p|].
  - split; [apply R_process | now apply T_event].
  - split; [apply R_refl | now apply T_event].
Qed.

Lemma obeys_initialize (launch : option Popen) : obeys R T (initialize launch).
Proof.
  unfold initialize. apply obeys_try_except.
  - apply obeys_bind; [apply obeys_print|]. intros _.
    apply obeys_bind; [apply obeys_spawn|]. intros _.
    apply obeys_handshake.
  - intros e. unfold initialize_failed.
    apply obeys_bind; [apply obeys_print_text|]. intros _.
    apply obeys_bind; [apply obeys_get_process|]. intros p.
    apply obeys_bind; [|intros _; apply obeys_raise].
    destruct p; [|apply obeys_ret].
    apply obeys_bind; [now apply obeys_emit|]. intros _.
    apply obeys_clear_process.
Qed.

Lemma obeys_cleanup : obeys R T cleanup.
Proof.
  unfold cleanup.
  apply obeys_bind; [apply obeys_print|]. intros _.
  apply obeys_bind; [apply obeys_get_process|]. intros [p|]; [|apply obeys_ret].
  apply obeys_try_finally; [|apply obeys_clear_process].
  apply obeys_try_except.
  - apply obeys_bind; [now apply obeys_emit|]. intros _.
    apply obeys_bind; [|intros _; apply obeys_print].
    unfold process_wait.
    apply obeys_bind; [now apply obeys_emit|]. intros _.
    destruct (on_wait p); obey.
  - intros e. destruct e; try apply obeys_print.
    apply obeys_bind; [now apply obeys_emit|]. intros _. apply obeys_print.
Qed.

End Invariant.

(** ** Request identifiers *)

Lemma request_ids_app (t1 t2 : list event) :
  request_ids (t1 ++ t2) = request_ids t1 ++ request_ids t2.
Proof. apply flat_map_app. Qed.

Section Identifiers.

Variable py_str : json -> string.

Lemma same_counter_trans (c1 c2 c3 : MCPClient) :
  same_counter c1 c2 -> same_counter c2 c3 -> same_counter c1 c3.
Proof. unfold same_counter. congruence. Qed.

Lemma no_requests_app (t1 t2 : list event) :
  no_requests t1 -> no_requests t2 -> no_requests (t1 ++ t2).
Proof.
  unfold no_requests. intros H1 H2. now rewrite request_ids_app, H1, H2.
Qed.

Lemma no_requests_event (e : event) : call_id_of e = [] -> no_requests [e].
Proof. unfold no_requests. cbn. intros ->. reflexivity. Qed.

Lemma keeps_process_trans (c1 c2 c3 : MCPClient) :
  keeps_process c1 c2 -> keeps_process c2 c3 -> keeps_process c1 c3.
Proof. unfold keeps_process. auto. Qed.

(** After the request is handed to the child, nothing touches the counter
    and no further tool call is written. *)
Lemma await_and_handle_quiet (call_id : Z) :
  obeys same_counter no_requests
    (response <- await_response call_id ;; handle_response py_str response).
Proof.
  apply obeys_await_and_handle; unfold same_counter, no_requests; auto.
  - congruence.
  - apply no_requests_app.
  - apply no_requests_event.
Qed.

Lemma await_and_handle_keeps_process (call_id : Z) :
  obeys keeps_process any_trace
    (response <- await_response call_id ;; handle_response py_str response).
Proof.
  apply obeys_await_and_handle; unfold keeps_process, any_trace; auto.
  intros c p _. discriminate.
Qed.

Lemma initialize_quiet (launch : option Popen) :
  obeys same_counter no_requests (initialize launch).
Proof.
  apply obeys_initialize; unfold same_counter, no_requests; auto.
  - congruence.
  - apply no_requests_app.
  - apply no_requests_event.
Qed.

Lemma cleanup_quiet : obeys same_counter no_requests cleanup.
Proof.
  apply obeys_cleanup; unfold same_counter, no_requests; auto.
  - congruence.
  - apply no_requests_app.
  - apply no_requests_event.
Qed.

(** One invocation of [call_tool]: with a process handle it moves the
    counter by one and hands exactly one tool call to the child, carrying
    the new counter value; without one it does neither. *)
Lemma call_tool_requests (tool_name : string) (arguments : json) (c : MCPClient) :
  request_ids (trace_of (call_tool py_str tool_name arguments c))
  = match process c with
    | Some _ => [rpc_id_counter c + 1]
    | None => []
    end
  /\ rpc_id_counter (self_of (call_tool py_str tool_name arguments c))
     = match process c with
       | Some _ => rpc_id_counter c + 1
       | None => rpc_id_counter c
       end
  /\ keeps_process c (self_of (call_tool py_str tool_name arguments c)).
Proof.
  destruct (process c) as [p|] eqn:Hp.
  2: { rewrite (call_tool_no_process py_str _ _ c Hp).
       repeat split. intros H. exact H. }
  destruct (stdin_budget p) as [[|k]|] eqn:Hb.
  1: { unfold call_tool, _send_message, stdin_write. munfold.
       rewrite Hp. cbn [process with_counter]. rewrite Hp, Hb.
       repeat split. unfold keeps_process. cbn. rewrite Hp. auto. }
  all: rewrite (call_tool_sent py_str tool_name arguments c p Hp)
         by (rewrite Hb; discriminate);
       cbn zeta; rewrite trace_of_prefixed, self_of_prefixed, request_ids_app;
       match goal with
       | |- context [(bind (await_response ?i) ?k) ?c1] =>
           destruct (await_and_handle_quiet i c1) as [Hc Ht];
           destruct (await_and_handle_keeps_process i c1) as [Hk _];
           unfold same_counter, no_requests in Hc, Ht;
           rewrite Ht, Hc
       end;
       (split; [reflexivity|]); (split; [reflexivity|]);
       intros _; apply Hk; discriminate.
Qed.

(** One step of a run either leaves the counter alone and writes no tool
    call, or moves the counter by one and writes the tool call that
    carries the new value. *)
Lemma step_requests (o : op) (c : MCPClient) :
  (request_ids (snd (step py_str o c)) = []
   /\ rpc_id_counter (fst (step py_str o c)) = rpc_id_counter c)
  \/ (request_ids (snd (step py_str o c)) = [rpc_id_counter c + 1]
      /\ rpc_id_counter (fst (step py_str o c)) = rpc_id_counter c + 1).
Proof.
  destruct o as [launch|tool_name arguments| |p]; cbn [step fst snd].
  - left. destruct (initialize_quiet launch c) as [Hc Ht]. auto.
  - destruct (call_tool_requests tool_name arguments c) as (Ht & Hc & _).
    destruct (process c); [right | left]; auto.
  - left. destruct (cleanup_quiet c) as [Hc Ht]. auto.
  - left. split; [reflexivity|]. unfold server_moves.
    destruct (process c); reflexivity.
Qed.

(** The identifiers written in a run are the successors of the counter
    the run started from, in order. *)
Lemma run_requests (ops : list op) :
  forall c : MCPClient,
    request_ids (snd (run py_str ops c))
    = map (fun k => rpc_id_counter c + Z.of_nat k)
        (seq 1 (length (request_ids (snd (run py_str ops c)))))
    /\ rpc_id_counter (fst (run py_str ops c))
       = rpc_id_counter c + Z.of_nat (length (request_ids (snd (run py_str ops c)))).
Proof.
  induction ops as [|o ops IH]; intros c; cbn [run].
  - cbn. split; [reflexivity | lia].
  - destruct (step py_str o c) as [c1 t1] eqn:Hstep.
    pose proof (step_requests o c) as Hs. rewrite Hstep in Hs. cbn [fst snd] in Hs.
    destruct (IH c1) as [Hids Hcount].
    destruct (run py_str ops c1) as [c2 t2]. cbn [fst snd] in *.
    rewrite request_ids_app.
    destruct Hs as [[Ht Hc] | [Ht Hc]]; rewrite Ht; cbn [app length].
    + rewrite Hc in Hids, Hcount. auto.
    + rewrite Hc in Hids, Hcount. cbn [seq map]. split.
      * f_equal. rewrite Hids at 1. rewrite <- (seq_shift _ 1), map_map.
        apply map_ext. intros k. lia.
      * lia.
Qed.

Lemma successors_sorted (base : Z) (n : nat) :
  forall a : nat,
    StronglySorted Z.lt (map (fun k => base + Z.of_nat k) (seq a n))
    /\ Forall (fun id => base + Z.of_nat a <= id)
         (map (fun k => base + Z.of_nat k) (seq a n)).
Proof.
  induction n as [|n IH]; intros a; cbn [seq map].
  - split; constructor.
  - destruct (IH (S a)) as [Hs Hf]. split.
    + constructor; [exact Hs|].
      eapply Forall_impl; [|exact Hf]. cbn beta. intros id Hid. lia.
    + constructor; [lia|].
      eapply Forall_impl; [|exact Hf]. cbn beta. intros id Hid. lia.
Qed.

Lemma sorted_nodup (l : list Z) : StronglySorted Z.lt l -> NoDup l.
Proof.
  induction 1 as [|x l _ IH Hx]; constructor; [|exact IH].
  intros Hin. rewrite Forall_forall in Hx. specialize (Hx x Hin). lia.
Qed.

(** [N] calls on one connection write [N] identifiers. *)
Lemma calls_on_connection_requests (calls : list (Popen * string * json)) :
  forall c : MCPClient,
    process c <> None ->
    length (request_ids (snd (run py_str (calls_on_connection calls) c)))
    = length calls.
Proof.
  induction calls as [|[[p tool_name] arguments] calls IH]; intros c Hc;
    [reflexivity|].
  cbn [calls_on_connection flat_map app fst snd run step].
  destruct (process c) as [p0|] eqn:Hp; [|congruence].
  unfold server_moves. rewrite Hp.
  destruct (call_tool_requests tool_name arguments (with_process c (Some p)))
    as (Ht & _ & Hk).
  cbn [process with_process] in Ht.
  specialize (IH (self_of (call_tool py_str tool_name arguments
                             (with_process c (Some p))))
                (Hk ltac:(discriminate))).
  fold (calls_on_connection calls).
  destruct (run py_str (calls_on_connection calls) _) as [c2 t2].
  cbn [fst snd app] in *.
  rewrite request_ids_app, Ht. cbn [app length]. now rewrite IH.
Qed.

End Identifiers.

(** C2: in every run of one client from its construction, whatever its
    methods return or raise and whatever the server does in between, the
    identifiers of the tool calls are pairwise distinct, strictly
    increasing in the order of the invocations, at least 101, and never 0
    or 1; each invocation that finds a process handle allocates exactly one
    identifier, the successor of the counter, also when it then fails or
    times out; and N invocations on one connection allocate the N
    successors of the counter. *)
Theorem call_ids_distinct_increasing (py_str : json -> string)
    (path name version : string) (ops : list op) :
  NoDup (request_ids (snd (run py_str ops (__init__ path name version))))
  /\ StronglySorted Z.lt
       (request_ids (snd (run py_str ops (__init__ path name version))))
  /\ Forall (fun id => 101 <= id)
       (request_ids (snd (run py_str ops (__init__ path name version))))
  /\ ~ In 0 (request_ids (snd (run py_str ops (__init__ path name version))))
  /\ ~ In 1 (request_ids (snd (run py_str ops (__init__ path name version))))
  /\ (forall (tool_name : string) (arguments : json) (c : MCPClient),
         request_ids (trace_of (call_tool py_str tool_name arguments c))
         = match process c with
           | Some _ => [rpc_id_counter c + 1]
           | None => []
           end)
  /\ (forall (calls : list (Popen * string * json)) (c : MCPClient) (p : Popen),
         request_ids
           (snd (run py_str (calls_on_connection calls) (with_process c (Some p))))
         = map (fun k => rpc_id_counter c + Z.of_nat k) (seq 1 (length calls))).
Proof.
  destruct (run_requests py_str ops (__init__ path name version)) as [Hids _].
  cbn [rpc_id_counter __init__] in Hids.
  destruct (successors_sorted 100
              (length (request_ids (snd (run py_str ops (__init__ path name version)))))
              1) as [Hsorted Hfrom].
  rewrite <- Hids in Hsorted, Hfrom.
  assert (Hmin : Forall (fun id => 101 <= id)
                   (request_ids (snd (run py_str ops (__init__ path name version))))).
  { eapply Forall_impl; [|exact Hfrom]. cbn beta. intros id Hid. lia. }
  rewrite Forall_forall in Hmin.
  split; [now apply sorted_nodup|]. split; [exact Hsorted|].
  split; [now apply Forall_forall|].
  split; [intros H; specialize (Hmin 0 H); lia|].
  split; [intros H; specialize (Hmin 1 H); lia|].
  split.
  - intros tool_name arguments c.
    apply (call_tool_requests py_str tool_name arguments c).
  - intros calls c p.
    destruct (run_requests py_str (calls_on_connection calls)
                (with_process c (Some p))) as [Hrun _].
    rewrite (calls_on_connection_requests py_str calls (with_process c (Some p)))
      in Hrun by discriminate.
    exact Hrun.
Qed.

(** ** Failure of [initialize] *)

Lemma handshake_keeps_process : obeys keeps_process any_trace handshake.
Proof.
  apply obeys_handshake; unfold keeps_process, any_trace; auto.
  intros c p _. discriminate.
Qed.

(** The handler of [initialize]: when its print goes through, the process
    is killed, the handle is cleared and the wrapped failure is raised;
    when the print raises, nothing of this is done. *)
Lemma initialize_failed_run (e : exn) (c : MCPClient) :
  initialize_failed e c
  = if printable_exn e
    then (Raise (InitFailed e), with_process c None,
          EvPrint (LogInitFailed e)
          :: match process c with Some _ => [EvKill] | None => [] end)
    else (Raise UnicodeEncodeError, c, []).
Proof.
  unfold initialize_failed, print_text.
  destruct (printable_exn e); [|reflexivity].
  munfold.
  destruct (process c) eqn:Hp; cbn; [reflexivity|].
  replace (with_process c None) with c; [reflexivity|].
  rewrite <- Hp. symmetry. apply with_process_same.
Qed.

(** [initialize] when [Popen] raises: the handler runs on the client as it
    was. *)
Lemma initialize_not_spawned (c : MCPClient) :
  initialize None c
  = (Raise (InitFailed OSError), with_process c None,
     [EvPrint LogStarting; EvSpawn (server_path c); EvPrint (LogInitFailed OSError)]
     ++ match process c with Some _ => [EvKill] | None => [] end).
Proof.
  unfold initialize. rewrite try_except_run.
  assert (Hbody : (print LogStarting ;; spawn None ;; handshake) c
                  = (Raise OSError, c, [EvPrint LogStarting; EvSpawn (server_path c)])).
  { rewrite bind_run. cbn [print emit res_of self_of trace_of fst snd].
    rewrite bind_run. reflexivity. }
  rewrite Hbody. rewrite res_of_pair, self_of_pair, trace_of_pair.
  rewrite initialize_failed_run. reflexivity.
Qed.

(** [initialize] when the child is started: the handshake runs on the
    client that holds the new process, and a failure of the handshake
    kills that process and clears the handle, unless the print of the
    failure raises first. *)
Lemma initialize_spawned (p : Popen) (c : MCPClient) :
  initialize (Some p) c
  = match res_of (handshake (with_process c (Some p))) with
    | Raise e =>
        if printable_exn e
        then (Raise (InitFailed e),
              with_process (self_of (handshake (with_process c (Some p)))) None,
              [EvPrint LogStarting; EvSpawn (server_path c)]
              ++ trace_of (handshake (with_process c (Some p)))
              ++ [EvPrint (LogInitFailed e); EvKill])
        else (Raise UnicodeEncodeError,
              self_of (handshake (with_process c (Some p))),
              [EvPrint LogStarting; EvSpawn (server_path c)]
              ++ trace_of (handshake (with_process c (Some p))))
    | _ =>
        prefixed [EvPrint LogStarting; EvSpawn (server_path c)]
          (handshake (with_process c (Some p)))
    end.
Proof.
  unfold initialize. rewrite try_except_run.
  assert (Hbody : (print LogStarting ;; spawn (Some p) ;; handshake) c
                  = prefixed [EvPrint LogStarting; EvSpawn (server_path c)]
                      (handshake (with_process c (Some p)))).
  { rewrite bind_run. cbn [print emit res_of self_of trace_of fst snd].
    rewrite bind_run. cbn [spawn res_of self_of trace_of fst snd].
    unfold prefixed. rewrite res_of_pair, self_of_pair, trace_of_pair.
    reflexivity. }
  rewrite Hbody. rewrite res_of_prefixed, self_of_prefixed, trace_of_prefixed.
  destruct (handshake_keeps_process (with_process c (Some p))) as [Hk _].
  destruct (res_of (handshake (with_process c (Some p)))) as [tools|e|];
    try reflexivity.
  rewrite initialize_failed_run. destruct (printable_exn e).
  - unfold prefixed. rewrite res_of_pair, self_of_pair, trace_of_pair.
    destruct (process (self_of (handshake (with_process c (Some p))))) eqn:Hp.
    + now rewrite <- app_assoc.
    + exfalso. apply Hk; [discriminate | exact Hp].
  - unfold prefixed. rewrite res_of_pair, self_of_pair, trace_of_pair.
    now rewrite app_nil_r.
Qed.

(** Every way in which [initialize] raises: with the wrapped failure, once
    the handler has cleared the handle, or with the failure of the
    handler's print, and then the handle is still set. *)
Lemma initialize_raises (launch : option Popen) (c : MCPClient) (e : exn) :
  res_of (initialize launch c) = Raise e ->
  ((exists cause, e = InitFailed cause)
   /\ process (self_of (initialize launch c)) = None
   /\ (launch <> None -> exists t, trace_of (initialize launch c) = t ++ [EvKill]))
  \/ (e = UnicodeEncodeError
      /\ process (self_of (initialize launch c)) <> None).
Proof.
  destruct launch as [p|].
  - rewrite initialize_spawned.
    destruct (handshake_keeps_process (with_process c (Some p))) as [Hk _].
    destruct (res_of (handshake (with_process c (Some p)))) as [tools|e0|] eqn:Hh.
    + rewrite res_of_prefixed, Hh. discriminate.
    + destruct (printable_exn e0).
      * rewrite res_of_pair, self_of_pair, trace_of_pair. intros He.
        injection He as <-. left. split; [eauto|]. split; [reflexivity|].
        intros _.
        exists ([EvPrint LogStarting; EvSpawn (server_path c)]
                ++ trace_of (handshake (with_process c (Some p)))
                ++ [EvPrint (LogInitFailed e0)]).
        rewrite <- !app_assoc. reflexivity.
      * rewrite res_of_pair, self_of_pair. intros He.
        injection He as <-. right. split; [reflexivity|].
        apply Hk. discriminate.
    + rewrite res_of_prefixed, Hh. discriminate.
  - rewrite initialize_not_spawned.
    rewrite res_of_pair, self_of_pair. intros He. injection He as <-.
    left. split; [eauto|]. split; [reflexivity|]. congruence.
Qed.

(** When [initialize] raises its wrapped failure, the handle is cleared. *)
Lemma initialize_wrapped (launch : option Popen) (c : MCPClient) (cause : exn) :
  res_of (initialize launch c) = Raise (InitFailed cause) ->
  process (self_of (initialize launch c)) = None
  /\ (launch <> None -> exists t, trace_of (initialize launch c) = t ++ [EvKill]).
Proof.
  intros He.
  destruct (initialize_raises launch c _ He) as [(_ & Hp & Hk) | (Habs & _)];
    [auto | discriminate Habs].
Qed.

(** ** [cleanup] *)

Lemma cleanup_run (c : MCPClient) :
  cleanup c
  = (Ret tt, with_process c None,
     EvPrint LogCleaning
     :: match process c with
        | None => []
        | Some p =>
            [EvTerminate; EvWait]
            ++ match on_wait p with
               | Exits => [EvPrint LogTerminated]
               | TimesOut => [EvKill; EvPrint LogKilled]
               | WaitFails => [EvPrint (LogCleanupError OSError)]
               end
        end).
Proof.
  unfold cleanup, process_wait. munfold.
  destruct (process c) as [p|] eqn:Hp.
  - destruct (on_wait p); reflexivity.
  - cbn. replace (with_process c None) with c; [reflexivity|].
    rewrite <- Hp. symmetry. apply with_process_same.
Qed.



(** ** The bound of the wait *)

Lemma read_json_line_reads (c : MCPClient) :
  (reads (trace_of (_read_json_line c)) <= 1)%nat.
Proof.
  destruct (process c) as [p|] eqn:Hp.
  - destruct (stdout_pending p) as [|l rest] eqn:Hl.
    + destruct (stdout_end p) eqn:He.
      * rewrite (read_json_line_eof c p Hp Hl He). cbn. lia.
      * rewrite (read_json_line_blocks c p Hp Hl He). cbn. lia.
    + rewrite (read_json_line_next c p l rest Hp Hl).
      rewrite trace_of_pair, reads_read_trace. lia.
  - rewrite (read_json_line_no_process c Hp). cbn. lia.
Qed.

Lemma reads_bind {A B} (m : M A) (k : A -> M B) (c : MCPClient) (b : nat) :
  (forall a c1, (reads (trace_of (k a c1)) <= b)%nat) ->
  (reads (trace_of (bind m k c)) <= reads (trace_of (m c)) + b)%nat.
Proof.
  intros Hk. rewrite bind_run.
  destruct (res_of (m c)) as [a|e|].
  - rewrite trace_of_prefixed, reads_app. specialize (Hk a (self_of (m c))). lia.
  - rewrite trace_of_pair. lia.
  - rewrite trace_of_pair. lia.
Qed.

(** The loop never reads more lines than it has attempts. *)
Lemma wait_reads_bounded (call_id : Z) (n : nat) :
  forall c : MCPClient,
    (reads (trace_of (wait_for_response n call_id c)) <= n)%nat.
Proof.
  induction n as [|n IH]; intros c; cbn [wait_for_response]; [cbn; lia|].
  pose proof (read_json_line_reads c) as Hread.
  assert (Hk : forall msg c1,
             (reads (trace_of
                ((if negb (truthy msg)
                  then sleep 100 ;; wait_for_response n call_id
                  else id <- dot_get msg "id" ;;
                       if eq_int id call_id
                       then print (LogGotResponse call_id) ;; ret msg
                       else sleep 100 ;; wait_for_response n call_id) c1))
              <= n)%nat).
  { intros msg c1. destruct (negb (truthy msg)).
    - pose proof (reads_bind (sleep 100) (fun _ => wait_for_response n call_id)
                    c1 n (fun _ c2 => IH c2)) as H.
      cbn [sleep emit trace_of snd reads filter length] in H. exact H.
    - destruct msg as [| | | | | |fields]; try (cbn; lia).
      cbn [dot_get]. rewrite bind_run. cbn [ret res_of self_of trace_of fst snd].
      rewrite trace_of_prefixed. cbn [app].
      destruct (eq_int (get_default "id" JNull fields) call_id).
      + cbn. lia.
      + pose proof (reads_bind (sleep 100) (fun _ => wait_for_response n call_id)
                      c1 n (fun _ c2 => IH c2)) as H.
        cbn [sleep emit trace_of snd reads filter length] in H. exact H. }
  eapply Nat.le_trans; [apply (reads_bind _ _ c n); exact Hk | lia].
Qed.

Lemma await_response_reads (call_id : Z) (c : MCPClient) :
  (reads (trace_of (await_response call_id c)) <= call_max_attempts)%nat.
Proof.
  unfold await_response.
  pose proof (reads_bind (print (LogWaiting call_id))
                (fun _ =>
                   response <- wait_for_response call_max_attempts call_id ;;
                   if negb (truthy response)
                   then print LogTimeout ;; raise ResponseTimeout
                   else ret response)
                c call_max_attempts) as H.
  cbn [print emit trace_of snd reads filter length Nat.add] in H. apply H.
  intros _ c1.
  pose proof (reads_bind (wait_for_response call_max_attempts call_id)
                (fun response =>
                   if negb (truthy response)
                   then print LogTimeout ;; raise ResponseTimeout
                   else ret response)
                c1 0) as H1.
  pose proof (wait_reads_bounded call_id call_max_attempts c1) as H2.
  assert (H3 : (reads (trace_of
                  ((response <- wait_for_response call_max_attempts call_id ;;
                    if negb (truthy response)
                    then print LogTimeout ;; raise ResponseTimeout
                    else ret response) c1))
                <= reads (trace_of (wait_for_response call_max_attempts call_id c1)) + 0)%nat).
  { apply H1. intros response c2. destruct (negb (truthy response)); cbn; lia. }
  lia.
Qed.

(** No invocation of [call_tool] reads more than fifty lines. *)
Lemma call_tool_reads_bounded (py_str : json -> string)
    (tool_name : string) (arguments : json) (c : MCPClient) :
  (reads (trace_of (call_tool py_str tool_name arguments c)) <= call_max_attempts)%nat.
Proof.
  destruct (process c) as [p|] eqn:Hp.
  2: { rewrite (call_tool_no_process py_str _ _ c Hp). cbn. lia. }
  destruct (stdin_budget p) as [[|k]|] eqn:Hb.
  1: { destruct (call_tool_send_failed py_str tool_name arguments c p Hp Hb)
         as (_ & _ & ->). lia. }
  all: rewrite (call_tool_sent py_str tool_name arguments c p Hp)
         by (rewrite Hb; discriminate);
       cbn zeta; rewrite trace_of_prefixed, reads_app;
       match goal with
       | |- context [(bind (await_response ?i) ?k) ?c1] =>
           pose proof (reads_bind (await_response i) k c1 0) as H;
           pose proof (await_response_reads i c1) as H1;
           assert (H2 : (reads (trace_of (bind (await_response i) k c1))
                         <= reads (trace_of (await_response i c1)) + 0)%nat)
             by (apply H; intros response c2;
                 rewrite (prints_no_reads _ (handle_response_prints py_str response c2));
                 lia)
       end;
       cbn [reads filter length Nat.add]; lia.
Qed.

(** At end of file every read returns at once, and the attempts run out. *)
Lemma wait_at_eof (call_id : Z) (c : MCPClient) (p : Popen) (n : nat) :
  process c = Some p ->
  stdout_pending p = [] ->
  stdout_end p = Eof ->
  res_of (wait_for_response n call_id c) = Ret JNull
  /\ self_of (wait_for_response n call_id c) = c
  /\ reads (trace_of (wait_for_response n call_id c)) = n.
Proof.
  intros Hp Hl He. induction n as [|n IH]; [repeat split|].
  rewrite (wait_step_none n call_id c c [EvReadline]
             (read_json_line_eof c p Hp Hl He)).
  rewrite res_of_prefixed, self_of_prefixed, trace_of_prefixed, reads_app.
  destruct IH as (-> & -> & ->). repeat split.
Qed.

(** A silent child: the read after the last pending line does not return. *)
Lemma await_response_blocks (call_id : Z) (c : MCPClient) (p : Popen) :
  process c = Some p ->
  Forall (fun l => skipped call_id l = true) (stdout_pending p) ->
  (length (stdout_pending p) < call_max_attempts)%nat ->
  stdout_end p = Blocks ->
  res_of (await_response call_id c) = Hang
  /\ reads (trace_of (await_response call_id c)) = S (length (stdout_pending p)).
Proof.
  intros Hp Hs Hlen He.
  set (ls := stdout_pending p) in *.
  set (m := (call_max_attempts - S (length ls))%nat).
  assert (Hm : call_max_attempts = (length ls + S m)%nat) by (subst m; lia).
  assert (Hl : stdout_pending p = ls ++ []) by (now rewrite app_nil_r).
  destruct (wait_skips call_id ls (S m) c p [] Hp Hl Hs) as (Hr & _ & Ht).
  cbn zeta in Hr, Ht.
  rewrite (wait_step_hang m call_id _ _ [EvReadline]
             (read_json_line_blocks (with_process c (Some (with_stdout p [])))
                (with_stdout p []) eq_refl eq_refl He)) in Hr, Ht.
  rewrite res_of_pair in Hr. rewrite trace_of_pair in Ht.
  unfold await_response. rewrite bind_run.
  cbn [print emit res_of self_of trace_of fst snd].
  rewrite bind_run, Hm, Hr.
  rewrite res_of_prefixed, trace_of_prefixed, res_of_pair, trace_of_pair.
  split; [reflexivity|]. rewrite reads_app, Ht. cbn. lia.
Qed.

(** C3 fails on the code: when the child is alive and silent after lines
    that do not carry the call's identifier, the read that follows them
    does not return; [call_tool] neither raises the timeout nor returns,
    with attempts left that it never gets to use. *)
Theorem call_tool_blocks_on_silent_server (py_str : json -> string)
    (tool_name : string) (arguments : json) (c : MCPClient) (p : Popen)
    (Hprocess : process c = Some p)
    (Hstdin : stdin_budget p <> Some O)
    (Hskipped : Forall (fun l => skipped (rpc_id_counter c + 1) l = true)
                  (stdout_pending p))
    (Hfew : (length (stdout_pending p) < call_max_attempts)%nat)
    (Hsilent : stdout_end p = Blocks) :
  res_of (call_tool py_str tool_name arguments c) = Hang
  /\ res_of (call_tool py_str tool_name arguments c) <> Raise ResponseTimeout
  /\ reads (trace_of (call_tool py_str tool_name arguments c))
     = S (length (stdout_pending p)).
Proof.
  rewrite (call_tool_sent py_str tool_name arguments c p Hprocess Hstdin).
  cbn zeta. rewrite res_of_prefixed, trace_of_prefixed, reads_app.
  assert (Hpend : stdout_pending (after_write p) = stdout_pending p).
  { unfold after_write. destruct (stdin_budget p) as [[|k]|]; reflexivity. }
  assert (Hend : stdout_end (after_write p) = Blocks).
  { unfold after_write. destruct (stdin_budget p) as [[|k]|]; exact Hsilent. }
  destruct (await_response_blocks (rpc_id_counter c + 1)
              (with_process (with_counter c (rpc_id_counter c + 1))
                 (Some (after_write p)))
              (after_write p) eq_refl) as [Hr Ht];
    try (rewrite Hpend; assumption); [exact Hend|].
  rewrite Hpend in Ht. rewrite bind_run, Hr.
  rewrite res_of_pair, trace_of_pair, Ht.
  split; [reflexivity|]. split; [discriminate|]. reflexivity.
Qed.

Lemma call_tool_blocks_on_silent_server_witness :
  res_of (call_tool sample_str "get_wazuh_agents" (JObj [("status", JStr "active")])
            (connected (server [Json notification] Blocks)))
  = Hang
  /\ res_of (call_tool sample_str "get_wazuh_agents" (JObj [("status", JStr "active")])
               (connected (server [Json notification] Blocks)))
     <> Raise ResponseTimeout
  /\ reads (trace_of
              (call_tool sample_str "get_wazuh_agents"
                 (JObj [("status", JStr "active")])
                 (connected (server [Json notification] Blocks))))
     = 2%nat.
Proof.
  apply (call_tool_blocks_on_silent_server sample_str "get_wazuh_agents"
           (JObj [("status", JStr "active")])
           (connected (server [Json notification] Blocks))
           (server [Json notification] Blocks)).
  - reflexivity.
  - discriminate.
  - repeat constructor.
  - unfold call_max_attempts. simpl. lia.
  - reflexivity.
Defined.

Lemma await_response_at_eof (call_id : Z) (c : MCPClient) (p : Popen) :
  process c = Some p ->
  stdout_pending p = [] ->
  stdout_end p = Eof ->
  res_of (await_response call_id c) = Raise ResponseTimeout
  /\ reads (trace_of (await_response call_id c)) = call_max_attempts.
Proof.
  intros Hp Hl He.
  destruct (wait_at_eof call_id c p call_max_attempts Hp Hl He) as (Hr & Hc & Ht).
  unfold await_response. rewrite bind_run.
  cbn [print emit res_of self_of trace_of fst snd].
  rewrite res_of_prefixed, trace_of_prefixed.
  rewrite bind_run, Hr. cbn [truthy negb].
  rewrite res_of_prefixed, trace_of_prefixed.
  split; [reflexivity|].
  rewrite !reads_app, Ht. cbn. unfold call_max_attempts. lia.
Qed.

(** When the child has closed its stdout instead, the wait ends as the
    code intends: fifty reads, then the timeout. *)
Lemma call_tool_times_out_at_eof (py_str : json -> string)
    (tool_name : string) (arguments : json) (c : MCPClient) (p : Popen) :
  process c = Some p ->
  stdin_budget p <> Some O ->
  stdout_pending p = [] ->
  stdout_end p = Eof ->
  res_of (call_tool py_str tool_name arguments c) = Raise ResponseTimeout
  /\ reads (trace_of (call_tool py_str tool_name arguments c)) = call_max_attempts.
Proof.
  intros Hp Hb Hl He.
  rewrite (call_tool_sent py_str tool_name arguments c p Hp Hb).
  cbn zeta. rewrite res_of_prefixed, trace_of_prefixed, reads_app.
  assert (Hpend : stdout_pending (after_write p) = []).
  { unfold after_write. destruct (stdin_budget p) as [[|k]|]; exact Hl. }
  assert (Hend : stdout_end (after_write p) = Eof).
  { unfold after_write. destruct (stdin_budget p) as [[|k]|]; exact He. }
  destruct (await_response_at_eof (rpc_id_counter c + 1)
              (with_process (with_counter c (rpc_id_counter c + 1))
                 (Some (after_write p)))
              (after_write p) eq_refl Hpend Hend) as (Hr & Ht).
  rewrite bind_run, Hr. rewrite res_of_pair, trace_of_pair, Ht.
  split; reflexivity.
Qed.

(** ** [initialize] does not depend on the counter *)

Lemma blind_ret {A} (a : A) : counter_blind (ret a).
Proof. intros c n. reflexivity. Qed.

Lemma blind_raise {A} (e : exn) : counter_blind (@raise A e).
Proof. intros c n. reflexivity. Qed.

Lemma blind_hang {A} : counter_blind (@hang A).
Proof. intros c n. reflexivity. Qed.

Lemma blind_emit (e : event) : counter_blind (emit e).
Proof. intros c n. reflexivity. Qed.

Lemma blind_get_process : counter_blind get_process.
Proof. intros c n. reflexivity. Qed.

Lemma blind_set_process (p : option Popen) : counter_blind (set_process p).
Proof. intros c n. reflexivity. Qed.

Lemma blind_spawn (launch : option Popen) : counter_blind (spawn launch).
Proof. intros c n. destruct launch; reflexivity. Qed.

Lemma blind_bind {A B} (m : M A) (k : A -> M B) :
  counter_blind m -> (forall a, counter_blind (k a)) -> counter_blind (bind m k).
Proof.
  intros Hm Hk c n. unfold bind. rewrite Hm.
  destruct (m c) as [[[a|e|] c1] t1];
    cbn [res_of self_of trace_of fst snd]; try reflexivity.
  rewrite Hk. destruct (k a c1) as [[r c2] t2]. reflexivity.
Qed.

Lemma blind_try_except {A} (m : M A) (h : exn -> M A) :
  counter_blind m -> (forall e, counter_blind (h e)) -> counter_blind (try_except m h).
Proof.
  intros Hm Hh c n. unfold try_except. rewrite Hm.
  destruct (m c) as [[[a|e|] c1] t1];
    cbn [res_of self_of trace_of fst snd]; try reflexivity.
  rewrite Hh. destruct (h e c1) as [[r c2] t2]. reflexivity.
Qed.

(** [self <- get_self ;; k self], when [k] looks at the identity of the
    client only. *)
Lemma blind_bind_self {A} (k : MCPClient -> M A) :
  (forall c n, k (with_counter c n) = k c) ->
  (forall self, counter_blind (k self)) ->
  counter_blind (bind get_self k).
Proof.
  intros Hk Hb c n. rewrite !bind_run.
  cbn [get_self res_of self_of trace_of fst snd].
  rewrite Hk, Hb. reflexivity.
Qed.

Ltac blind :=
  repeat
    (match goal with
     | |- counter_blind (bind _ _) => apply blind_bind; [|intro]
     | |- counter_blind (try_except _ _) => apply blind_try_except; [|intro]
     | |- counter_blind (ret _) => apply blind_ret
     | |- counter_blind (raise _) => apply blind_raise
     | |- counter_blind hang => apply blind_hang
     | |- counter_blind (print _) => apply blind_emit
     | |- counter_blind (print_text ?ok _) => unfold print_text; destruct ok
     | |- counter_blind (sleep _) => apply blind_emit
     | |- counter_blind (emit _) => apply blind_emit
     | |- counter_blind get_process => apply blind_get_process
     | |- counter_blind (set_process _) => apply blind_set_process
     | |- counter_blind (spawn _) => apply blind_spawn
     | |- counter_blind (match ?x with _ => _ end) => destruct x
     | H : _ |- _ => solve [apply H]
     end).

Lemma blind_read_json_line : counter_blind _read_json_line.
Proof. unfold _read_json_line, stdout_readline, json_loads. blind. Qed.

Lemma blind_send_message (message : json) : counter_blind (_send_message message).
Proof. unfold _send_message, stdin_write. blind. Qed.

Lemma blind_send_init (msgs : list json) :
  forall i, counter_blind (send_init i msgs).
Proof.
  induction msgs as [|msg rest IH]; intros i; cbn [send_init]; [blind|].
  apply blind_bind; [unfold subscript; blind|]. intros method.
  apply blind_bind; [blind|]. intros _.
  apply blind_bind; [apply blind_send_message|]. intros _.
  apply blind_bind; [blind|]. intros _. apply IH.
Qed.

Lemma blind_check_tools_list (msg : json) : counter_blind (check_tools_list msg).
Proof.
  unfold check_tools_list.
  apply blind_bind; [blind|]. intros _.
  apply blind_bind; [unfold dot_get; blind|]. intros id.
  destruct msg; try apply blind_raise.
  destruct (eq_int id 1 && has_key "result" fields).
  - apply blind_bind; [unfold subscript; blind|]. intros result.
    apply blind_bind; [unfold dot_get_default; blind|]. intros tools. blind.
  - destruct (eq_int id 1 && has_key "error" fields).
    + apply blind_bind; [unfold subscript; blind|]. intros error. blind.
    + blind.
Qed.

Lemma blind_wait_for_tools (budget : nat) : counter_blind (wait_for_tools budget).
Proof.
  induction budget as [|budget IH]; cbn [wait_for_tools]; [blind|].
  apply blind_bind; [apply blind_read_json_line|]. intros msg.
  apply blind_bind.
  - destruct (truthy msg); [apply blind_check_tools_list | blind].
  - intros [tools|]; [blind|].
    apply blind_bind; [blind|]. intros _. exact IH.
Qed.

Lemma blind_handshake : counter_blind handshake.
Proof.
  unfold handshake.
  apply blind_bind; [blind|]. intros p.
  apply blind_bind; [blind|]. intros _.
  apply blind_bind; [blind|]. intros _.
  apply blind_bind; [blind|]. intros _.
  apply blind_bind; [blind|]. intros _.
  apply blind_bind_self; [reflexivity|]. intros self.
  apply blind_bind; [apply blind_send_init|]. intros _.
  apply blind_bind; [blind|]. intros _.
  apply blind_bind; [apply blind_wait_for_tools|]. intros [tools exhausted].
  destruct (negb (truthy tools) && exhausted); blind.
Qed.

Lemma blind_initialize (launch : option Popen) : counter_blind (initialize launch).
Proof.
  unfold initialize. apply blind_try_except.
  - apply blind_bind; [blind|]. intros _.
    apply blind_bind; [blind|]. intros _. apply blind_handshake.
  - intros e. unfold initialize_failed. blind.
Qed.

(** After [cleanup], [initialize] does what it does on a client that was
    just constructed with the same identity. *)
Lemma initialize_after_cleanup (launch : option Popen) (c : MCPClient) :
  initialize launch (__init__ (server_path c) (client_name c) (client_version c))
  = (res_of (initialize launch (self_of (cleanup c))),
     with_counter (self_of (initialize launch (self_of (cleanup c)))) 100,
     trace_of (initialize launch (self_of (cleanup c)))).
Proof.
  rewrite cleanup_run, self_of_pair.
  rewrite <- (blind_initialize launch (with_process c None) 100).
  reflexivity.
Qed.

(** C8: [cleanup] never raises and always leaves the process handle
    cleared; without a process it does nothing but print, so a second
    [cleanup] in a row is such a no-op; and from the state it leaves,
    [initialize] returns, raises and performs I/O exactly as on a newly
    constructed client, so it succeeds whenever a fresh start does. *)
Theorem cleanup_idempotent (c : MCPClient) :
  res_of (cleanup c) = Ret tt
  /\ process (self_of (cleanup c)) = None
  /\ (process c = None -> cleanup c = (Ret tt, c, [EvPrint LogCleaning]))
  /\ cleanup (self_of (cleanup c))
     = (Ret tt, self_of (cleanup c), [EvPrint LogCleaning])
  /\ (forall launch : option Popen,
         res_of (initialize launch (self_of (cleanup c)))
         = res_of (initialize launch
                     (__init__ (server_path c) (client_name c) (client_version c)))
         /\ trace_of (initialize launch (self_of (cleanup c)))
            = trace_of (initialize launch
                          (__init__ (server_path c) (client_name c) (client_version c)))
         /\ process (self_of (initialize launch (self_of (cleanup c))))
            = process (self_of (initialize launch
                                  (__init__ (server_path c) (client_name c)
                                     (client_version c))))).
Proof.
  split; [now rewrite cleanup_run|].
  split; [now rewrite cleanup_run|].
  split.
  { intros Hp. rewrite cleanup_run, Hp.
    replace (with_process c None) with c; [reflexivity|].
    rewrite <- Hp. symmetry. apply with_process_same. }
  split.
  { rewrite (cleanup_run c), self_of_pair. rewrite cleanup_run. reflexivity. }
  intros launch. rewrite (initialize_after_cleanup launch c).
  rewrite res_of_pair, trace_of_pair, self_of_pair. repeat split.
Qed.

Lemma cleanup_idempotent_witness :
  (* never started *)
  cleanup fresh = (Ret tt, fresh, [EvPrint LogCleaning])
  (* twice in a row on a live connection whose child ignores SIGTERM *)
  /\ res_of (cleanup
               (connected
                  {| pid := 4242; stdin_budget := None; stdout_pending := [];
                     stdout_end := Blocks; on_wait := TimesOut |}))
     = Ret tt
  /\ cleanup
       (self_of
          (cleanup
             (connected
                {| pid := 4242; stdin_budget := None; stdout_pending := [];
                   stdout_end := Blocks; on_wait := TimesOut |})))
     = (Ret tt, fresh, [EvPrint LogCleaning])
  (* and a new start succeeds *)
  /\ res_of (initialize (Some (server [Json tools_reply] Blocks))
               (self_of (cleanup (connected (server [] Eof)))))
     = Ret (JList [JObj [("name", JStr "foo"); ("description", JStr "d")]]).
Proof.
  destruct (cleanup_idempotent fresh) as (_ & _ & Hnone & _).
  destruct (cleanup_idempotent
              (connected
                 {| pid := 4242; stdin_budget := None; stdout_pending := [];
                    stdout_end := Blocks; on_wait := TimesOut |}))
    as (Hret & _ & _ & Htwice & _).
  destruct (cleanup_idempotent (connected (server [] Eof))) as (_ & _ & _ & _ & Hinit).
  destruct (Hinit (Some (server [Json tools_reply] Blocks))) as (Hres & _).
  split; [apply Hnone; reflexivity|].
  split; [exact Hret|].
  split; [exact Htwice|].
  rewrite Hres. reflexivity.
Defined.

(** * Further properties of the client *)

(** ** The handshake loop *)

Lemma prefixed_prefixed {A} (t1 t2 : list event)
    (o : result A * MCPClient * list event) :
  prefixed t1 (prefixed t2 o) = prefixed (t1 ++ t2) o.
Proof. unfold prefixed. cbn [res_of self_of trace_of fst snd]. now rewrite app_assoc. Qed.

Lemma prefixed_pair {A} (t1 : list event) (r : result A) (c : MCPClient)
    (t : list event) :
  prefixed t1 (r, c, t) = (r, c, t1 ++ t).
Proof. reflexivity. Qed.

(** What [check_tools_list] makes of a message, whatever the client. *)
Lemma check_tools_list_run (msg : json) (c : MCPClient) :
  self_of (check_tools_list msg c) = c
  /\ Forall is_print (trace_of (check_tools_list msg c))
  /\ res_of (check_tools_list msg c)
     = match msg with
       | JObj fields =>
           if eq_int (get_default "id" JNull fields) 1 && has_key "result" fields
           then match lookup "result" fields with
                | Some (JObj result) =>
                    if has_len (get_default "tools" (JList []) result)
                    then Ret (Some (get_default "tools" (JList []) result))
                    else Raise TypeError
                | Some _ => Raise AttributeError
                | None => Raise KeyError
                end
           else if eq_int (get_default "id" JNull fields) 1 && has_key "error" fields
           then match lookup "error" fields with
                | Some error => Raise (InitError error)
                | None => Raise KeyError
                end
           else Ret None
       | _ => Raise AttributeError
       end.
Proof.
  destruct msg as [| | | | | |fields];
    try solve [repeat split; repeat constructor].
  unfold check_tools_list, dot_get, subscript, dot_get_default. munfold.
  destruct (eq_int (get_default "id" JNull fields) 1 && has_key "result" fields).
  - destruct (lookup "result" fields) as [[| | | | | |rfields]|];
      try solve [repeat split; repeat constructor].
    destruct (has_len (get_default "tools" (JList []) rfields));
      repeat split; repeat constructor.
  - destruct (eq_int (get_default "id" JNull fields) 1 && has_key "error" fields);
      [destruct (lookup "error" fields)|]; repeat split; repeat constructor.
Qed.

(** One iteration of the handshake loop on a truthy message. *)
Lemma tools_step_message (n : nat) (c c1 : MCPClient) (msg : json) (t : list event) :
  _read_json_line c = (Ret msg, c1, t) ->
  truthy msg = true ->
  wait_for_tools (S n) c
  = match res_of (check_tools_list msg c1) with
    | Ret (Some tools) =>
        (Ret (tools, false), c1, t ++ trace_of (check_tools_list msg c1))
    | Ret None =>
        prefixed (t ++ trace_of (check_tools_list msg c1) ++ [EvSleep 100])
          (wait_for_tools n c1)
    | Raise e => (Raise e, c1, t ++ trace_of (check_tools_list msg c1))
    | Hang => (Hang, c1, t ++ trace_of (check_tools_list msg c1))
    end.
Proof.
  intros Hread Hmsg. cbn [wait_for_tools]. rewrite bind_run, Hread.
  rewrite res_of_pair, self_of_pair, trace_of_pair, Hmsg.
  rewrite bind_run.
  destruct (check_tools_list_run msg c1) as (Hc & _ & _).
  destruct (res_of (check_tools_list msg c1)) as [[tools|]|e|].
  - rewrite Hc. unfold ret. rewrite !prefixed_pair. now rewrite app_nil_r.
  - rewrite Hc. rewrite bind_run. cbn [sleep emit res_of self_of trace_of fst snd].
    rewrite !prefixed_prefixed. now rewrite <- !app_assoc.
  - rewrite Hc. reflexivity.
  - rewrite Hc. reflexivity.
Qed.

Lemma check_tools_list_pass (fields : list (string * json)) (c : MCPClient) :
  tools_skipped (Json (JObj fields)) = true ->
  check_tools_list (JObj fields) c
  = (Ret None, c, [EvPrint (LogReceivedMessage (JObj fields))]).
Proof.
  cbn [tools_skipped]. intros Hs. apply negb_true_iff in Hs.
  unfold check_tools_list, dot_get. munfold.
  destruct (eq_int (get_default "id" JNull fields) 1); [|reflexivity].
  cbn [andb] in *. apply orb_false_iff in Hs. destruct Hs as [-> ->]. reflexivity.
Qed.

(** The handshake loop passes over a skipped line, at the cost of one
    attempt. *)
Lemma tools_skip (n : nat) (c : MCPClient) (p : Popen) (l : line) (rest : list line) :
  process c = Some p ->
  stdout_pending p = l :: rest ->
  tools_skipped l = true ->
  wait_for_tools (S n) c
  = prefixed (handshake_read_trace l ++ [EvSleep 100])
      (wait_for_tools n (with_process c (Some (with_stdout p rest)))).
Proof.
  intros Hp Hl Hs. unfold handshake_read_trace.
  assert (Hlost : lost_with l = 0%nat).
  { destruct l as [|raw|v|lost]; try reflexivity.
    cbn [tools_skipped lost_with] in *. now apply Nat.eqb_eq in Hs. }
  pose proof (read_json_line_pending c p l rest Hp Hl Hlost) as Hread.
  destruct (truthy (parsed l)) eqn:Ht.
  - destruct l as [|raw|v|]; try discriminate. cbn [parsed] in *.
    destruct v as [| | | | | |fields];
      try (cbn [tools_skipped] in Hs; rewrite Ht in Hs; discriminate).
    rewrite (tools_step_message n c _ _ _ Hread Ht).
    rewrite (check_tools_list_pass fields _ Hs).
    rewrite res_of_pair, trace_of_pair. now rewrite <- app_assoc.
  - rewrite (tools_step_none n c _ _ _ Hread Ht). now rewrite app_nil_r.
Qed.

Lemma handshake_read_trace_reads (l : line) :
  reads (handshake_read_trace l) = 1%nat.
Proof.
  unfold handshake_read_trace. rewrite reads_app, reads_read_trace.
  destruct (truthy (parsed l)); reflexivity.
Qed.

Lemma tools_skips (ls : list line) :
  forall (n : nat) (c : MCPClient) (p : Popen) (rest : list line),
    process c = Some p ->
    stdout_pending p = ls ++ rest ->
    Forall (fun l => tools_skipped l = true) ls ->
    let o := wait_for_tools (length ls + n) c in
    let o' := wait_for_tools n (with_process c (Some (with_stdout p rest))) in
    res_of o = res_of o' /\ self_of o = self_of o'
    /\ reads (trace_of o) = (length ls + reads (trace_of o'))%nat.
Proof.
  induction ls as [|l ls IH]; intros n c p rest Hp Hl Hs.
  - cbn [length Nat.add app] in *. rewrite <- Hl, with_stdout_same.
    rewrite (with_process_current c p Hp). auto.
  - inversion Hs as [|? ? Hl1 Hls]; subst.
    cbn [length Nat.add]. cbn [app] in Hl.
    rewrite (tools_skip (length ls + n) c p l (ls ++ rest) Hp Hl Hl1).
    destruct (IH n (with_process c (Some (with_stdout p (ls ++ rest))))
                (with_stdout p (ls ++ rest)) rest eq_refl eq_refl Hls)
      as (Hr & Hc & Ht).
    cbn zeta in *.
    rewrite res_of_prefixed, self_of_prefixed, trace_of_prefixed.
    split; [exact Hr|]. split; [exact Hc|].
    rewrite !reads_app, handshake_read_trace_reads, Ht. reflexivity.
Qed.

(** The result of request 1 ends the loop with the advertised tools. *)
Lemma tools_found (n : nat) (c : MCPClient) (p : Popen)
    (fields result : list (string * json)) (rest : list line) :
  process c = Some p ->
  stdout_pending p = Json (JObj fields) :: rest ->
  eq_int (get_default "id" JNull fields) 1 = true ->
  lookup "result" fields = Some (JObj result) ->
  has_len (get_default "tools" (JList []) result) = true ->
  res_of (wait_for_tools (S n) c)
  = Ret (get_default "tools" (JList []) result, false)
  /\ self_of (wait_for_tools (S n) c) = with_process c (Some (with_stdout p rest))
  /\ reads (trace_of (wait_for_tools (S n) c)) = 1%nat.
Proof.
  intros Hp Hl Hid Hres Hlen.
  pose proof (read_json_line_pending c p _ rest Hp Hl eq_refl) as Hread. cbn [parsed] in Hread.
  rewrite (tools_step_message n c _ _ _ Hread (answers_truthy 1 fields Hid)).
  destruct (check_tools_list_run (JObj fields)
              (with_process c (Some (with_stdout p rest)))) as (_ & Hpr & Hr).
  rewrite Hr, Hid. unfold has_key. rewrite Hres. cbn [andb]. rewrite Hlen.
  rewrite res_of_pair, self_of_pair, trace_of_pair.
  repeat split. rewrite reads_app, (prints_no_reads _ Hpr). reflexivity.
Qed.

(** The error of request 1 ends the loop with the server's error. *)
Lemma tools_refused (n : nat) (c : MCPClient) (p : Popen)
    (fields : list (string * json)) (error : json) (rest : list line) :
  process c = Some p ->
  stdout_pending p = Json (JObj fields) :: rest ->
  eq_int (get_default "id" JNull fields) 1 = true ->
  lookup "result" fields = None ->
  lookup "error" fields = Some error ->
  res_of (wait_for_tools (S n) c) = Raise (InitError error)
  /\ self_of (wait_for_tools (S n) c) = with_process c (Some (with_stdout p rest)).
Proof.
  intros Hp Hl Hid Hres Herr.
  pose proof (read_json_line_pending c p _ rest Hp Hl eq_refl) as Hread. cbn [parsed] in Hread.
  rewrite (tools_step_message n c _ _ _ Hread (answers_truthy 1 fields Hid)).
  destruct (check_tools_list_run (JObj fields)
              (with_process c (Some (with_stdout p rest)))) as (_ & _ & Hr).
  rewrite Hr, Hid. unfold has_key. rewrite Hres, Herr. cbn [andb].
  rewrite res_of_pair, self_of_pair. auto.
Qed.

(** ** The handshake messages *)

Lemma send_init_run (c : MCPClient) (p : Popen) :
  accepts 3 p = true ->
  send_init 0 (init_messages c) (with_process c (Some p))
  = (Ret tt, with_process c (Some (after_write (after_write (after_write p)))),
     flat_map
       (fun im =>
          [EvPrint (LogSendingMessage (fst im) (get_default "method" JNull
                                                  match snd im with
                                                  | JObj fields => fields
                                                  | _ => []
                                                  end));
           EvPrint (LogSending (snd im)); EvWrite (snd im) true; EvSleep 100])
       (combine [1%nat; 2%nat; 3%nat] (init_messages c))).
Proof.
  unfold accepts. intros Hb.
  unfold send_init, init_messages, _send_message, stdin_write, subscript, after_write.
  munfold. cbn [lookup String.eqb Ascii.eqb Bool.eqb process with_process].
  destruct (stdin_budget p) as [[|[|[|k]]]|] eqn:Hbudget; try discriminate.
  - reflexivity.
  - repeat (rewrite Hbudget; cbn). reflexivity.
Qed.

(** Once the child takes the three messages, the handshake is the wait
    for the tools list on what the child writes back. *)
Lemma handshake_sent (c : MCPClient) (p : Popen) :
  accepts 3 p = true ->
  handshake (with_process c (Some p))
  = prefixed (handshake_sent_trace c p)
      (await_tools
         (with_process c (Some (after_write (after_write (after_write p)))))).
Proof.
  intros Hb. unfold handshake. fold await_tools.
  rewrite bind_run. cbn [get_process res_of self_of trace_of fst snd process with_process].
  rewrite bind_run. cbn [print emit res_of self_of trace_of fst snd].
  rewrite bind_run. cbn [print emit res_of self_of trace_of fst snd].
  rewrite bind_run. cbn [sleep emit res_of self_of trace_of fst snd].
  rewrite bind_run. cbn [print emit res_of self_of trace_of fst snd].
  rewrite bind_run. cbn [get_self res_of self_of trace_of fst snd].
  rewrite bind_run.
  change (init_messages (with_process c (Some p))) with (init_messages c).
  rewrite (send_init_run c p Hb).
  rewrite res_of_pair, self_of_pair, trace_of_pair.
  rewrite !prefixed_prefixed. reflexivity.
Qed.

(** The wait for the tools list when the result of request 1 arrives
    after skipped lines, within the attempts. *)
Lemma await_tools_found (c : MCPClient) (p : Popen) (ls : list line)
    (fields result : list (string * json)) (rest : list line) :
  process c = Some p ->
  stdout_pending p = ls ++ Json (JObj fields) :: rest ->
  Forall (fun l => tools_skipped l = true) ls ->
  (length ls < init_max_attempts)%nat ->
  eq_int (get_default "id" JNull fields) 1 = true ->
  lookup "result" fields = Some (JObj result) ->
  has_len (get_default "tools" (JList []) result) = true ->
  res_of (await_tools c) = Ret (get_default "tools" (JList []) result)
  /\ self_of (await_tools c) = with_process c (Some (with_stdout p rest))
  /\ reads (trace_of (await_tools c)) = S (length ls).
Proof.
  intros Hp Hl Hs Hlen Hid Hres Hhas.
  set (m := (init_max_attempts - S (length ls))%nat).
  assert (Hm : init_max_attempts = (length ls + S m)%nat) by (subst m; lia).
  destruct (tools_skips ls (S m) c p _ Hp Hl Hs) as (Hr & Hc & Ht).
  cbn zeta in Hr, Hc, Ht.
  destruct (tools_found m
              (with_process c (Some (with_stdout p (Json (JObj fields) :: rest))))
              (with_stdout p (Json (JObj fields) :: rest)) fields result rest
              eq_refl eq_refl Hid Hres Hhas) as (Hr' & Hc' & Ht').
  rewrite Hr' in Hr. rewrite Hc' in Hc. rewrite Ht' in Ht.
  unfold await_tools. rewrite bind_run.
  cbn [print emit res_of self_of trace_of fst snd].
  rewrite bind_run, Hm, Hr, Hc.
  rewrite res_of_prefixed, self_of_prefixed, trace_of_prefixed.
  cbn [andb]. rewrite andb_false_r.
  rewrite bind_run. cbn [print emit ret res_of self_of trace_of fst snd].
  rewrite !res_of_prefixed, !self_of_prefixed, !trace_of_prefixed.
  cbn [res_of self_of trace_of fst snd].
  split; [reflexivity|]. split; [reflexivity|].
  rewrite !reads_app, Ht. cbn. lia.
Qed.

(** The same wait when the error of request 1 arrives. *)
Lemma await_tools_refused (c : MCPClient) (p : Popen) (ls : list line)
    (fields : list (string * json)) (error : json) (rest : list line) :
  process c = Some p ->
  stdout_pending p = ls ++ Json (JObj fields) :: rest ->
  Forall (fun l => tools_skipped l = true) ls ->
  (length ls < init_max_attempts)%nat ->
  eq_int (get_default "id" JNull fields) 1 = true ->
  lookup "result" fields = None ->
  lookup "error" fields = Some error ->
  res_of (await_tools c) = Raise (InitError error)
  /\ self_of (await_tools c) = with_process c (Some (with_stdout p rest)).
Proof.
  intros Hp Hl Hs Hlen Hid Hres Herr.
  set (m := (init_max_attempts - S (length ls))%nat).
  assert (Hm : init_max_attempts = (length ls + S m)%nat) by (subst m; lia).
  destruct (tools_skips ls (S m) c p _ Hp Hl Hs) as (Hr & Hc & _).
  cbn zeta in Hr, Hc.
  destruct (tools_refused m
              (with_process c (Some (with_stdout p (Json (JObj fields) :: rest))))
              (with_stdout p (Json (JObj fields) :: rest)) fields error rest
              eq_refl eq_refl Hid Hres Herr) as (Hr' & Hc').
  rewrite Hr' in Hr. rewrite Hc' in Hc.
  unfold await_tools. rewrite bind_run.
  cbn [print emit res_of self_of trace_of fst snd].
  rewrite res_of_prefixed, self_of_prefixed, bind_run, Hm, Hr, Hc.
  split; reflexivity.
Qed.

(** The same wait when the attempts run out: twenty skipped lines, or
    fewer and then the end of the child's stdout. *)
Lemma tools_at_eof (c : MCPClient) (p : Popen) (n : nat) :
  process c = Some p ->
  stdout_pending p = [] ->
  stdout_end p = Eof ->
  res_of (wait_for_tools n c) = Ret (JList [], true)
  /\ self_of (wait_for_tools n c) = c
  /\ reads (trace_of (wait_for_tools n c)) = n.
Proof.
  intros Hp Hl He. induction n as [|n IH]; [repeat split|].
  rewrite (tools_step_none n c c JNull [EvReadline]
             (read_json_line_eof c p Hp Hl He) eq_refl).
  rewrite res_of_prefixed, self_of_prefixed, trace_of_prefixed, reads_app.
  destruct IH as (-> & -> & ->). repeat split.
Qed.

Lemma await_tools_times_out (c : MCPClient) (p : Popen)
    (ls rest : list line) :
  process c = Some p ->
  stdout_pending p = ls ++ rest ->
  Forall (fun l => tools_skipped l = true) ls ->
  length ls = init_max_attempts
  \/ ((length ls <= init_max_attempts)%nat /\ rest = [] /\ stdout_end p = Eof) ->
  res_of (await_tools c) = Raise ToolsListTimeout
  /\ reads (trace_of (await_tools c)) = init_max_attempts.
Proof.
  intros Hp Hl Hs Hcase.
  set (m := (init_max_attempts - length ls)%nat).
  assert (Hm : init_max_attempts = (length ls + m)%nat)
    by (subst m; destruct Hcase as [H|[H _]]; lia).
  destruct (tools_skips ls m c p _ Hp Hl Hs) as (Hr & _ & Ht).
  cbn zeta in Hr, Ht.
  assert (Hend : res_of (wait_for_tools m (with_process c (Some (with_stdout p rest))))
                 = Ret (JList [], true)
                 /\ reads (trace_of (wait_for_tools m
                                       (with_process c (Some (with_stdout p rest)))))
                    = m).
  { destruct Hcase as [H|(_ & -> & He)].
    - assert (m = 0%nat) as -> by (subst m; lia). split; reflexivity.
    - destruct (tools_at_eof (with_process c (Some (with_stdout p [])))
                  (with_stdout p []) m eq_refl eq_refl He) as (H1 & _ & H2).
      auto. }
  destruct Hend as [Hr' Ht']. rewrite Hr' in Hr. rewrite Ht' in Ht.
  unfold await_tools. rewrite bind_run.
  cbn [print emit res_of self_of trace_of fst snd].
  rewrite bind_run, Hm, Hr.
  rewrite res_of_prefixed, trace_of_prefixed.
  cbn [truthy negb andb raise res_of trace_of fst snd].
  rewrite !res_of_prefixed, !trace_of_prefixed.
  split; [reflexivity|].
  rewrite !reads_app, Ht. cbn. lia.
Qed.

(** ** Events that the polling loops never produce *)

Section Polling.

Variable P : event -> Prop.

Hypothesis P_readline : P EvReadline.
Hypothesis P_sleep : forall ms, P (EvSleep ms).
Hypothesis P_print : forall l, P (EvPrint l).

Lemma all_bind {A B} (m : M A) (k : A -> M B) (c : MCPClient) :
  Forall P (trace_of (m c)) ->
  (forall a c1, Forall P (trace_of (k a c1))) ->
  Forall P (trace_of (bind m k c)).
Proof.
  intros Hm Hk. rewrite bind_run.
  destruct (res_of (m c)) as [a|e|]; try exact Hm.
  rewrite trace_of_prefixed. apply Forall_app. split; [exact Hm | apply Hk].
Qed.

Lemma all_prints (t : list event) : Forall is_print t -> Forall P t.
Proof.
  intros H. eapply Forall_impl; [|exact H].
  intros e He. destruct e; try contradiction. apply P_print.
Qed.

Lemma all_read_trace (l : line) : Forall P (read_trace l).
Proof. destruct l; cbn; repeat constructor; auto. Qed.

Lemma all_read_json_line (c : MCPClient) : Forall P (trace_of (_read_json_line c)).
Proof.
  destruct (process c) as [p|] eqn:Hp.
  - destruct (stdout_pending p) as [|l rest] eqn:Hl.
    + destruct (stdout_end p) eqn:He.
      * rewrite (read_json_line_eof c p Hp Hl He). repeat constructor; auto.
      * rewrite (read_json_line_blocks c p Hp Hl He). repeat constructor; auto.
    + rewrite (read_json_line_next c p l rest Hp Hl). apply all_read_trace.
  - rewrite (read_json_line_no_process c Hp). constructor.
Qed.

Lemma all_wait_for_tools (n : nat) :
  forall c, Forall P (trace_of (wait_for_tools n c)).
Proof.
  induction n as [|n IH]; intros c; cbn [wait_for_tools]; [constructor|].
  apply all_bind; [apply all_read_json_line|]. intros msg c1.
  apply all_bind.
  - destruct (truthy msg); [|constructor].
    apply all_prints. apply (check_tools_list_run msg c1).
  - intros [tools|] c2; [constructor|].
    apply all_bind; [repeat constructor; auto|]. intros _ c3. apply IH.
Qed.

Lemma all_await_tools (c : MCPClient) : Forall P (trace_of (await_tools c)).
Proof.
  unfold await_tools.
  apply all_bind; [repeat constructor; auto|]. intros _ c1.
  apply all_bind; [apply all_wait_for_tools|]. intros [tools exhausted] c2.
  destruct (negb (truthy tools) && exhausted); [constructor|].
  repeat constructor; auto.
Qed.

Lemma all_wait_for_response (call_id : Z) (n : nat) :
  forall c, Forall P (trace_of (wait_for_response n call_id c)).
Proof.
  induction n as [|n IH]; intros c; cbn [wait_for_response]; [constructor|].
  apply all_bind; [apply all_read_json_line|]. intros msg c1.
  destruct (negb (truthy msg)).
  - apply all_bind; [repeat constructor; auto|]. intros _ c2. apply IH.
  - apply all_bind; [destruct msg; constructor|]. intros id c2.
    destruct (eq_int id call_id).
    + repeat constructor; auto.
    + apply all_bind; [repeat constructor; auto|]. intros _ c3. apply IH.
Qed.

Lemma all_await_and_handle (py_str : json -> string) (call_id : Z) (c : MCPClient) :
  Forall P
    (trace_of
       ((response <- await_response call_id ;; handle_response py_str response) c)).
Proof.
  apply all_bind.
  - unfold await_response.
    apply all_bind; [repeat constructor; auto|]. intros _ c1.
    apply all_bind; [apply all_wait_for_response|]. intros response c2.
    destruct (negb (truthy response)); repeat constructor; auto.
  - intros response c1. apply all_prints. apply handle_response_prints.
Qed.

End Polling.

Lemma writes_app (t1 t2 : list event) : writes (t1 ++ t2) = writes t1 ++ writes t2.
Proof. apply flat_map_app. Qed.

Lemma no_write_writes (t : list event) : Forall no_write t -> writes t = [].
Proof.
  induction 1 as [|e t He _ IH]; [reflexivity|].
  destruct e; try contradiction; exact IH.
Qed.

Lemma await_tools_writes_nothing (c : MCPClient) : writes (trace_of (await_tools c)) = [].
Proof.
  apply no_write_writes. apply all_await_tools; intros; exact I.
Qed.

(** X1: when the child is started and takes the three messages, and its
    stdout delivers at most 19 lines that the handshake passes over (among
    them the reply to request 0), followed by the result of request 1,
    [initialize] returns the value of the result's tools field (the empty
    list when the field is missing), keeps the process handle with the
    lines after the reply still pending, leaves the counter alone, has
    written the three handshake messages and nothing else, and has made one
    read per line. *)
Theorem initialize_returns_tools (c : MCPClient) (p : Popen) (ls : list line)
    (fields result : list (string * json)) (rest : list line)
    (Hstdin : accepts 3 p = true)
    (Hstream : stdout_pending p = ls ++ Json (JObj fields) :: rest)
    (Hskipped : Forall (fun l => tools_skipped l = true) ls)
    (Hfew : (length ls <= 19)%nat)
    (Hid : eq_int (get_default "id" JNull fields) 1 = true)
    (Hresult : lookup "result" fields = Some (JObj result))
    (Hlen : has_len (get_default "tools" (JList []) result) = true) :
  res_of (initialize (Some p) c) = Ret (get_default "tools" (JList []) result)
  /\ self_of (initialize (Some p) c)
     = with_process c
         (Some (with_stdout (after_write (after_write (after_write p))) rest))
  /\ writes (trace_of (initialize (Some p) c)) = init_messages c
  /\ reads (trace_of (initialize (Some p) c)) = S (length ls).
Proof.
  assert (Hpending : stdout_pending (after_write (after_write (after_write p)))
                     = ls ++ Json (JObj fields) :: rest).
  { unfold after_write. repeat (destruct (stdin_budget _) as [[|?]|]; cbn); exact Hstream. }
  destruct (await_tools_found
              (with_process c (Some (after_write (after_write (after_write p)))))
              _ ls fields result rest eq_refl Hpending Hskipped) as (Hr & Hc & Ht);
    try assumption.
  { unfold init_max_attempts. lia. }
  rewrite initialize_spawned, (handshake_sent c p Hstdin).
  rewrite res_of_prefixed, self_of_prefixed, trace_of_prefixed, Hr.
  rewrite prefixed_prefixed.
  rewrite res_of_prefixed, self_of_prefixed, trace_of_prefixed, Hr, Hc.
  split; [reflexivity|]. split; [reflexivity|]. split.
  - rewrite !writes_app, await_tools_writes_nothing. cbn [app].
    rewrite app_nil_r. reflexivity.
  - rewrite !reads_app, Ht. reflexivity.
Qed.

Lemma initialize_returns_tools_witness :
  res_of (initialize (Some (server [Text "Starting server"; Json init_reply;
                                    Json tools_reply; Json notification] Blocks))
            fresh)
  = Ret (JList [JObj [("name", JStr "foo"); ("description", JStr "d")]])
  /\ self_of (initialize (Some (server [Text "Starting server"; Json init_reply;
                                        Json tools_reply; Json notification] Blocks))
                fresh)
     = connected (server [Json notification] Blocks)
  /\ writes (trace_of
               (initialize (Some (server [Text "Starting server"; Json init_reply;
                                          Json tools_reply; Json notification] Blocks))
                  fresh))
     = init_messages fresh
  /\ reads (trace_of
              (initialize (Some (server [Text "Starting server"; Json init_reply;
                                         Json tools_reply; Json notification] Blocks))
                 fresh))
     = 3%nat.
Proof.
  apply (initialize_returns_tools fresh
           (server [Text "Starting server"; Json init_reply;
                    Json tools_reply; Json notification] Blocks)
           [Text "Starting server"; Json init_reply]
           [("jsonrpc", JStr "2.0"); ("id", JInt 1);
            ("result",
             JObj [("tools",
                    JList [JObj [("name", JStr "foo"); ("description", JStr "d")]])])]
           [("tools", JList [JObj [("name", JStr "foo"); ("description", JStr "d")]])]
           [Json notification]).
  - reflexivity.
  - reflexivity.
  - repeat constructor.
  - simpl. lia.
  - reflexivity.
  - reflexivity.
  - reflexivity.
Defined.

(** X2: when the error of request 1 arrives instead, after at most 19
    skipped lines and without a result field beside it, and the error is a
    value that [print] can write (anything but a string with a lone
    surrogate), [initialize] raises the wrapped initialization error that
    carries the server's error value as it is, and the process handle is
    cleared. *)
Theorem initialize_reports_server_error (c : MCPClient) (p : Popen)
    (ls : list line) (fields : list (string * json)) (error : json)
    (rest : list line)
    (Hstdin : accepts 3 p = true)
    (Hstream : stdout_pending p = ls ++ Json (JObj fields) :: rest)
    (Hskipped : Forall (fun l => tools_skipped l = true) ls)
    (Hfew : (length ls <= 19)%nat)
    (Hid : eq_int (get_default "id" JNull fields) 1 = true)
    (Hresult : lookup "result" fields = None)
    (Herror : lookup "error" fields = Some error)
    (Hprintable : printable error = true) :
  res_of (initialize (Some p) c) = Raise (InitFailed (InitError error))
  /\ process (self_of (initialize (Some p) c)) = None
  /\ writes (trace_of (initialize (Some p) c)) = init_messages c.
Proof.
  assert (Hpending : stdout_pending (after_write (after_write (after_write p)))
                     = ls ++ Json (JObj fields) :: rest).
  { unfold after_write. repeat (destruct (stdin_budget _) as [[|?]|]; cbn); exact Hstream. }
  assert (Hr : res_of (await_tools
                         (with_process c
                            (Some (after_write (after_write (after_write p))))))
               = Raise (InitError error)).
  { apply (await_tools_refused
             (with_process c (Some (after_write (after_write (after_write p)))))
             (after_write (after_write (after_write p)))
             ls fields error rest eq_refl Hpending Hskipped);
      try assumption.
    unfold init_max_attempts. lia. }
  rewrite initialize_spawned, (handshake_sent c p Hstdin).
  rewrite res_of_prefixed, self_of_prefixed, trace_of_prefixed, Hr.
  cbn [printable_exn]. rewrite Hprintable.
  rewrite res_of_pair, self_of_pair, trace_of_pair.
  split; [reflexivity|]. split; [reflexivity|].
  rewrite !writes_app, await_tools_writes_nothing. cbn [app writes flat_map].
  rewrite !app_nil_r. reflexivity.
Qed.

Lemma initialize_reports_server_error_witness :
  res_of (initialize (Some (server [Json init_reply; Json error_reply] Blocks)) fresh)
  = Raise (InitFailed
             (InitError (JObj [("code", JInt (-32602));
                               ("message", JStr "bad version")])))
  /\ process (self_of (initialize
                         (Some (server [Json init_reply; Json error_reply] Blocks))
                         fresh))
     = None
  /\ writes (trace_of (initialize
                         (Some (server [Json init_reply; Json error_reply] Blocks))
                         fresh))
     = init_messages fresh.
Proof.
  apply (initialize_reports_server_error fresh
           (server [Json init_reply; Json error_reply] Blocks)
           [Json init_reply]
           [("jsonrpc", JStr "2.0"); ("id", JInt 1);
            ("error", JObj [("code", JInt (-32602)); ("message", JStr "bad version")])]
           (JObj [("code", JInt (-32602)); ("message", JStr "bad version")])
           []).
  - reflexivity.
  - reflexivity.
  - repeat constructor.
  - simpl. lia.
  - reflexivity.
  - reflexivity.
  - reflexivity.
  - reflexivity.
Defined.

(** X3: when the first twenty lines of the child's stdout are all passed
    over by the handshake, or fewer are and then the stdout is at its end,
    [initialize] raises the wrapped tools-list timeout after exactly
    twenty reads and clears the process handle; a result of request 1 that
    comes as the twenty-first line is not read. *)
Theorem initialize_times_out (c : MCPClient) (p : Popen) (ls rest : list line)
    (Hstdin : accepts 3 p = true)
    (Hstream : stdout_pending p = ls ++ rest)
    (Hskipped : Forall (fun l => tools_skipped l = true) ls)
    (Hexhausted : length ls = 20%nat
                  \/ ((length ls <= 20)%nat /\ rest = [] /\ stdout_end p = Eof)) :
  res_of (initialize (Some p) c) = Raise (InitFailed ToolsListTimeout)
  /\ process (self_of (initialize (Some p) c)) = None
  /\ reads (trace_of (initialize (Some p) c)) = 20%nat.
Proof.
  assert (Hpending : stdout_pending (after_write (after_write (after_write p)))
                     = ls ++ rest).
  { unfold after_write. repeat (destruct (stdin_budget _) as [[|?]|]; cbn); exact Hstream. }
  assert (Hend : stdout_end (after_write (after_write (after_write p))) = stdout_end p).
  { unfold after_write. repeat (destruct (stdin_budget _) as [[|?]|]; cbn); reflexivity. }
  destruct (await_tools_times_out
              (with_process c (Some (after_write (after_write (after_write p)))))
              _ ls rest eq_refl Hpending Hskipped) as (Hr & Ht).
  { rewrite Hend. exact Hexhausted. }
  rewrite initialize_spawned, (handshake_sent c p Hstdin).
  rewrite res_of_prefixed, self_of_prefixed, trace_of_prefixed, Hr.
  cbn [printable_exn].
  rewrite res_of_pair, self_of_pair, trace_of_pair.
  split; [reflexivity|]. split; [reflexivity|].
  rewrite !reads_app, Ht. reflexivity.
Qed.

Lemma initialize_times_out_witness :
  res_of (initialize (Some (server (repeat (Json notification) 20 ++ [Json tools_reply])
                              Blocks))
            fresh)
  = Raise (InitFailed ToolsListTimeout)
  /\ process (self_of (initialize
                         (Some (server (repeat (Json notification) 20
                                        ++ [Json tools_reply]) Blocks))
                         fresh))
     = None
  /\ reads (trace_of (initialize
                        (Some (server (repeat (Json notification) 20
                                       ++ [Json tools_reply]) Blocks))
                        fresh))
     = 20%nat.
Proof.
  apply (initialize_times_out fresh
           (server (repeat (Json notification) 20 ++ [Json tools_reply]) Blocks)
           (repeat (Json notification) 20) [Json tools_reply]).
  - reflexivity.
  - reflexivity.
  - apply Forall_forall. intros l Hl. apply repeat_spec in Hl. subst l. reflexivity.
  - left. reflexivity.
Defined.

(** ** What a successful handshake has seen *)

Lemma tools_step_hang (n : nat) (c c1 : MCPClient) (t : list event) :
  _read_json_line c = (Hang, c1, t) ->
  wait_for_tools (S n) c = (Hang, c1, t).
Proof.
  intros Hread. cbn [wait_for_tools]. unfold bind at 1. now rewrite Hread.
Qed.

(** Whatever the handshake loop returns at its [break] is the tools field
    of a pending line that is the result of request 1, and has a length. *)
Lemma wait_for_tools_ret (n : nat) :
  forall (c : MCPClient) (tools : json) (exhausted : bool),
    res_of (wait_for_tools n c) = Ret (tools, exhausted) ->
    (exhausted = true /\ tools = JList [])
    \/ (exhausted = false
        /\ exists p fields result,
             process c = Some p
             /\ In (Json (JObj fields)) (stdout_pending p)
             /\ eq_int (get_default "id" JNull fields) 1 = true
             /\ lookup "result" fields = Some (JObj result)
             /\ tools = get_default "tools" (JList []) result
             /\ has_len tools = true).
Proof.
  induction n as [|n IH]; intros c tools exhausted Hr.
  - cbn in Hr. injection Hr as <- <-. left. auto.
  - destruct (process c) as [p|] eqn:Hp.
    + destruct (stdout_pending p) as [|l rest] eqn:Hl.
      * destruct (stdout_end p) eqn:He.
        -- rewrite (tools_step_none n c c JNull [EvReadline]
                      (read_json_line_eof c p Hp Hl He) eq_refl) in Hr.
           rewrite res_of_prefixed in Hr.
           destruct (IH c tools exhausted Hr)
             as [?|(Hex & p' & fields & result & Hp' & Hin & _)]; [left; auto|].
           rewrite Hp in Hp'. injection Hp' as <-. rewrite Hl in Hin.
           contradiction Hin.
        -- rewrite (tools_step_hang n c c [EvReadline]
                      (read_json_line_blocks c p Hp Hl He)) in Hr.
           discriminate.
      * pose proof (read_json_line_next c p l rest Hp Hl) as Hread.
        assert (Hnext : res_of (wait_for_tools n (with_process c (Some (with_stdout p (skipn (lost_with l) rest)))))
                        = Ret (tools, exhausted) ->
                        (exhausted = true /\ tools = JList [])
                        \/ (exhausted = false
                            /\ exists p0 fields result,
                                 Some p = Some p0
                                 /\ In (Json (JObj fields)) (stdout_pending p0)
                                 /\ eq_int (get_default "id" JNull fields) 1 = true
                                 /\ lookup "result" fields = Some (JObj result)
                                 /\ tools = get_default "tools" (JList []) result
                                 /\ has_len tools = true)).
        { intros Hr'.
          destruct (IH _ tools exhausted Hr')
            as [?|(Hex & p' & fields & result & Hp' & Hin & Hrest)]; [left; auto|].
          cbn [process with_process] in Hp'. injection Hp' as <-.
          right. split; [exact Hex|]. exists p, fields, result.
          split; [reflexivity|]. split; [|exact Hrest].
          rewrite Hl. cbn [In]. right.
          exact (In_skipn _ (lost_with l) rest Hin). }
        destruct (truthy (parsed l)) eqn:Ht.
        -- rewrite (tools_step_message n c _ _ _ Hread Ht) in Hr.
           destruct (check_tools_list_run (parsed l)
                       (with_process c (Some (with_stdout p (skipn (lost_with l) rest))))) as (_ & _ & Hv).
           destruct (res_of (check_tools_list (parsed l)
                               (with_process c (Some (with_stdout p (skipn (lost_with l) rest))))))
             as [[found|]|e|]; try discriminate.
           ++ rewrite res_of_pair in Hr. injection Hr as <- <-.
              right. split; [reflexivity|].
              destruct l as [|raw|v|]; try discriminate. cbn [parsed] in *.
              destruct v as [| | | | | |fields]; try discriminate.
              destruct (eq_int (get_default "id" JNull fields) 1) eqn:Hid;
                [|cbn [andb] in Hv; discriminate].
              destruct (has_key "result" fields) eqn:Hk.
              ** cbn [andb] in Hv.
                 destruct (lookup "result" fields) as [[| | | | | |result]|] eqn:Hres;
                   try discriminate.
                 destruct (has_len (get_default "tools" (JList []) result)) eqn:Hlen;
                   [|discriminate].
                 injection Hv as ->.
                 exists p, fields, result. rewrite Hl. cbn [In]. repeat split; auto.
              ** cbn [andb] in Hv.
                 destruct (has_key "error" fields); [|discriminate].
                 destruct (lookup "error" fields); discriminate.
           ++ rewrite res_of_prefixed in Hr. apply Hnext. exact Hr.
        -- rewrite (tools_step_none n c _ _ _ Hread Ht) in Hr.
           rewrite res_of_prefixed in Hr. apply Hnext. exact Hr.
    + rewrite (tools_step_none n c c JNull []
                 (read_json_line_no_process c Hp) eq_refl) in Hr.
      rewrite res_of_prefixed in Hr.
      destruct (IH c tools exhausted Hr) as [?|(_ & p' & ? & ? & Hp' & _)];
        [left; auto | congruence].
Qed.

Lemma await_tools_ret (c : MCPClient) (tools : json) :
  res_of (await_tools c) = Ret tools ->
  exists p fields result,
    process c = Some p
    /\ In (Json (JObj fields)) (stdout_pending p)
    /\ eq_int (get_default "id" JNull fields) 1 = true
    /\ lookup "result" fields = Some (JObj result)
    /\ tools = get_default "tools" (JList []) result
    /\ has_len tools = true.
Proof.
  unfold await_tools. rewrite bind_run.
  cbn [print emit res_of self_of trace_of fst snd].
  rewrite res_of_prefixed, bind_run.
  pose proof (wait_for_tools_ret init_max_attempts c) as Hw.
  destruct (res_of (wait_for_tools init_max_attempts c)) as [[found exhausted]|e|];
    try discriminate.
  rewrite res_of_prefixed.
  destruct (Hw found exhausted eq_refl) as [[-> ->]|(-> & Hfound)].
  - discriminate.
  - rewrite andb_false_r. rewrite bind_run.
    cbn [print emit ret res_of self_of trace_of fst snd].
    intros H. injection H as <-. exact Hfound.
Qed.

Lemma send_init_fails (c : MCPClient) (p : Popen) :
  accepts 3 p = false ->
  res_of (send_init 0 (init_messages c) (with_process c (Some p))) = Raise OSError
  /\ writes (trace_of (send_init 0 (init_messages c) (with_process c (Some p))))
     = firstn (match stdin_budget p with Some n => n | None => 3%nat end)
         (init_messages c)
  /\ reads (trace_of (send_init 0 (init_messages c) (with_process c (Some p)))) = 0%nat.
Proof.
  unfold accepts. intros Hb.
  unfold send_init, init_messages, _send_message, stdin_write, subscript.
  munfold. cbn [lookup String.eqb Ascii.eqb Bool.eqb process with_process].
  destruct (stdin_budget p) as [[|[|[|k]]]|] eqn:Hbudget; try discriminate;
    repeat split.
Qed.

(** The handshake when the child's stdin breaks before the three messages
    are through. *)
Lemma handshake_not_sent (c : MCPClient) (p : Popen) :
  accepts 3 p = false ->
  res_of (handshake (with_process c (Some p))) = Raise OSError
  /\ writes (trace_of (handshake (with_process c (Some p))))
     = firstn (match stdin_budget p with Some n => n | None => 3%nat end)
         (init_messages c)
  /\ reads (trace_of (handshake (with_process c (Some p)))) = 0%nat.
Proof.
  intros Hb. unfold handshake. fold await_tools.
  rewrite bind_run. cbn [get_process res_of self_of trace_of fst snd process with_process].
  rewrite bind_run. cbn [print emit res_of self_of trace_of fst snd].
  rewrite bind_run. cbn [print emit res_of self_of trace_of fst snd].
  rewrite bind_run. cbn [sleep emit res_of self_of trace_of fst snd].
  rewrite bind_run. cbn [print emit res_of self_of trace_of fst snd].
  rewrite bind_run. cbn [get_self res_of self_of trace_of fst snd].
  rewrite bind_run.
  change (init_messages (with_process c (Some p))) with (init_messages c).
  destruct (send_init_fails c p Hb) as (Hr & Hw & Ht).
  rewrite Hr. rewrite !prefixed_prefixed, !prefixed_pair.
  rewrite res_of_pair, trace_of_pair.
  split; [reflexivity|].
  rewrite writes_app, reads_app, Hw, Ht. split; reflexivity.
Qed.

(** X4: [initialize] returns only for a started child whose stdout held the
    result of request 1: the value returned is the tools field of that
    result (the empty list when the field is missing), it has a length,
    so that [len(self.tools)] in the assistants cannot fail, and the
    process handle is set, so that [call_tool] passes its guard. *)
Theorem initialize_returns_advertised_tools (launch : option Popen)
    (c : MCPClient) (tools : json)
    (Hreturns : res_of (initialize launch c) = Ret tools) :
  (exists p fields result,
      launch = Some p
      /\ In (Json (JObj fields)) (stdout_pending p)
      /\ eq_int (get_default "id" JNull fields) 1 = true
      /\ lookup "result" fields = Some (JObj result)
      /\ tools = get_default "tools" (JList []) result)
  /\ has_len tools = true
  /\ process (self_of (initialize launch c)) <> None
  /\ rpc_id_counter (self_of (initialize launch c)) = rpc_id_counter c.
Proof.
  destruct launch as [p|];
    [|rewrite initialize_not_spawned in Hreturns; discriminate].
  assert (Hcounter : rpc_id_counter (self_of (initialize (Some p) c)) = rpc_id_counter c).
  { apply (initialize_quiet (Some p) c). }
  destruct (handshake_keeps_process (with_process c (Some p))) as [Hk _].
  assert (Hshake : res_of (handshake (with_process c (Some p))) = Ret tools
                   /\ self_of (initialize (Some p) c)
                      = self_of (handshake (with_process c (Some p)))).
  { rewrite initialize_spawned in Hreturns |- *.
    destruct (res_of (handshake (with_process c (Some p)))) as [found|e|] eqn:Ho.
    - rewrite res_of_prefixed, Ho in Hreturns. rewrite self_of_prefixed. auto.
    - destruct (printable_exn e); discriminate Hreturns.
    - rewrite res_of_prefixed, Ho in Hreturns. discriminate. }
  destruct Hshake as [Ho Hself].
  split; [|split; [|split; [|exact Hcounter]]].
  - destruct (accepts 3 p) eqn:Hb.
    + rewrite (handshake_sent c p Hb), res_of_prefixed in Ho.
      destruct (await_tools_ret _ tools Ho)
        as (p' & fields & result & Hp' & Hin & Hid & Hres & Ht & _).
      cbn [process with_process] in Hp'. injection Hp' as <-.
      exists p, fields, result. repeat split; auto.
      revert Hin. unfold after_write.
      repeat (destruct (stdin_budget _) as [[|?]|]; cbn); auto.
    + destruct (handshake_not_sent c p Hb) as (Hr & _). congruence.
  - destruct (accepts 3 p) eqn:Hb.
    + rewrite (handshake_sent c p Hb), res_of_prefixed in Ho.
      destruct (await_tools_ret _ tools Ho) as (_ & _ & _ & _ & _ & _ & _ & _ & Hlen).
      exact Hlen.
    + destruct (handshake_not_sent c p Hb) as (Hr & _). congruence.
  - rewrite Hself. apply Hk. discriminate.
Qed.

Lemma initialize_returns_advertised_tools_witness :
  has_len (JList [JObj [("name", JStr "foo"); ("description", JStr "d")]]) = true
  /\ process (self_of (initialize (Some (server [Json init_reply; Json tools_reply] Blocks))
                         fresh))
     <> None.
Proof.
  destruct (initialize_returns_advertised_tools
              (Some (server [Json init_reply; Json tools_reply] Blocks)) fresh
              (JList [JObj [("name", JStr "foo"); ("description", JStr "d")]])
              eq_refl) as (_ & Hlen & Hp & _).
  split; [exact Hlen | exact Hp].
Defined.

(** X5: when the child's stdin breaks before the three handshake messages
    are through, [initialize] raises the wrapped transport error without
    reading a single line, has written only the messages that went through
    before the break, in their order, and clears the process handle. *)
Theorem initialize_fails_on_broken_stdin (c : MCPClient) (p : Popen)
    (Hbroken : accepts 3 p = false) :
  res_of (initialize (Some p) c) = Raise (InitFailed OSError)
  /\ process (self_of (initialize (Some p) c)) = None
  /\ writes (trace_of (initialize (Some p) c))
     = firstn (match stdin_budget p with Some n => n | None => 3%nat end)
         (init_messages c)
  /\ reads (trace_of (initialize (Some p) c)) = 0%nat.
Proof.
  destruct (handshake_not_sent c p Hbroken) as (Hr & Hw & Ht).
  rewrite initialize_spawned, Hr. cbn [printable_exn].
  rewrite res_of_pair, self_of_pair, trace_of_pair.
  split; [reflexivity|]. split; [reflexivity|].
  rewrite !writes_app, !reads_app, Hw, Ht. cbn [writes reads flat_map filter length app].
  rewrite app_nil_r. split; reflexivity.
Qed.

Lemma initialize_fails_on_broken_stdin_witness :
  res_of (initialize (Some dying_server) fresh) = Raise (InitFailed OSError)
  /\ process (self_of (initialize (Some dying_server) fresh)) = None
  /\ writes (trace_of (initialize (Some dying_server) fresh))
     = firstn 1 (init_messages fresh)
  /\ reads (trace_of (initialize (Some dying_server) fresh)) = 0%nat.
Proof.
  apply (initialize_fails_on_broken_stdin fresh dying_server). reflexivity.
Defined.

(** ** Bounds on the reads and on the time slept *)

Lemma weight_app (w : event -> Z) (t1 t2 : list event) :
  weight w (t1 ++ t2) = weight w t1 + weight w t2.
Proof.
  unfold weight. induction t1 as [|e t1 IH]; cbn [app fold_right]; lia.
Qed.

Lemma weight_reads (t : list event) : weight read_cost t = Z.of_nat (reads t).
Proof.
  induction t as [|e t IH]; [reflexivity|].
  change (weight read_cost (e :: t)) with (read_cost e + weight read_cost t).
  rewrite IH. change (e :: t) with ([e] ++ t).
  rewrite reads_app, Nat2Z.inj_add. destruct e; reflexivity.
Qed.

Section Weights.

Variable w : event -> Z.

Hypothesis w_print : forall l, w (EvPrint l) = 0.
Hypothesis w_write : forall message ok, w (EvWrite message ok) = 0.
Hypothesis w_spawn : forall path, w (EvSpawn path) = 0.
Hypothesis w_thread : w EvStderrThread = 0.
Hypothesis w_kill : w EvKill = 0.
Hypothesis w_readline : 0 <= w EvReadline.
Hypothesis w_sleep : 0 <= w (EvSleep 100).
Hypothesis w_start : 0 <= w (EvSleep 200).

Ltac wsimp :=
  cbn [weight fold_right trace_of snd fst res_of self_of ret raise hang print
       emit sleep bind app length read_trace get_self get_process].

Lemma weight_bind {A B} (m : M A) (k : A -> M B) (c : MCPClient) (b : Z) :
  0 <= b ->
  (forall a c1, weight w (trace_of (k a c1)) <= b) ->
  weight w (trace_of (bind m k c)) <= weight w (trace_of (m c)) + b.
Proof.
  intros Hb Hk. rewrite bind_run.
  destruct (res_of (m c)) as [a|e|].
  - rewrite trace_of_prefixed, weight_app. specialize (Hk a (self_of (m c))). lia.
  - rewrite trace_of_pair. lia.
  - rewrite trace_of_pair. lia.
Qed.

Lemma weight_try_except {A} (m : M A) (h : exn -> M A) (c : MCPClient) (b : Z) :
  0 <= b ->
  (forall e c1, weight w (trace_of (h e c1)) <= b) ->
  weight w (trace_of (try_except m h c)) <= weight w (trace_of (m c)) + b.
Proof.
  intros Hb Hh. rewrite try_except_run.
  destruct (res_of (m c)) as [a|e|]; try lia.
  rewrite trace_of_prefixed, weight_app. specialize (Hh e (self_of (m c))). lia.
Qed.

Lemma weight_prints (t : list event) : Forall is_print t -> weight w t = 0.
Proof.
  induction 1 as [|e t He _ IH]; [reflexivity|].
  change (weight w (e :: t)) with (w e + weight w t).
  destruct e; try contradiction. rewrite w_print, IH. reflexivity.
Qed.

Lemma weight_read_json_line (c : MCPClient) :
  weight w (trace_of (_read_json_line c)) <= w EvReadline.
Proof.
  destruct (process c) as [p|] eqn:Hp.
  - destruct (stdout_pending p) as [|l rest] eqn:Hl.
    + destruct (stdout_end p) eqn:He.
      * rewrite (read_json_line_eof c p Hp Hl He). wsimp. lia.
      * rewrite (read_json_line_blocks c p Hp Hl He). wsimp. lia.
    + rewrite (read_json_line_next c p l rest Hp Hl), trace_of_pair.
      destruct l; wsimp; rewrite ?w_print; lia.
  - rewrite (read_json_line_no_process c Hp). wsimp. lia.
Qed.

Lemma weight_sleep_then {A} (m : M A) (c : MCPClient) (b : Z) :
  0 <= b ->
  (forall c1, weight w (trace_of (m c1)) <= b) ->
  weight w (trace_of ((sleep 100 ;; m) c)) <= w (EvSleep 100) + b.
Proof.
  intros Hb Hm.
  pose proof (weight_bind (sleep 100) (fun _ => m) c b Hb (fun _ c1 => Hm c1)) as H.
  cbn [sleep emit trace_of snd weight fold_right] in H. lia.
Qed.

Lemma weight_wait_for_response (call_id : Z) (n : nat) :
  forall c,
    weight w (trace_of (wait_for_response n call_id c))
    <= Z.of_nat n * (w EvReadline + w (EvSleep 100)).
Proof.
  induction n as [|n IH]; intros c; cbn [wait_for_response]; [wsimp; lia|].
  set (b := Z.of_nat n * (w EvReadline + w (EvSleep 100))) in *.
  assert (Hb : 0 <= b) by (subst b; nia).
  eapply Z.le_trans.
  - apply (weight_bind _ _ c (w (EvSleep 100) + b)); [lia|].
    intros msg c1. destruct (negb (truthy msg)).
    + apply weight_sleep_then; [exact Hb | exact IH].
    + destruct msg as [| | | | | |fields]; try (cbn [dot_get]; wsimp; lia).
      cbn [dot_get]. rewrite bind_run. cbn [ret res_of self_of trace_of fst snd].
      rewrite trace_of_prefixed. cbn [app].
      destruct (eq_int (get_default "id" JNull fields) call_id).
      * wsimp. rewrite w_print. lia.
      * apply weight_sleep_then; [exact Hb | exact IH].
  - pose proof (weight_read_json_line c). subst b. lia.
Qed.

Lemma weight_await_and_handle (py_str : json -> string) (call_id : Z) (c : MCPClient) :
  weight w
    (trace_of ((response <- await_response call_id ;; handle_response py_str response) c))
  <= 50 * (w EvReadline + w (EvSleep 100)).
Proof.
  set (b := 50 * (w EvReadline + w (EvSleep 100))).
  assert (Hb : 0 <= b) by (subst b; lia).
  assert (Hawait : forall c1, weight w (trace_of (await_response call_id c1)) <= b).
  { intros c1. unfold await_response.
    eapply Z.le_trans.
    - apply (weight_bind _ _ c1 b Hb). intros _ c2.
      eapply Z.le_trans.
      + apply (weight_bind _ _ c2 0); [lia|]. intros response c3.
        destruct (negb (truthy response)); wsimp; rewrite ?w_print; lia.
      + pose proof (weight_wait_for_response call_id call_max_attempts c2) as H.
        unfold call_max_attempts in H at 2. cbn [Z.of_nat] in H. subst b.
        change (Z.pos (Pos.of_succ_nat 49)) with 50 in H. lia.
    - wsimp. rewrite w_print. lia. }
  eapply Z.le_trans.
  - apply (weight_bind _ _ c 0); [lia|]. intros response c1.
    rewrite (weight_prints _ (handle_response_prints py_str response c1)). lia.
  - specialize (Hawait c). lia.
Qed.

Lemma weight_call_tool (py_str : json -> string) (tool_name : string)
    (arguments : json) (c : MCPClient) :
  weight w (trace_of (call_tool py_str tool_name arguments c))
  <= 50 * (w EvReadline + w (EvSleep 100)).
Proof.
  destruct (process c) as [p|] eqn:Hp.
  2: { rewrite (call_tool_no_process py_str _ _ c Hp). wsimp. lia. }
  destruct (stdin_budget p) as [[|k]|] eqn:Hb.
  1: { unfold call_tool, _send_message, stdin_write. munfold.
       rewrite Hp. cbn [process with_counter]. rewrite Hp, Hb.
       wsimp. rewrite !w_print, w_write. lia. }
  all: rewrite (call_tool_sent py_str tool_name arguments c p Hp)
         by (rewrite Hb; discriminate);
       cbn zeta; rewrite trace_of_prefixed, weight_app;
       match goal with
       | |- context [(bind (await_response ?i) ?k) ?c1] =>
           pose proof (weight_await_and_handle py_str i c1) as H
       end;
       cbn [weight fold_right]; rewrite !w_print, w_write; lia.
Qed.

Lemma weight_send_message (message : json) (c : MCPClient) :
  weight w (trace_of (_send_message message c)) <= 0.
Proof.
  unfold _send_message, stdin_write. munfold.
  destruct (process c) as [p|]; [|wsimp; lia].
  destruct (stdin_budget p) as [[|k]|]; wsimp; rewrite w_print, w_write; lia.
Qed.

Lemma weight_send_init (msgs : list json) :
  forall i c,
    weight w (trace_of (send_init i msgs c))
    <= Z.of_nat (length msgs) * w (EvSleep 100).
Proof.
  induction msgs as [|msg rest IH]; intros i c; cbn [send_init]; [wsimp; lia|].
  set (b := Z.of_nat (length rest) * w (EvSleep 100)) in *.
  assert (Hb : 0 <= b) by (subst b; nia).
  replace (Z.of_nat (length (msg :: rest)) * w (EvSleep 100))
    with (w (EvSleep 100) + b) by (subst b; cbn [length]; lia).
  eapply Z.le_trans.
  - apply (weight_bind _ _ c (w (EvSleep 100) + b)); [lia|]. intros method c1.
    eapply Z.le_trans.
    + apply (weight_bind _ _ c1 (w (EvSleep 100) + b)); [lia|]. intros _ c2.
      eapply Z.le_trans.
      * apply (weight_bind _ _ c2 (w (EvSleep 100) + b)); [lia|]. intros _ c3.
        apply weight_sleep_then; [exact Hb | apply IH].
      * pose proof (weight_send_message msg c2). lia.
    + wsimp. rewrite w_print. lia.
  - unfold subscript. destruct msg; try (wsimp; lia).
    destruct (lookup "method" fields); wsimp; lia.
Qed.

Lemma weight_wait_for_tools (n : nat) :
  forall c,
    weight w (trace_of (wait_for_tools n c))
    <= Z.of_nat n * (w EvReadline + w (EvSleep 100)).
Proof.
  induction n as [|n IH]; intros c; cbn [wait_for_tools]; [wsimp; lia|].
  set (b := Z.of_nat n * (w EvReadline + w (EvSleep 100))) in *.
  assert (Hb : 0 <= b) by (subst b; nia).
  eapply Z.le_trans.
  - apply (weight_bind _ _ c (w (EvSleep 100) + b)); [lia|]. intros msg c1.
    eapply Z.le_trans.
    + apply (weight_bind _ _ c1 (w (EvSleep 100) + b)); [lia|].
      intros [tools|] c2; [wsimp; lia|].
      apply weight_sleep_then; [exact Hb | exact IH].
    + destruct (truthy msg); [|wsimp; lia].
      rewrite (weight_prints _ (proj1 (proj2 (check_tools_list_run msg c1)))). lia.
  - pose proof (weight_read_json_line c). subst b. lia.
Qed.

Lemma weight_handshake (c : MCPClient) :
  weight w (trace_of (handshake c))
  <= w (EvSleep 200) + 3 * w (EvSleep 100)
     + 20 * (w EvReadline + w (EvSleep 100)).
Proof.
  set (b := 20 * (w EvReadline + w (EvSleep 100))).
  assert (Hb : 0 <= b) by (subst b; lia).
  assert (Hawait : forall c1, weight w (trace_of (await_tools c1)) <= b).
  { intros c1. unfold await_tools.
    eapply Z.le_trans.
    - apply (weight_bind _ _ c1 b Hb). intros _ c2.
      eapply Z.le_trans.
      + apply (weight_bind _ _ c2 0); [lia|]. intros [tools exhausted] c3.
        destruct (negb (truthy tools) && exhausted); wsimp; rewrite ?w_print; lia.
      + pose proof (weight_wait_for_tools init_max_attempts c2) as H.
        unfold init_max_attempts in H at 2. subst b.
        change (Z.of_nat 20) with 20 in H. lia.
    - wsimp. rewrite w_print. lia. }
  unfold handshake. fold await_tools.
  eapply Z.le_trans.
  { apply (weight_bind _ _ c (w (EvSleep 200) + 3 * w (EvSleep 100) + b)); [lia|].
    intros p c1. eapply Z.le_trans.
    { apply (weight_bind _ _ c1 (w (EvSleep 200) + 3 * w (EvSleep 100) + b)); [lia|].
      intros _ c2. eapply Z.le_trans.
      { apply (weight_bind _ _ c2 (w (EvSleep 200) + 3 * w (EvSleep 100) + b)); [lia|].
        intros _ c3. eapply Z.le_trans.
        { apply (weight_bind _ _ c3 (3 * w (EvSleep 100) + b)); [lia|].
          intros _ c4. eapply Z.le_trans.
          { apply (weight_bind _ _ c4 (3 * w (EvSleep 100) + b)); [lia|].
            intros _ c5. eapply Z.le_trans.
            { apply (weight_bind _ _ c5 (3 * w (EvSleep 100) + b)); [lia|].
              intros self c6. eapply Z.le_trans.
              { apply (weight_bind _ _ c6 b Hb). intros _ c7. apply Hawait. }
              pose proof (weight_send_init (init_messages self) 0 c6) as H.
              cbn [init_messages length] in H.
              change (Z.of_nat 3) with 3 in H. lia. }
            wsimp. lia. }
          wsimp. rewrite w_print. lia. }
        wsimp. lia. }
      wsimp. rewrite w_thread. lia. }
    wsimp. rewrite w_print. lia. }
  wsimp. lia.
Qed.

Lemma weight_initialize (launch : option Popen) (c : MCPClient) :
  weight w (trace_of (initialize launch c))
  <= w (EvSleep 200) + 3 * w (EvSleep 100)
     + 20 * (w EvReadline + w (EvSleep 100)).
Proof.
  destruct launch as [p|].
  - rewrite initialize_spawned.
    pose proof (weight_handshake (with_process c (Some p))) as H.
    destruct (res_of (handshake (with_process c (Some p)))).
    + rewrite trace_of_prefixed, weight_app. cbn [weight fold_right].
      rewrite w_print, w_spawn. lia.
    + destruct (printable_exn e).
      * rewrite trace_of_pair, !weight_app. cbn [weight fold_right].
        rewrite !w_print, w_spawn, w_kill. lia.
      * rewrite trace_of_pair, weight_app. cbn [weight fold_right].
        rewrite w_print, w_spawn. lia.
    + rewrite trace_of_prefixed, weight_app. cbn [weight fold_right].
      rewrite w_print, w_spawn. lia.
  - rewrite initialize_not_spawned, trace_of_pair, weight_app.
    destruct (process c); cbn [weight fold_right];
      rewrite ?w_print, ?w_spawn, ?w_kill; lia.
Qed.

End Weights.

(** X6: whatever the child does, one [call_tool] makes at most 50 reads
    and sleeps at most 5000 ms in all, and one [initialize] makes at most
    20 reads and sleeps at most 2500 ms in all (200 ms after the start,
    100 ms after each of the three messages, 100 ms per attempt). *)
Theorem polling_is_bounded (py_str : json -> string) (tool_name : string)
    (arguments : json) (launch : option Popen) (c : MCPClient) :
  (reads (trace_of (call_tool py_str tool_name arguments c)) <= 50)%nat
  /\ slept (trace_of (call_tool py_str tool_name arguments c)) <= 5000
  /\ (reads (trace_of (initialize launch c)) <= 20)%nat
  /\ slept (trace_of (initialize launch c)) <= 2500.
Proof.
  pose proof (weight_call_tool read_cost) as Hr1.
  pose proof (weight_call_tool sleep_cost) as Hs1.
  pose proof (weight_initialize read_cost) as Hr2.
  pose proof (weight_initialize sleep_cost) as Hs2.
  cbn [read_cost sleep_cost] in *.
  specialize (Hr1 (fun _ => eq_refl) (fun _ _ => eq_refl) ltac:(lia) ltac:(lia)
                py_str tool_name arguments c).
  specialize (Hs1 (fun _ => eq_refl) (fun _ _ => eq_refl) ltac:(lia) ltac:(lia)
                py_str tool_name arguments c).
  specialize (Hr2 (fun _ => eq_refl) (fun _ _ => eq_refl) (fun _ => eq_refl)
                eq_refl eq_refl ltac:(lia) ltac:(lia) ltac:(lia) launch c).
  specialize (Hs2 (fun _ => eq_refl) (fun _ _ => eq_refl) (fun _ => eq_refl)
                eq_refl eq_refl ltac:(lia) ltac:(lia) ltac:(lia) launch c).
  rewrite weight_reads in Hr1, Hr2. unfold slept. lia.
Qed.

(** ** Outcomes of [call_tool] other than a normalised result *)

Section Outcomes.

Variable py_str : json -> string.

Lemma after_write_stdout (p : Popen) :
  stdout_pending (after_write p) = stdout_pending p
  /\ stdout_end (after_write p) = stdout_end p.
Proof. unfold after_write. destruct (stdin_budget p) as [[|k]|]; split; reflexivity. Qed.

(** The wait when a truthy value that is no dict follows the skipped
    lines. *)
Lemma await_response_not_dict (call_id : Z) (c : MCPClient) (p : Popen)
    (ls : list line) (v : json) (rest : list line) :
  process c = Some p ->
  stdout_pending p = ls ++ Json v :: rest ->
  Forall (fun l => skipped call_id l = true) ls ->
  (length ls < call_max_attempts)%nat ->
  truthy v = true ->
  (forall fields, v <> JObj fields) ->
  res_of (await_response call_id c) = Raise AttributeError
  /\ self_of (await_response call_id c) = with_process c (Some (with_stdout p rest)).
Proof.
  intros Hp Hl Hs Hlen Hv Hnd.
  set (m := (call_max_attempts - S (length ls))%nat).
  assert (Hm : call_max_attempts = (length ls + S m)%nat) by (subst m; lia).
  destruct (wait_skips call_id ls (S m) c p _ Hp Hl Hs) as (Hr & Hc & _).
  cbn zeta in Hr, Hc.
  rewrite (wait_step_not_dict m call_id _ _ v _
             (read_json_line_pending
                (with_process c (Some (with_stdout p (Json v :: rest))))
                (with_stdout p (Json v :: rest)) (Json v) rest eq_refl eq_refl eq_refl)
             Hv Hnd) in Hr, Hc.
  rewrite res_of_pair in Hr. rewrite self_of_pair in Hc.
  unfold await_response. rewrite bind_run.
  cbn [print emit res_of self_of trace_of fst snd].
  rewrite res_of_prefixed, self_of_prefixed, bind_run, Hm, Hr, Hc.
  split; reflexivity.
Qed.

(** The wait when nothing that is read carries the identifier: fifty
    skipped lines, or fewer and then the end of the child's stdout. *)
Lemma wait_all_skipped (call_id : Z) (c : MCPClient) (p : Popen) (ls rest : list line)
    (n : nat) :
  process c = Some p ->
  stdout_pending p = ls ++ rest ->
  Forall (fun l => skipped call_id l = true) ls ->
  length ls = n \/ ((length ls <= n)%nat /\ rest = [] /\ stdout_end p = Eof) ->
  res_of (wait_for_response n call_id c) = Ret JNull
  /\ self_of (wait_for_response n call_id c)
     = with_process c (Some (with_stdout p rest))
  /\ reads (trace_of (wait_for_response n call_id c)) = n.
Proof.
  intros Hp Hl Hs Hcase.
  set (m := (n - length ls)%nat).
  assert (Hm : n = (length ls + m)%nat) by (subst m; destruct Hcase as [H|[H _]]; lia).
  destruct (wait_skips call_id ls m c p _ Hp Hl Hs) as (Hr & Hc & Ht).
  cbn zeta in Hr, Hc, Ht. rewrite <- Hm in Hr, Hc, Ht.
  destruct Hcase as [H|(_ & -> & He)].
  - assert (m = 0%nat) as Hz by (subst m; lia). rewrite Hz in *.
    cbn [wait_for_response] in Hr, Hc, Ht. rewrite Hr, Hc, Ht.
    repeat split. cbn. lia.
  - destruct (wait_at_eof call_id (with_process c (Some (with_stdout p [])))
                (with_stdout p []) m eq_refl eq_refl He) as (H1 & H2 & H3).
    rewrite Hr, Hc, Ht, H1, H2, H3. repeat split. lia.
Qed.

Lemma await_response_times_out (call_id : Z) (c : MCPClient) (p : Popen)
    (ls rest : list line) :
  process c = Some p ->
  stdout_pending p = ls ++ rest ->
  Forall (fun l => skipped call_id l = true) ls ->
  length ls = call_max_attempts
  \/ ((length ls <= call_max_attempts)%nat /\ rest = [] /\ stdout_end p = Eof) ->
  res_of (await_response call_id c) = Raise ResponseTimeout
  /\ self_of (await_response call_id c) = with_process c (Some (with_stdout p rest))
  /\ reads (trace_of (await_response call_id c)) = call_max_attempts.
Proof.
  intros Hp Hl Hs Hcase.
  destruct (wait_all_skipped call_id c p ls rest call_max_attempts Hp Hl Hs Hcase)
    as (Hr & Hc & Ht).
  unfold await_response. rewrite bind_run.
  cbn [print emit res_of self_of trace_of fst snd].
  rewrite res_of_prefixed, self_of_prefixed, trace_of_prefixed.
  rewrite bind_run, Hr, Hc. cbn [truthy negb].
  rewrite res_of_prefixed, self_of_prefixed, trace_of_prefixed.
  split; [reflexivity|]. split; [reflexivity|].
  rewrite !reads_app, Ht. cbn. unfold call_max_attempts. lia.
Qed.

(** [call_tool], once the request is sent, in terms of the wait. *)
Lemma call_tool_awaits (tool_name : string) (arguments : json)
    (c : MCPClient) (p : Popen) (e : exn) :
  process c = Some p ->
  stdin_budget p <> Some O ->
  res_of (await_response (rpc_id_counter c + 1)
            (with_process (with_counter c (rpc_id_counter c + 1))
               (Some (after_write p))))
  = Raise e ->
  res_of (call_tool py_str tool_name arguments c) = Raise e
  /\ self_of (call_tool py_str tool_name arguments c)
     = self_of (await_response (rpc_id_counter c + 1)
                  (with_process (with_counter c (rpc_id_counter c + 1))
                     (Some (after_write p))))
  /\ reads (trace_of (call_tool py_str tool_name arguments c))
     = reads (trace_of (await_response (rpc_id_counter c + 1)
                          (with_process (with_counter c (rpc_id_counter c + 1))
                             (Some (after_write p))))).
Proof.
  intros Hp Hb Hr.
  rewrite (call_tool_sent py_str tool_name arguments c p Hp Hb). cbn zeta.
  rewrite res_of_prefixed, self_of_prefixed, trace_of_prefixed, reads_app.
  rewrite bind_run, Hr. rewrite res_of_pair, self_of_pair, trace_of_pair.
  repeat split.
Qed.

End Outcomes.



(** X8: when the write of the request fails, [call_tool] raises the
    send failure without reading anything; the identifier is used up all
    the same, and the process handle stays set, so the next call is not
    stopped by the guard and uses the next identifier. *)
Theorem call_tool_send_failure_uses_identifier (py_str : json -> string)
    (tool_name : string) (arguments : json) (c : MCPClient) (p : Popen)
    (Hprocess : process c = Some p)
    (Hbroken : stdin_budget p = Some O) :
  call_tool py_str tool_name arguments c
  = (Raise (SendFailed OSError), with_counter c (rpc_id_counter c + 1),
     [EvPrint (LogCalling tool_name arguments);
      EvPrint (LogSending (rpc_call (rpc_id_counter c + 1) tool_name arguments));
      EvWrite (rpc_call (rpc_id_counter c + 1) tool_name arguments) false;
      EvPrint (LogSendFailed OSError)])
  /\ (forall (tool_name' : string) (arguments' : json),
         request_ids
           (trace_of (call_tool py_str tool_name' arguments'
                        (self_of (call_tool py_str tool_name arguments c))))
         = [rpc_id_counter c + 2]).
Proof.
  assert (Hrun : call_tool py_str tool_name arguments c
                 = (Raise (SendFailed OSError), with_counter c (rpc_id_counter c + 1),
                    [EvPrint (LogCalling tool_name arguments);
                     EvPrint (LogSending (rpc_call (rpc_id_counter c + 1)
                                            tool_name arguments));
                     EvWrite (rpc_call (rpc_id_counter c + 1) tool_name arguments) false;
                     EvPrint (LogSendFailed OSError)])).
  { unfold call_tool, _send_message, stdin_write. munfold.
    rewrite Hprocess. cbn [process with_counter]. rewrite Hprocess, Hbroken.
    reflexivity. }
  split; [exact Hrun|].
  intros tool_name' arguments'. rewrite Hrun, self_of_pair.
  destruct (call_tool_requests py_str tool_name' arguments'
              (with_counter c (rpc_id_counter c + 1))) as (Hids & _).
  rewrite Hids. cbn [process with_counter rpc_id_counter]. rewrite Hprocess.
  f_equal. lia.
Qed.

Lemma call_tool_send_failure_uses_identifier_witness :
  res_of (call_tool sample_str "get_wazuh_agents" (JObj [])
            (connected
               {| pid := 4242; stdin_budget := Some O; stdout_pending := [];
                  stdout_end := Eof; on_wait := Exits |}))
  = Raise (SendFailed OSError)
  /\ request_ids
       (trace_of
          (call_tool sample_str "get_wazuh_agents" (JObj [])
             (self_of
                (call_tool sample_str "get_wazuh_agents" (JObj [])
                   (connected
                      {| pid := 4242; stdin_budget := Some O; stdout_pending := [];
                         stdout_end := Eof; on_wait := Exits |})))))
     = [102].
Proof.
  destruct (call_tool_send_failure_uses_identifier sample_str "get_wazuh_agents"
              (JObj [])
              (connected
                 {| pid := 4242; stdin_budget := Some O; stdout_pending := [];
                    stdout_end := Eof; on_wait := Exits |})
              {| pid := 4242; stdin_budget := Some O; stdout_pending := [];
                 stdout_end := Eof; on_wait := Exits |} eq_refl eq_refl)
    as [Hrun Hnext].
  split; [now rewrite Hrun | apply Hnext].
Defined.

(** X9: a line that parses to a truthy JSON value that is no object (an
    array, a string, a number, [true]) ends [call_tool] with
    [AttributeError], raised by [msg.get]: the line is consumed, the
    lines after it stay in the pipe, and the identifier is used up. *)
Theorem call_tool_aborts_on_non_object_line (py_str : json -> string)
    (tool_name : string) (arguments : json) (c : MCPClient) (p : Popen)
    (ls : list line) (v : json) (rest : list line)
    (Hprocess : process c = Some p)
    (Hstdin : stdin_budget p <> Some O)
    (Hstream : stdout_pending p = ls ++ Json v :: rest)
    (Hskipped : Forall (fun l => skipped (rpc_id_counter c + 1) l = true) ls)
    (Hfew : (length ls <= 49)%nat)
    (Htruthy : truthy v = true)
    (Hshape : forall fields, v <> JObj fields) :
  res_of (call_tool py_str tool_name arguments c) = Raise AttributeError
  /\ self_of (call_tool py_str tool_name arguments c)
     = with_process (with_counter c (rpc_id_counter c + 1))
         (Some (with_stdout (after_write p) rest)).
Proof.
  destruct (after_write_stdout p) as [Hsame _].
  destruct (await_response_not_dict (rpc_id_counter c + 1)
              (with_process (with_counter c (rpc_id_counter c + 1))
                 (Some (after_write p)))
              (after_write p) ls v rest eq_refl
              (eq_trans Hsame Hstream) Hskipped) as [Hr Hc];
    [unfold call_max_attempts; lia | exact Htruthy | exact Hshape |].
  destruct (call_tool_awaits py_str tool_name arguments c p AttributeError
              Hprocess Hstdin Hr) as (Hr' & Hc' & _).
  split; [exact Hr'|]. rewrite Hc', Hc. reflexivity.
Qed.

Lemma call_tool_aborts_on_non_object_line_witness :
  res_of (call_tool sample_str "get_wazuh_agents" (JObj [])
            (connected
               (server [Json notification; Json (JList [JInt 1]);
                        Json (tool_reply 101 "ok")] Eof)))
  = Raise AttributeError
  /\ process
       (self_of (call_tool sample_str "get_wazuh_agents" (JObj [])
                   (connected
                      (server [Json notification; Json (JList [JInt 1]);
                               Json (tool_reply 101 "ok")] Eof))))
     = Some (server [Json (tool_reply 101 "ok")] Eof).
Proof.
  destruct (call_tool_aborts_on_non_object_line sample_str "get_wazuh_agents"
              (JObj [])
              (connected
                 (server [Json notification; Json (JList [JInt 1]);
                          Json (tool_reply 101 "ok")] Eof))
              (server [Json notification; Json (JList [JInt 1]);
                       Json (tool_reply 101 "ok")] Eof)
              [Json notification] (JList [JInt 1]) [Json (tool_reply 101 "ok")]
              eq_refl ltac:(discriminate) eq_refl
              ltac:(repeat constructor) ltac:(simpl; lia) eq_refl
              ltac:(discriminate)) as [Hr Hc].
  split; [exact Hr | rewrite Hc; reflexivity].
Defined.

(** The wait for the tools list when the check of a message raises. *)
Lemma await_tools_raises (c : MCPClient) (p : Popen) (ls : list line)
    (v : json) (rest : list line) (e : exn) :
  process c = Some p ->
  stdout_pending p = ls ++ Json v :: rest ->
  Forall (fun l => tools_skipped l = true) ls ->
  (length ls < init_max_attempts)%nat ->
  truthy v = true ->
  (forall c', res_of (check_tools_list v c') = Raise e) ->
  res_of (await_tools c) = Raise e.
Proof.
  intros Hp Hl Hs Hlen Hv He.
  set (m := (init_max_attempts - S (length ls))%nat).
  assert (Hm : init_max_attempts = (length ls + S m)%nat) by (subst m; lia).
  destruct (tools_skips ls (S m) c p _ Hp Hl Hs) as (Hr & _ & _).
  cbn zeta in Hr.
  rewrite (tools_step_message m _ _ v _
             (read_json_line_pending
                (with_process c (Some (with_stdout p (Json v :: rest))))
                (with_stdout p (Json v :: rest)) (Json v) rest eq_refl eq_refl eq_refl)
             Hv) in Hr.
  rewrite He, res_of_pair in Hr.
  unfold await_tools. rewrite bind_run.
  cbn [print emit res_of self_of trace_of fst snd].
  rewrite bind_run, Hm, Hr. reflexivity.
Qed.

(** [initialize] when the wait for the tools list raises. *)
Lemma initialize_wait_raises (c : MCPClient) (p : Popen) (e : exn) :
  accepts 3 p = true ->
  res_of (await_tools
            (with_process c (Some (after_write (after_write (after_write p))))))
  = Raise e ->
  printable_exn e = true ->
  res_of (initialize (Some p) c) = Raise (InitFailed e)
  /\ process (self_of (initialize (Some p) c)) = None.
Proof.
  intros Hstdin Hr He.
  rewrite initialize_spawned, (handshake_sent c p Hstdin).
  rewrite res_of_prefixed, self_of_prefixed, trace_of_prefixed, Hr, He.
  rewrite res_of_pair, self_of_pair. split; reflexivity.
Qed.

(** X10: a reply that the handshake loop cannot take apart makes
    [initialize] fail with the exception of the failing operation wrapped
    in the initialisation failure, and the process handle is cleared: a
    truthy line that is no object, or a result of request 1 that is no
    object, gives [AttributeError]; a result whose [tools] field has no
    length (null, a number, a boolean) gives [TypeError]. *)
Theorem initialize_rejects_malformed_reply (c : MCPClient) (p : Popen)
    (ls : list line) (v : json) (rest : list line)
    (Hstdin : accepts 3 p = true)
    (Hstream : stdout_pending p = ls ++ Json v :: rest)
    (Hskipped : Forall (fun l => tools_skipped l = true) ls)
    (Hfew : (length ls <= 19)%nat)
    (Htruthy : truthy v = true)
    (Hshape : match v with
              | JObj fields =>
                  eq_int (get_default "id" JNull fields) 1 = true
                  /\ match lookup "result" fields with
                     | Some (JObj result) =>
                         has_len (get_default "tools" (JList []) result) = false
                     | Some _ => True
                     | None => False
                     end
              | _ => True
              end) :
  res_of (initialize (Some p) c)
  = Raise (InitFailed
             match v with
             | JObj fields =>
                 match lookup "result" fields with
                 | Some (JObj _) => TypeError
                 | _ => AttributeError
                 end
             | _ => AttributeError
             end)
  /\ process (self_of (initialize (Some p) c)) = None.
Proof.
  assert (Hpending : stdout_pending (after_write (after_write (after_write p)))
                     = ls ++ Json v :: rest).
  { unfold after_write. repeat (destruct (stdin_budget _) as [[|?]|]; cbn); exact Hstream. }
  apply (initialize_wait_raises c p _ Hstdin);
    [|destruct v as [| | | | | |fields]; try reflexivity;
      destruct (lookup "result" fields) as [[| | | | | |result]|]; reflexivity].
  apply (await_tools_raises
           (with_process c (Some (after_write (after_write (after_write p)))))
           (after_write (after_write (after_write p))) ls v rest _
           eq_refl Hpending Hskipped);
    [unfold init_max_attempts; lia | exact Htruthy |].
  intros c'. destruct (check_tools_list_run v c') as (_ & _ & Hr). rewrite Hr.
  destruct v as [| | | | | |fields]; try reflexivity.
  destruct Hshape as [Hid Hres]. rewrite Hid. unfold has_key.
  destruct (lookup "result" fields) as [[| | | | | |result]|];
    try reflexivity; try contradiction.
  cbn [andb]. rewrite Hres. reflexivity.
Qed.

Lemma initialize_rejects_malformed_reply_witness :
  res_of (initialize
            (Some (server [Json init_reply;
                           Json (JObj [("jsonrpc", JStr "2.0"); ("id", JInt 1);
                                       ("result", JObj [("tools", JNull)])])]
                     Blocks))
            fresh)
  = Raise (InitFailed TypeError)
  /\ process
       (self_of
          (initialize
             (Some (server [Json init_reply;
                            Json (JObj [("jsonrpc", JStr "2.0"); ("id", JInt 1);
                                        ("result", JObj [("tools", JNull)])])]
                      Blocks))
             fresh))
     = None.
Proof.
  apply (initialize_rejects_malformed_reply fresh
           (server [Json init_reply;
                    Json (JObj [("jsonrpc", JStr "2.0"); ("id", JInt 1);
                                ("result", JObj [("tools", JNull)])])]
              Blocks)
           [Json init_reply]
           (JObj [("jsonrpc", JStr "2.0"); ("id", JInt 1);
                  ("result", JObj [("tools", JNull)])])
           []).
  - reflexivity.
  - reflexivity.
  - repeat constructor.
  - simpl. lia.
  - reflexivity.
  - split; reflexivity.
Defined.

(** X11: a result that is no object, or an object without a [content]
    field, is returned by [call_tool] as the server sent it. *)
Theorem call_tool_returns_result_without_content (py_str : json -> string)
    (tool_name : string) (arguments : json) (c : MCPClient) (p : Popen)
    (ls : list line) (fields : list (string * json)) (result : json)
    (rest : list line)
    (Hprocess : process c = Some p)
    (Hstdin : stdin_budget p <> Some O)
    (Hstream : stdout_pending p = ls ++ Json (JObj fields) :: rest)
    (Hskipped : Forall (fun l => skipped (rpc_id_counter c + 1) l = true) ls)
    (Hfew : (length ls <= 49)%nat)
    (Hid : eq_int (get_default "id" JNull fields) (rpc_id_counter c + 1) = true)
    (Herror : lookup "error" fields = None)
    (Hresult : lookup "result" fields = Some result)
    (Hplain : forall members, result = JObj members -> lookup "content" members = None) :
  res_of (call_tool py_str tool_name arguments c) = Ret result.
Proof.
  destruct (call_tool_answered py_str tool_name arguments c p ls fields rest
              Hprocess Hstdin Hstream Hskipped) as (Hr & _ & _);
    [unfold call_max_attempts; lia | exact Hid |].
  cbn zeta in Hr. rewrite Hr, (handle_response_result py_str fields result c Herror Hresult).
  destruct result as [| | | | | |members]; try reflexivity.
  unfold normalize. rewrite (Hplain members eq_refl). reflexivity.
Qed.

Lemma call_tool_returns_result_without_content_witness :
  res_of (call_tool sample_str "get_wazuh_agents" (JObj [])
            (connected
               (server [Json (JObj [("jsonrpc", JStr "2.0"); ("id", JInt 101);
                                    ("result", JObj [("isError", JBool false)])])]
                  Blocks)))
  = Ret (JObj [("isError", JBool false)]).
Proof.
  apply (call_tool_returns_result_without_content sample_str "get_wazuh_agents"
           (JObj [])
           (connected
              (server [Json (JObj [("jsonrpc", JStr "2.0"); ("id", JInt 101);
                                   ("result", JObj [("isError", JBool false)])])]
                 Blocks))
           (server [Json (JObj [("jsonrpc", JStr "2.0"); ("id", JInt 101);
                                ("result", JObj [("isError", JBool false)])])]
              Blocks)
           []
           [("jsonrpc", JStr "2.0"); ("id", JInt 101);
            ("result", JObj [("isError", JBool false)])]
           (JObj [("isError", JBool false)]) []).
  - reflexivity.
  - discriminate.
  - reflexivity.
  - constructor.
  - simpl. lia.
  - reflexivity.
  - reflexivity.
  - reflexivity.
  - intros members H. injection H as <-. reflexivity.
Defined.

(** X12: when the [content] of the result is no list, [call_tool] returns
    the content itself if it is a string or an object, and ends with
    [TypeError] if it is null, a number or a boolean, because the log line
    takes [len(content)] before the content is looked at. *)
Theorem call_tool_content_that_is_no_list (py_str : json -> string)
    (tool_name : string) (arguments : json) (c : MCPClient) (p : Popen)
    (ls : list line) (fields members : list (string * json)) (content : json)
    (rest : list line)
    (Hprocess : process c = Some p)
    (Hstdin : stdin_budget p <> Some O)
    (Hstream : stdout_pending p = ls ++ Json (JObj fields) :: rest)
    (Hskipped : Forall (fun l => skipped (rpc_id_counter c + 1) l = true) ls)
    (Hfew : (length ls <= 49)%nat)
    (Hid : eq_int (get_default "id" JNull fields) (rpc_id_counter c + 1) = true)
    (Herror : lookup "error" fields = None)
    (Hresult : lookup "result" fields = Some (JObj members))
    (Hcontent : lookup "content" members = Some content)
    (Hshape : forall items, content <> JList items) :
  res_of (call_tool py_str tool_name arguments c)
  = if has_len content then Ret content else Raise TypeError.
Proof.
  destruct (call_tool_answered py_str tool_name arguments c p ls fields rest
              Hprocess Hstdin Hstream Hskipped) as (Hr & _ & _);
    [unfold call_max_attempts; lia | exact Hid |].
  cbn zeta in Hr.
  rewrite Hr, (handle_response_result py_str fields _ c Herror Hresult).
  unfold normalize. rewrite Hcontent.
  destruct content as [| | | | |items|]; try reflexivity.
  now destruct (Hshape items).
Qed.

Lemma call_tool_content_that_is_no_list_witness :
  res_of (call_tool sample_str "get_wazuh_agents" (JObj [])
            (connected
               (server [Json (JObj [("jsonrpc", JStr "2.0"); ("id", JInt 101);
                                    ("result", JObj [("content", JNull)])])]
                  Blocks)))
  = Raise TypeError.
Proof.
  apply (call_tool_content_that_is_no_list sample_str "get_wazuh_agents"
           (JObj [])
           (connected
              (server [Json (JObj [("jsonrpc", JStr "2.0"); ("id", JInt 101);
                                   ("result", JObj [("content", JNull)])])]
                 Blocks))
           (server [Json (JObj [("jsonrpc", JStr "2.0"); ("id", JInt 101);
                                ("result", JObj [("content", JNull)])])]
              Blocks)
           []
           [("jsonrpc", JStr "2.0"); ("id", JInt 101);
            ("result", JObj [("content", JNull)])]
           [("content", JNull)] JNull []).
  - reflexivity.
  - discriminate.
  - reflexivity.
  - constructor.
  - simpl. lia.
  - reflexivity.
  - reflexivity.
  - reflexivity.
  - reflexivity.
  - discriminate.
Defined.

(** X13: when none of the lines read carries the identifier of the call,
    and the reads return (fifty skipped lines, or fewer and then the end
    of the child's stdout), [call_tool] raises the response timeout after
    exactly fifty reads; the process handle stays set, with the unread
    lines still in the pipe, and the identifier is used up. *)
Theorem call_tool_raises_response_timeout (py_str : json -> string)
    (tool_name : string) (arguments : json) (c : MCPClient) (p : Popen)
    (ls rest : list line)
    (Hprocess : process c = Some p)
    (Hstdin : stdin_budget p <> Some O)
    (Hstream : stdout_pending p = ls ++ rest)
    (Hskipped : Forall (fun l => skipped (rpc_id_counter c + 1) l = true) ls)
    (Hspent : length ls = 50%nat
              \/ ((length ls <= 50)%nat /\ rest = [] /\ stdout_end p = Eof)) :
  res_of (call_tool py_str tool_name arguments c) = Raise ResponseTimeout
  /\ self_of (call_tool py_str tool_name arguments c)
     = with_process (with_counter c (rpc_id_counter c + 1))
         (Some (with_stdout (after_write p) rest))
  /\ reads (trace_of (call_tool py_str tool_name arguments c)) = 50%nat.
Proof.
  destruct (after_write_stdout p) as [Hsame Hend].
  destruct (await_response_times_out (rpc_id_counter c + 1)
              (with_process (with_counter c (rpc_id_counter c + 1))
                 (Some (after_write p)))
              (after_write p) ls rest eq_refl
              (eq_trans Hsame Hstream) Hskipped) as (Hr & Hc & Ht).
  { destruct Hspent as [H|(H & H' & He)]; [left; exact H|right].
    split; [exact H|]. split; [exact H'|]. now rewrite Hend. }
  destruct (call_tool_awaits py_str tool_name arguments c p ResponseTimeout
              Hprocess Hstdin Hr) as (Hr' & Hc' & Ht').
  split; [exact Hr'|]. split; [rewrite Hc', Hc; reflexivity|].
  rewrite Ht', Ht. reflexivity.
Qed.

Lemma call_tool_raises_response_timeout_witness :
  res_of (call_tool sample_str "get_wazuh_agents" (JObj [])
            (connected (server [Json notification; Blank; Text "starting"] Eof)))
  = Raise ResponseTimeout
  /\ reads (trace_of (call_tool sample_str "get_wazuh_agents" (JObj [])
                        (connected
                           (server [Json notification; Blank; Text "starting"] Eof))))
     = 50%nat.
Proof.
  destruct (call_tool_raises_response_timeout sample_str "get_wazuh_agents" (JObj [])
              (connected (server [Json notification; Blank; Text "starting"] Eof))
              (server [Json notification; Blank; Text "starting"] Eof)
              [Json notification; Blank; Text "starting"] []
              eq_refl ltac:(discriminate) eq_refl ltac:(repeat constructor)
              ltac:(right; repeat split; simpl; lia)) as (Hr & _ & Ht).
  split; [exact Hr | exact Ht].
Defined.

(** ** Replies to other calls *)

(** A value equals at most one integer. *)
Lemma eq_int_inj (v : json) (n m : Z) :
  eq_int v n = true -> eq_int v m = true -> n = m.
Proof.
  destruct v as [|b|z|f| | |]; cbn [eq_int]; try discriminate.
  - intros H1 H2. apply Z.eqb_eq in H1, H2. congruence.
  - intros H1 H2. apply Z.eqb_eq in H1, H2. congruence.
  - destruct f as [s|s| |s m0 e]; cbn [float_eq_int]; try discriminate.
    + intros H1 H2. apply Z.eqb_eq in H1, H2. congruence.
    + destruct (0 <=? e) eqn:He; intros H1 H2; apply Z.eqb_eq in H1, H2.
      * congruence.
      * apply Z.leb_gt in He.
        assert (Hpos : 0 < 2 ^ (- e)) by (apply Z.pow_pos_nonneg; lia).
        apply (Z.mul_reg_r _ _ (2 ^ (- e))); [lia | congruence].
Qed.

(** X14: a reply that arrives after its call has timed out is not taken
    for the answer of the next call: the next call, which carries the next
    identifier, reads the late reply, passes over it and handles the reply
    to its own identifier that follows. *)
Theorem late_reply_is_dropped_by_next_call (py_str : json -> string)
    (tool_name tool_name' : string) (arguments arguments' : json)
    (c : MCPClient) (p' : Popen) (late fields : list (string * json))
    (rest : list line)
    (Htimeout : res_of (call_tool py_str tool_name arguments c) = Raise ResponseTimeout)
    (Hstdin : stdin_budget p' <> Some O)
    (Hstream : stdout_pending p' = Json (JObj late) :: Json (JObj fields) :: rest)
    (Hlate : eq_int (get_default "id" JNull late) (rpc_id_counter c + 1) = true)
    (Hid : eq_int (get_default "id" JNull fields) (rpc_id_counter c + 2) = true) :
  let c1 := server_moves p' (self_of (call_tool py_str tool_name arguments c)) in
  res_of (call_tool py_str tool_name' arguments' c1)
  = res_of (handle_response py_str (JObj fields) c)
  /\ reads (trace_of (call_tool py_str tool_name' arguments' c1)) = 2%nat
  /\ process (self_of (call_tool py_str tool_name' arguments' c1))
     = Some (with_stdout (after_write p') rest).
Proof.
  destruct (process c) as [p|] eqn:Hp;
    [|rewrite (call_tool_no_process py_str tool_name arguments c Hp) in Htimeout;
      discriminate Htimeout].
  destruct (call_tool_requests py_str tool_name arguments c) as (_ & Hcnt & Hkeep).
  rewrite Hp in Hcnt.
  assert (Hset : process (self_of (call_tool py_str tool_name arguments c)) <> None)
    by (apply Hkeep; rewrite Hp; discriminate).
  intros c1.
  assert (Hc1 : c1 = with_process (self_of (call_tool py_str tool_name arguments c))
                       (Some p')).
  { subst c1. unfold server_moves.
    destruct (process (self_of (call_tool py_str tool_name arguments c)));
      [reflexivity | contradiction]. }
  assert (Hcnt1 : rpc_id_counter c1 + 1 = rpc_id_counter c + 2)
    by (rewrite Hc1; cbn [rpc_id_counter with_process]; lia).
  destruct (call_tool_answered py_str tool_name' arguments' c1 p'
              [Json (JObj late)] fields rest) as (Hr & Hc & Ht).
  - rewrite Hc1. reflexivity.
  - exact Hstdin.
  - exact Hstream.
  - constructor; [|constructor]. cbn [skipped]. rewrite Hcnt1.
    destruct (eq_int (get_default "id" JNull late) (rpc_id_counter c + 2)) eqn:Hsame;
      [|reflexivity].
    pose proof (eq_int_inj _ _ _ Hlate Hsame). lia.
  - unfold call_max_attempts. cbn [length]. lia.
  - rewrite Hcnt1. exact Hid.
  - cbn zeta in Hr, Hc, Ht. rewrite Hr, Hc, Ht.
    split; [apply handle_response_any_state|]. split; reflexivity.
Qed.

Lemma late_reply_is_dropped_by_next_call_witness :
  res_of (call_tool sample_str "get_wazuh_agents" (JObj [])
            (server_moves
               (server [Json (tool_reply 101 "late"); Json (tool_reply 102 "ok")]
                  Blocks)
               (self_of (call_tool sample_str "get_wazuh_agents" (JObj [])
                           (connected (server [] Eof))))))
  = Ret (JStr "ok").
Proof.
  destruct (late_reply_is_dropped_by_next_call sample_str
              "get_wazuh_agents" "get_wazuh_agents" (JObj []) (JObj [])
              (connected (server [] Eof))
              (server [Json (tool_reply 101 "late"); Json (tool_reply 102 "ok")]
                 Blocks)
              [("jsonrpc", JStr "2.0"); ("id", JInt 101);
               ("result",
                JObj [("content",
                       JList [JObj [("type", JStr "text"); ("text", JStr "late")]])])]
              [("jsonrpc", JStr "2.0"); ("id", JInt 102);
               ("result",
                JObj [("content",
                       JList [JObj [("type", JStr "text"); ("text", JStr "ok")]])])]
              []
              ltac:(vm_compute; reflexivity) ltac:(discriminate) eq_refl
              eq_refl eq_refl) as (Hr & _ & _).
  rewrite Hr. reflexivity.
Defined.

(** What [call_tool] writes to the child. *)
Lemma call_tool_writes (py_str : json -> string)
    (tool_name : string) (arguments : json) (c : MCPClient) :
  writes (trace_of (call_tool py_str tool_name arguments c))
  = match process c with
    | Some p =>
        match stdin_budget p with
        | Some O => []
        | _ => [rpc_call (rpc_id_counter c + 1) tool_name arguments]
        end
    | None => []
    end.
Proof.
  destruct (process c) as [p|] eqn:Hp;
    [|now rewrite (call_tool_no_process py_str tool_name arguments c Hp)].
  assert (Hsent : stdin_budget p <> Some O ->
                  writes (trace_of (call_tool py_str tool_name arguments c))
                  = [rpc_call (rpc_id_counter c + 1) tool_name arguments]).
  { intros Hb. rewrite (call_tool_sent py_str tool_name arguments c p Hp Hb).
    cbn zeta. rewrite trace_of_prefixed, writes_app.
    rewrite (no_write_writes _
               (all_await_and_handle no_write I (fun _ => I) (fun _ => I)
                  py_str _ _)).
    reflexivity. }
  destruct (stdin_budget p) as [[|k]|] eqn:Hb.
  - unfold call_tool, _send_message, stdin_write. munfold.
    rewrite Hp. cbn [process with_counter]. rewrite Hp, Hb. reflexivity.
  - apply Hsent. discriminate.
  - apply Hsent. discriminate.
Qed.

(** X15: whatever the child does, [call_tool] writes at most its own
    request to the child: exactly that request when the process is set and
    its stdin takes the write, and nothing otherwise; and it never clears
    the process handle, not even when it raises. *)
Theorem call_tool_writes_one_request (py_str : json -> string)
    (tool_name : string) (arguments : json) (c : MCPClient) :
  writes (trace_of (call_tool py_str tool_name arguments c))
  = match process c with
    | Some p =>
        match stdin_budget p with
        | Some O => []
        | _ => [rpc_call (rpc_id_counter c + 1) tool_name arguments]
        end
    | None => []
    end
  /\ (process c <> None
      -> process (self_of (call_tool py_str tool_name arguments c)) <> None).
Proof.
  split; [apply call_tool_writes|].
  destruct (call_tool_requests py_str tool_name arguments c) as (_ & _ & Hkeep).
  exact Hkeep.
Qed.

(** X16: [_read_json_line] never raises: it returns the parsed value of
    the next line, or [None] for a blank line, a line that is no JSON, a
    failing read, the end of the stream or a missing process, and it does
    not return only when the child has nothing pending and keeps its
    stdout open.  A line that is read goes off the pipe; a read that fails
    on bytes that are no text loses the whole chunk, so the lines the
    child wrote in the same chunk are never delivered.  It calls
    [readline] at most once and leaves the counter alone. *)
Theorem read_json_line_never_raises (c : MCPClient) :
  (forall e, res_of (_read_json_line c) <> Raise e)
  /\ (res_of (_read_json_line c) = Hang
      <-> exists p, process c = Some p /\ stdout_pending p = []
                    /\ stdout_end p = Blocks)
  /\ (forall p l rest,
         process c = Some p -> stdout_pending p = l :: rest ->
         res_of (_read_json_line c)
         = Ret match l with Json v => v | _ => JNull end
         /\ process (self_of (_read_json_line c))
            = Some (with_stdout p
                      match l with
                      | Undecodable lost => skipn lost rest
                      | _ => rest
                      end))
  /\ (reads (trace_of (_read_json_line c)) <= 1)%nat
  /\ rpc_id_counter (self_of (_read_json_line c)) = rpc_id_counter c.
Proof.
  destruct (process c) as [p|] eqn:Hp.
  - destruct (stdout_pending p) as [|l rest] eqn:Hl.
    + destruct (stdout_end p) eqn:He.
      * rewrite (read_json_line_eof c p Hp Hl He).
        split; [discriminate|]. split.
        { split; [discriminate|]. intros (p0 & Hp0 & _ & He0).
          injection Hp0 as <-. congruence. }
        split; [intros p0 l rest Hp0 Hl0; injection Hp0 as <-; congruence|].
        split; [cbn; lia | reflexivity].
      * rewrite (read_json_line_blocks c p Hp Hl He).
        split; [discriminate|]. split.
        { split; [intros _; exists p; auto | reflexivity]. }
        split; [intros p0 l rest Hp0 Hl0; injection Hp0 as <-; congruence|].
        split; [cbn; lia | reflexivity].
    + rewrite (read_json_line_next c p l rest Hp Hl).
      split; [discriminate|]. split.
      { split; [discriminate|]. intros (p0 & Hp0 & Hl0 & _).
        injection Hp0 as <-. congruence. }
      split.
      { intros p0 l0 rest0 Hp0 Hl0. injection Hp0 as <-.
        rewrite Hl in Hl0. injection Hl0 as <- <-.
        split; destruct l; reflexivity. }
      split; [|reflexivity].
      rewrite trace_of_pair, reads_read_trace. lia.
  - rewrite (read_json_line_no_process c Hp).
    split; [discriminate|]. split.
    { split; [discriminate|]. intros (p0 & Hp0 & _). discriminate Hp0. }
    split; [intros p0 l rest Hp0; discriminate Hp0|].
    split; [cbn; lia | reflexivity].
Qed.

Lemma read_json_line_never_raises_witness :
  res_of (_read_json_line
            (connected
               (server [Undecodable 1; Json (tool_reply 101 "ok"); Json notification]
                  Blocks)))
  = Ret JNull
  /\ process
       (self_of (_read_json_line
                   (connected
                      (server [Undecodable 1; Json (tool_reply 101 "ok");
                               Json notification] Blocks))))
     = Some (server [Json notification] Blocks).
Proof.
  destruct (read_json_line_never_raises
              (connected
                 (server [Undecodable 1; Json (tool_reply 101 "ok"); Json notification]
                    Blocks)))
    as (_ & _ & Hnext & _).
  exact (Hnext (server [Undecodable 1; Json (tool_reply 101 "ok"); Json notification]
                  Blocks)
           (Undecodable 1) [Json (tool_reply 101 "ok"); Json notification]
           eq_refl eq_refl).
Defined.

(** X17: the signals of [cleanup]: the child is sent [terminate] exactly
    when a process is set, and [kill] exactly when the wait that follows
    times out; when the wait fails in another way the child is not killed
    and the handle is dropped all the same.  [cleanup] reads nothing from
    the child and writes nothing to it. *)
Theorem cleanup_signals (c : MCPClient) :
  (In EvTerminate (trace_of (cleanup c)) <-> process c <> None)
  /\ (In EvKill (trace_of (cleanup c))
      <-> exists p, process c = Some p /\ on_wait p = TimesOut)
  /\ reads (trace_of (cleanup c)) = 0%nat
  /\ writes (trace_of (cleanup c)) = []
  /\ rpc_id_counter (self_of (cleanup c)) = rpc_id_counter c.
Proof.
  rewrite cleanup_run, trace_of_pair, self_of_pair.
  destruct (process c) as [p|] eqn:Hp.
  - destruct (on_wait p) eqn:Hw; cbn [app In].
    + split; [split; [discriminate | auto]|].
      split; [|repeat split].
      split; [intros [H|[H|[H|[H|[]]]]]; discriminate H|].
      intros (p0 & Hp0 & Hw0). injection Hp0 as <-. congruence.
    + split; [split; [discriminate | auto]|].
      split; [|repeat split].
      split; [intros _; exists p; auto | auto].
    + split; [split; [discriminate | auto]|].
      split; [|repeat split].
      split; [intros [H|[H|[H|[H|[]]]]]; discriminate H|].
      intros (p0 & Hp0 & Hw0). injection Hp0 as <-. congruence.
  - cbn [In]. split.
    { split; [intros [H|[]]; discriminate H | intros H; now destruct H]. }
    split; [|repeat split].
    split; [intros [H|[]]; discriminate H|].
    intros (p0 & Hp0 & _). discriminate Hp0.
Qed.

(** An event of a trace costs no more than the trace. *)
Lemma weight_in (w : event -> Z) (t : list event) (e : event) :
  (forall e', 0 <= w e') -> In e t -> w e <= weight w t.
Proof.
  intros Hw. induction t as [|e' t IH]; [contradiction|].
  cbn [In weight fold_right]. fold (weight w t). intros [->|Hin].
  - pose proof (Hw e).
    assert (0 <= weight w t).
    { clear IH. induction t as [|e0 t IH]; cbn [weight fold_right]; [lia|].
      fold (weight w t). pose proof (Hw e0). lia. }
    lia.
  - pose proof (Hw e'). pose proof (IH Hin). lia.
Qed.

(** X18: [initialize] on a client that is already connected does not
    terminate the child it has: when the new child starts, the handle is
    overwritten and the call goes on as on a client without process; when
    the start of the new child fails, the failure handler kills the child
    that is still set and clears the handle. *)
Theorem initialize_replaces_connection (c : MCPClient) (old : Popen)
    (Hconnected : process c = Some old) :
  (forall p, initialize (Some p) c = initialize (Some p) (with_process c None))
  /\ (forall launch, ~ In EvTerminate (trace_of (initialize launch c)))
  /\ initialize None c
     = (Raise (InitFailed OSError), with_process c None,
        [EvPrint LogStarting; EvSpawn (server_path c);
         EvPrint (LogInitFailed OSError); EvKill]).
Proof.
  split; [|split].
  - intros p. rewrite !initialize_spawned. reflexivity.
  - intros launch Hin.
    pose proof (weight_initialize
                  (fun e => match e with EvTerminate => 1 | _ => 0 end)
                  (fun _ => eq_refl) (fun _ _ => eq_refl) (fun _ => eq_refl)
                  eq_refl eq_refl ltac:(lia) ltac:(lia) ltac:(lia) launch c) as Hle.
    pose proof (weight_in (fun e => match e with EvTerminate => 1 | _ => 0 end)
                  _ EvTerminate ltac:(intros []; lia) Hin) as Hge.
    cbn beta iota in Hle, Hge. lia.
  - rewrite initialize_not_spawned, Hconnected. reflexivity.
Qed.

Lemma initialize_replaces_connection_witness :
  initialize None (connected (server [] Blocks))
  = (Raise (InitFailed OSError), fresh,
     [EvPrint LogStarting; EvSpawn "/app/mcp-server";
      EvPrint (LogInitFailed OSError); EvKill]).
Proof.
  destruct (initialize_replaces_connection (connected (server [] Blocks))
              (server [] Blocks) eq_refl) as (_ & _ & Hrun).
  exact Hrun.
Defined.

(** * The assistants *)

(** ** Dicts updated in place *)

Lemma lookup_dict_set (k : string) (v : json) (fields : list (string * json))
    (key : string) :
  lookup key (dict_set k v fields)
  = if String.eqb key k then Some v else lookup key fields.
Proof.
  induction fields as [|[k' v'] rest IH]; cbn [dict_set lookup].
  - destruct (String.eqb key k); reflexivity.
  - destruct (String.eqb_spec k k') as [<-|Hk]; cbn [lookup].
    + destruct (String.eqb key k); reflexivity.
    + rewrite IH. destruct (String.eqb_spec key k') as [->|Hk'];
        [|reflexivity].
      destruct (String.eqb_spec k' k) as [->|_]; [contradiction|reflexivity].
Qed.

Lemma keys_dict_set (k : string) (v : json) (fields : list (string * json)) :
  lookup k fields <> None -> map fst (dict_set k v fields) = map fst fields.
Proof.
  induction fields as [|[k' v'] rest IH]; cbn [dict_set lookup map fst].
  - congruence.
  - destruct (String.eqb k k'); cbn [map fst]; [reflexivity|].
    intros H. now rewrite (IH H).
Qed.

Lemma dict_set_same (k : string) (v : json) (fields : list (string * json)) :
  lookup k fields = Some v -> dict_set k v fields = fields.
Proof.
  induction fields as [|[k' v'] rest IH]; cbn [dict_set lookup].
  - discriminate.
  - destruct (String.eqb k k').
    + intros H. injection H as <-. reflexivity.
    + intros H. now rewrite (IH H).
Qed.

Lemma lookup_absent (k : string) (fields : list (string * json)) :
  ~ In k (map fst fields) -> lookup k fields = None.
Proof.
  induction fields as [|[k' v'] rest IH]; cbn [lookup map fst In];
    [reflexivity|].
  intros H. destruct (String.eqb_spec k k') as [->|_].
  - exfalso. apply H. now left.
  - apply IH. intros Hin. apply H. now right.
Qed.

Lemma lookup_dict_pop (k : string) (fields : list (string * json)) (key : string) :
  key <> k -> lookup key (dict_pop k fields) = lookup key fields.
Proof.
  intros Hkey. induction fields as [|[k' v'] rest IH]; cbn [dict_pop lookup];
    [reflexivity|].
  destruct (String.eqb_spec k k') as [<-|Hk]; cbn [lookup].
  - destruct (String.eqb_spec key k) as [->|_]; [contradiction|reflexivity].
  - now rewrite IH.
Qed.

Lemma lookup_dict_pop_same (k : string) (fields : list (string * json)) :
  NoDup (map fst fields) -> lookup k (dict_pop k fields) = None.
Proof.
  induction fields as [|[k' v'] rest IH]; cbn [dict_pop lookup map fst];
    [reflexivity|].
  intros Hnd. inversion Hnd as [|? ? Hnotin Hrest]; subst.
  destruct (String.eqb_spec k k') as [->|Hk]; cbn [lookup].
  - now apply lookup_absent.
  - destruct (String.eqb_spec k k') as [->|_]; [contradiction|]. now apply IH.
Qed.

(** ** TheHive: identifiers with the tilde prefix *)

Section TheHive.

Import TheHiveAssistant.

Variable py_str : json -> string.

Lemma prefix_tilde_cons (s : string) : String.prefix "~" ("~" ++ s) = true.
Proof. cbn. destruct s; reflexivity. Qed.

Lemma format_id_prefixed (id_value : json) :
  String.prefix "~" (_format_id py_str id_value) = true.
Proof.
  unfold _format_id. cbn zeta.
  destruct (String.prefix "~" (str py_str id_value)) eqn:Hp; cbn [negb].
  - exact Hp.
  - apply prefix_tilde_cons.
Qed.

Lemma format_id_fixed (s : string) :
  String.prefix "~" s = true -> _format_id py_str (JStr s) = s.
Proof. intros H. unfold _format_id. cbn [str]. now rewrite H. Qed.

Lemma format_id_twice (id_value : json) :
  _format_id py_str (JStr (_format_id py_str id_value)) = _format_id py_str id_value.
Proof. apply format_id_fixed, format_id_prefixed. Qed.

Lemma lookup_format_ids (keys : list string) :
  forall (args : list (string * json)) (key : string),
    lookup key (format_ids py_str keys args)
    = if existsb (String.eqb key) keys
      then option_map (fun v => JStr (_format_id py_str v)) (lookup key args)
      else lookup key args.
Proof.
  induction keys as [|key0 keys IH]; intros args key; cbn [format_ids existsb];
    [reflexivity|].
  rewrite IH.
  assert (Hstep : lookup key
                    match lookup key0 args with
                    | Some id_value =>
                        dict_set key0 (JStr (_format_id py_str id_value)) args
                    | None => args
                    end
                  = if String.eqb key key0
                    then option_map (fun v => JStr (_format_id py_str v))
                           (lookup key args)
                    else lookup key args).
  { destruct (lookup key0 args) as [v|] eqn:H0.
    - rewrite lookup_dict_set.
      destruct (String.eqb_spec key key0) as [->|_]; [now rewrite H0|reflexivity].
    - destruct (String.eqb_spec key key0) as [->|_]; [now rewrite H0|reflexivity]. }
  rewrite Hstep.
  destruct (String.eqb key key0); cbn [orb]; [|reflexivity].
  destruct (existsb (String.eqb key) keys); [|reflexivity].
  destruct (lookup key args) as [v|]; cbn [option_map]; [|reflexivity].
  now rewrite format_id_twice.
Qed.

Lemma keys_format_ids (keys : list string) :
  forall args : list (string * json),
    map fst (format_ids py_str keys args) = map fst args.
Proof.
  induction keys as [|key0 keys IH]; intros args; cbn [format_ids];
    [reflexivity|].
  rewrite IH. destruct (lookup key0 args) as [v|] eqn:H0; [|reflexivity].
  apply keys_dict_set. congruence.
Qed.

Lemma format_ids_fixed (keys : list string) (args : list (string * json)) :
  (forall key v, In key keys -> lookup key args = Some v ->
                 JStr (_format_id py_str v) = v) ->
  format_ids py_str keys args = args.
Proof.
  induction keys as [|key0 keys IH]; intros Hfix; cbn [format_ids];
    [reflexivity|].
  destruct (lookup key0 args) as [v|] eqn:H0.
  - rewrite (Hfix key0 v (or_introl eq_refl) H0), (dict_set_same _ _ _ H0).
    apply IH. intros key v' Hin. apply Hfix. now right.
  - apply IH. intros key v' Hin. apply Hfix. now right.
Qed.

Lemma existsb_eqb_in (key : string) (keys : list string) :
  existsb (String.eqb key) keys = true <-> In key keys.
Proof.
  rewrite existsb_exists. split.
  - intros (k & Hin & Hk). apply String.eqb_eq in Hk. now subst.
  - intros Hin. exists key. split; [exact Hin | apply String.eqb_refl].
Qed.

End TheHive.

(** X19: [_format_id] gives an identifier that starts with the tilde: it
    puts one tilde in front of the text of a value that has none, leaves a
    string that starts with a tilde as it is, and applied to its own
    result changes nothing. *)
Theorem format_id_adds_one_tilde (py_str : json -> string) (id_value : json) :
  String.prefix "~" (TheHiveAssistant._format_id py_str id_value) = true
  /\ (String.prefix "~" (TheHiveAssistant.str py_str id_value) = false
      -> TheHiveAssistant._format_id py_str id_value
         = ("~" ++ TheHiveAssistant.str py_str id_value)%string)
  /\ (forall s, String.prefix "~" s = true
                -> TheHiveAssistant._format_id py_str (JStr s) = s)
  /\ TheHiveAssistant._format_id py_str
       (JStr (TheHiveAssistant._format_id py_str id_value))
     = TheHiveAssistant._format_id py_str id_value.
Proof.
  split; [apply format_id_prefixed|]. split.
  - intros H. unfold TheHiveAssistant._format_id. cbn zeta. now rewrite H.
  - split; [apply format_id_fixed | apply format_id_twice].
Qed.

(** X20: the loop of TheHive's [handle_tool_call] over the five
    identifier keys replaces the value of each of these keys that the
    arguments have by its formatted identifier, adds none of them, leaves
    every other argument and the order of the keys as they are, and run
    again on its own result changes nothing. *)
Theorem format_ids_rewrites_identifier_fields (py_str : json -> string)
    (args : list (string * json)) :
  let args' := TheHiveAssistant.format_ids py_str TheHiveAssistant.id_keys args in
  map fst args' = map fst args
  /\ (forall key,
         In key TheHiveAssistant.id_keys ->
         lookup key args'
         = option_map (fun v => JStr (TheHiveAssistant._format_id py_str v))
             (lookup key args))
  /\ (forall key,
         ~ In key TheHiveAssistant.id_keys -> lookup key args' = lookup key args)
  /\ TheHiveAssistant.format_ids py_str TheHiveAssistant.id_keys args' = args'.
Proof.
  cbn zeta. split; [apply keys_format_ids|].
  assert (Hin : forall key,
             In key TheHiveAssistant.id_keys ->
             lookup key (TheHiveAssistant.format_ids py_str
                           TheHiveAssistant.id_keys args)
             = option_map (fun v => JStr (TheHiveAssistant._format_id py_str v))
                 (lookup key args)).
  { intros key Hkey. rewrite lookup_format_ids.
    apply existsb_eqb_in in Hkey. now rewrite Hkey. }
  split; [exact Hin|]. split.
  - intros key Hkey. rewrite lookup_format_ids.
    destruct (existsb (String.eqb key) TheHiveAssistant.id_keys) eqn:He;
      [|reflexivity].
    apply existsb_eqb_in in He. contradiction.
  - apply format_ids_fixed. intros key v Hkey Hv.
    rewrite (Hin key Hkey) in Hv.
    destruct (lookup key args) as [v0|]; [|discriminate Hv].
    cbn [option_map] in Hv. injection Hv as <-.
    now rewrite format_id_twice.
Qed.

(** X21: a tool call of the TheHive assistant reaches the child as one
    request that carries the arguments with the identifiers formatted;
    when the assistant has no client, and when [cleanup_resources] has
    run, the call raises "MCP client not initialized" and nothing reaches
    the child. *)
Theorem thehive_tool_call_sends_formatted_ids (py_str : json -> string)
    (tool_name : string) (args : list (string * json)) :
  (forall (c : MCPClient) (p : Popen),
      process c = Some p ->
      stdin_budget p <> Some O ->
      writes (snd (TheHiveAssistant.handle_tool_call py_str tool_name args (Some c)))
      = [rpc_call (rpc_id_counter c + 1) tool_name
           (JObj (TheHiveAssistant.format_ids py_str TheHiveAssistant.id_keys args))])
  /\ TheHiveAssistant.handle_tool_call py_str tool_name args None
     = (Raise NotInitialized, None, [])
  /\ (forall mcp_client : option MCPClient,
         let o := TheHiveAssistant.handle_tool_call py_str tool_name args
                    (snd (fst (TheHiveAssistant.cleanup_resources mcp_client))) in
         fst (fst o) = Raise NotInitialized /\ snd o = []).
Proof.
  split; [|split].
  - intros c p Hp Hb. unfold TheHiveAssistant.handle_tool_call.
    cbn [snd]. rewrite call_tool_writes, Hp.
    destruct (stdin_budget p) as [[|k]|]; [contradiction| |]; reflexivity.
  - reflexivity.
  - intros [c|]; cbn zeta; [|split; reflexivity].
    unfold TheHiveAssistant.cleanup_resources, TheHiveAssistant.handle_tool_call.
    cbn [fst snd]. rewrite cleanup_run, self_of_pair.
    rewrite (call_tool_no_process py_str tool_name _ (with_process c None) eq_refl).
    split; reflexivity.
Qed.

(** ** Wazuh: the search argument of the process listing *)

Lemma client_trace_app (t1 t2 : list WazuhAssistant.output) :
  WazuhAssistant.client_trace (t1 ++ t2)
  = WazuhAssistant.client_trace t1 ++ WazuhAssistant.client_trace t2.
Proof. apply flat_map_app. Qed.

Lemma client_trace_client (t : list event) :
  WazuhAssistant.client_trace (map WazuhAssistant.Client t) = t.
Proof.
  induction t as [|e t IH]; [reflexivity|].
  cbn [map WazuhAssistant.client_trace flat_map app].
  unfold WazuhAssistant.client_trace in IH. now rewrite IH.
Qed.

(** The client's part of a tool call of the Wazuh assistant is the call of
    [call_tool] with the normalised arguments. *)
Lemma wazuh_handle_tool_call_client (py_str : json -> string)
    (tool_name : string) (args : list (string * json)) (c : MCPClient) :
  let o := WazuhAssistant.handle_tool_call py_str tool_name args (Some c) in
  let r := call_tool py_str tool_name
             (JObj (WazuhAssistant.normalize_args tool_name args)) c in
  fst (fst o)
  = match res_of r with
    | Ret result =>
        if printable_prefix 500 result then Ret result else Raise UnicodeEncodeError
    | other => other
    end
  /\ snd (fst o) = Some (self_of r)
  /\ WazuhAssistant.client_trace (snd o) = trace_of r.
Proof.
  cbn zeta. unfold WazuhAssistant.handle_tool_call.
  destruct (res_of (call_tool py_str tool_name
                      (JObj (WazuhAssistant.normalize_args tool_name args)) c))
    as [result|e|]; cbn [fst snd].
  - split; [reflexivity|]. split; [reflexivity|].
    rewrite !client_trace_app, client_trace_client.
    destruct (printable_prefix 500 result);
      cbn [WazuhAssistant.client_trace flat_map app]; now rewrite app_nil_r.
  - split; [reflexivity|]. split; [reflexivity|].
    rewrite !client_trace_app, client_trace_client.
    cbn [WazuhAssistant.client_trace flat_map app]. reflexivity.
  - split; [reflexivity|]. split; [reflexivity|].
    rewrite !client_trace_app, client_trace_client.
    cbn [WazuhAssistant.client_trace flat_map app]. reflexivity.
Qed.

(** X22: for the tool [get_wazuh_agent_processes], when the arguments
    have [process_name] and no [search], the Wazuh assistant sends the
    value of [process_name] as [search] and no [process_name]; every
    other argument is sent as given. *)
Theorem wazuh_renames_process_name (py_str : json -> string)
    (args : list (string * json)) (process_name : json)
    (Hdict : NoDup (map fst args))
    (Hname : lookup "process_name" args = Some process_name)
    (Hsearch : lookup "search" args = None) :
  let args' := WazuhAssistant.normalize_args "get_wazuh_agent_processes" args in
  lookup "search" args' = Some process_name
  /\ lookup "process_name" args' = None
  /\ (forall key, key <> "search" -> key <> "process_name" ->
                  lookup key args' = lookup key args)
  /\ (forall (c : MCPClient) (p : Popen),
         process c = Some p ->
         stdin_budget p <> Some O ->
         writes (WazuhAssistant.client_trace
                   (snd (WazuhAssistant.handle_tool_call py_str
                           "get_wazuh_agent_processes" args (Some c))))
         = [rpc_call (rpc_id_counter c + 1) "get_wazuh_agent_processes"
              (JObj args')]).
Proof.
  cbn zeta.
  assert (Hargs : WazuhAssistant.normalize_args "get_wazuh_agent_processes" args
                  = dict_set "search" process_name (dict_pop "process_name" args)).
  { unfold WazuhAssistant.normalize_args, has_key.
    rewrite String.eqb_refl, Hname, Hsearch. reflexivity. }
  rewrite Hargs.
  split; [rewrite lookup_dict_set; reflexivity|].
  split.
  { rewrite lookup_dict_set. cbn [String.eqb Ascii.eqb Bool.eqb andb].
    now apply lookup_dict_pop_same. }
  split.
  { intros key Hk1 Hk2. rewrite lookup_dict_set.
    destruct (String.eqb_spec key "search") as [->|_]; [contradiction|].
    now apply lookup_dict_pop. }
  intros c p Hp Hb.
  destruct (wazuh_handle_tool_call_client py_str "get_wazuh_agent_processes"
              args c) as (_ & _ & Ht).
  cbn zeta in Ht. rewrite Ht, Hargs, call_tool_writes, Hp.
  destruct (stdin_budget p) as [[|k]|]; [contradiction| |]; reflexivity.
Qed.

Lemma wazuh_renames_process_name_witness :
  lookup "search"
    (WazuhAssistant.normalize_args "get_wazuh_agent_processes"
       [("agent_id", JStr "001"); ("process_name", JStr "sshd")])
  = Some (JStr "sshd")
  /\ lookup "process_name"
       (WazuhAssistant.normalize_args "get_wazuh_agent_processes"
          [("agent_id", JStr "001"); ("process_name", JStr "sshd")])
     = None.
Proof.
  destruct (wazuh_renames_process_name sample_str
              [("agent_id", JStr "001"); ("process_name", JStr "sshd")]
              (JStr "sshd")) as (Hs & Hn & _).
  - cbn [map fst]. constructor.
    + intros [H|[]]. discriminate H.
    + constructor; [intros []|constructor].
  - reflexivity.
  - reflexivity.
  - split; [exact Hs | exact Hn].
Defined.



(** * A failure of [initialize] whose print fails *)

Section Guard.

Variable py_str : json -> string.

Lemma wait_for_response_raises (call_id : Z) (n : nat) :
  forall (c : MCPClient) (e : exn),
    res_of (wait_for_response n call_id c) = Raise e -> e = AttributeError.
Proof.
  induction n as [|n IH]; intros c e Hr.
  - discriminate Hr.
  - destruct (process c) as [p|] eqn:Hp.
    + destruct (stdout_pending p) as [|l rest] eqn:Hl.
      * destruct (stdout_end p) eqn:He.
        -- rewrite (wait_step_none n call_id c c [EvReadline]
                      (read_json_line_eof c p Hp Hl He)) in Hr.
           rewrite res_of_prefixed in Hr. exact (IH c e Hr).
        -- rewrite (wait_step_hang n call_id c c [EvReadline]
                      (read_json_line_blocks c p Hp Hl He)) in Hr.
           discriminate Hr.
      * destruct (skipped call_id l) eqn:Hs.
        -- rewrite (wait_skip n call_id c p l rest Hp Hl Hs) in Hr.
           rewrite res_of_pair in Hr. exact (IH _ e Hr).
        -- destruct (not_skipped call_id l Hs)
             as [(fields & -> & Hid) | [(v & -> & Hv & Hnd) | (lost & ->)]].
           ++ rewrite (wait_match n call_id c p fields rest Hp Hl Hid) in Hr.
              discriminate Hr.
           ++ rewrite (wait_step_not_dict n call_id c _ v _
                         (read_json_line_pending c p (Json v) rest Hp Hl eq_refl)
                         Hv Hnd) in Hr.
              injection Hr as <-. reflexivity.
           ++ rewrite (wait_step_none n call_id c _ _
                         (read_json_line_next c p _ rest Hp Hl)) in Hr.
              rewrite res_of_prefixed in Hr. exact (IH _ e Hr).
    + rewrite (wait_step_none n call_id c c []
                 (read_json_line_no_process c Hp)) in Hr.
      rewrite res_of_prefixed in Hr. exact (IH c e Hr).
Qed.

Lemma await_response_raises (call_id : Z) (c : MCPClient) (e : exn) :
  res_of (await_response call_id c) = Raise e ->
  e = ResponseTimeout \/ e = AttributeError.
Proof.
  pose proof (wait_for_response_raises call_id call_max_attempts c) as Hw.
  unfold await_response. munfold.
  destruct (wait_for_response call_max_attempts call_id c) as [[[v|e0|] c2] t2];
    cbn in *.
  - destruct (truthy v); cbn; intros H; [discriminate H|].
    injection H as <-. now left.
  - intros H. injection H as <-. right. now apply Hw.
  - discriminate.
Qed.

Lemma normalize_raises (result : json) (c : MCPClient) (e : exn) :
  res_of (normalize py_str result c) = Raise e -> e = TypeError.
Proof.
  destruct result as [| | | | |items|fields]; try discriminate.
  destruct (lookup "content" fields) as [content|] eqn:Hc.
  - destruct content as [| | | | |[|item rest]|fs];
      try (unfold normalize; rewrite Hc; cbn; intros H;
           first [discriminate H | injection H as <-; reflexivity]).
    rewrite (proj1 (normalize_content_list py_str fields item rest c Hc)).
    destruct (all_strings (map (content_text py_str) (item :: rest)));
      intros H; [discriminate H | injection H as <-; reflexivity].
  - unfold normalize; rewrite Hc; discriminate.
Qed.

Lemma handle_response_raises (fields : list (string * json)) (c : MCPClient)
    (e : exn) :
  res_of (handle_response py_str (JObj fields) c) = Raise e ->
  e <> NotInitialized.
Proof.
  destruct (lookup "error" fields) as [error|] eqn:He.
  - rewrite (handle_response_error py_str _ _ _ He).
    destruct error as [| | | | | |details];
      try (intros H; injection H as <-; discriminate).
    cbn zeta. destruct (printable _); intros H; injection H as <-; discriminate.
  - cbn [handle_response]. rewrite He.
    destruct (lookup "result" fields) as [result|].
    + intros H. rewrite (normalize_raises result c e H). discriminate.
    + cbn. intros H. injection H as <-. discriminate.
Qed.

(** With a process handle set, [call_tool] passes its guard: whatever it
    ends with, it is not the not-initialized error. *)
Lemma call_tool_passes_guard (tool_name : string) (arguments : json)
    (c : MCPClient) :
  process c <> None ->
  res_of (call_tool py_str tool_name arguments c) <> Raise NotInitialized.
Proof.
  intros Hset Hraises.
  destruct (process c) as [p|] eqn:Hp; [|contradiction].
  destruct (stdin_budget p) as [[|k]|] eqn:Hb.
  1: { rewrite (proj1 (call_tool_send_failed py_str _ _ c p Hp Hb)) in Hraises.
       discriminate Hraises. }
  all: rewrite (call_tool_sent py_str tool_name arguments c p Hp) in Hraises
         by (rewrite Hb; discriminate);
       cbn zeta in Hraises; rewrite res_of_prefixed, bind_run in Hraises;
       match type of Hraises with
       | context [await_response ?i ?c1] =>
           pose proof (await_response_raises i c1) as Ha;
           pose proof (await_response_ret i c1) as Hv;
           destruct (res_of (await_response i c1)) as [response|e0|];
           [ destruct (Hv response eq_refl) as (Hw & Ht & _); clear Ha Hv;
             destruct (wait_returns_answer _ _ _ response Hw Ht)
               as (p' & fields & _ & -> & _ & _);
             rewrite res_of_prefixed in Hraises;
             exact (handle_response_raises fields _ _ Hraises eq_refl)
           | clear Hv; rewrite res_of_pair in Hraises;
             injection Hraises as ->;
             destruct (Ha _ eq_refl) as [H|H]; discriminate H
           | clear Ha Hv; discriminate Hraises ]
       end.
Qed.

End Guard.

(** C10: the claim fails on the code for an error envelope whose error is
    a string that stdout cannot encode.  The reply to request 1 makes the
    handshake raise the initialization error; the handler of [initialize]
    prints the failure first, and for such a string this print raises
    [UnicodeEncodeError], so that the handler stops there: the child is
    not killed, the process handle stays set, the failure that leaves
    [initialize] is not the wrapped one, and a [call_tool] that follows
    passes the not-initialized check and hands its request to the child.
    What the claim says holds whenever the handler's print goes through,
    that is, whenever [initialize] raises its wrapped failure: then the
    handle is cleared, the kill of a started child is the last thing done,
    and a [call_tool] that follows raises the not-initialized error without
    doing anything. *)
Theorem initialize_failure_print_keeps_process (py_str : json -> string)
    (c : MCPClient) (p : Popen) (ls : list line)
    (fields : list (string * json)) (text : string) (rest : list line)
    (Hstdin : accepts 3 p = true)
    (Hstream : stdout_pending p = ls ++ Json (JObj fields) :: rest)
    (Hskipped : Forall (fun l => tools_skipped l = true) ls)
    (Hfew : (length ls <= 19)%nat)
    (Hid : eq_int (get_default "id" JNull fields) 1 = true)
    (Hresult : lookup "result" fields = None)
    (Herror : lookup "error" fields = Some (JStr text))
    (Hsurrogate : encodable text = false) :
  res_of (initialize (Some p) c) = Raise UnicodeEncodeError
  /\ process (self_of (initialize (Some p) c))
     = Some (with_stdout (after_write (after_write (after_write p))) rest)
  /\ ~ In EvKill (trace_of (initialize (Some p) c))
  /\ (forall (tool_name : string) (arguments : json),
         res_of (call_tool py_str tool_name arguments (self_of (initialize (Some p) c)))
         <> Raise NotInitialized
         /\ request_ids
              (trace_of (call_tool py_str tool_name arguments
                           (self_of (initialize (Some p) c))))
            = [rpc_id_counter c + 1])
  /\ (forall (launch : option Popen) (c' : MCPClient) (cause : exn),
         res_of (initialize launch c') = Raise (InitFailed cause) ->
         process (self_of (initialize launch c')) = None
         /\ (launch <> None ->
             exists t, trace_of (initialize launch c') = t ++ [EvKill])
         /\ (forall (tool_name : string) (arguments : json),
                call_tool py_str tool_name arguments (self_of (initialize launch c'))
                = (Raise NotInitialized, self_of (initialize launch c'), []))).
Proof.
  assert (Hpending : stdout_pending (after_write (after_write (after_write p)))
                     = ls ++ Json (JObj fields) :: rest).
  { unfold after_write. repeat (destruct (stdin_budget _) as [[|?]|]; cbn); exact Hstream. }
  destruct (await_tools_refused
              (with_process c (Some (after_write (after_write (after_write p)))))
              (after_write (after_write (after_write p)))
              ls fields (JStr text) rest eq_refl Hpending Hskipped)
    as [Hr Hc]; try assumption.
  { unfold init_max_attempts. lia. }
  assert (Hrun : initialize (Some p) c
                 = (Raise UnicodeEncodeError,
                    with_process c
                      (Some (with_stdout (after_write (after_write (after_write p)))
                               rest)),
                    [EvPrint LogStarting; EvSpawn (server_path c)]
                    ++ handshake_sent_trace c p
                    ++ trace_of (await_tools
                                   (with_process c
                                      (Some (after_write (after_write
                                                            (after_write p)))))))).
  { rewrite initialize_spawned, (handshake_sent c p Hstdin).
    rewrite res_of_prefixed, self_of_prefixed, trace_of_prefixed, Hr, Hc.
    cbn [printable_exn printable]. rewrite Hsurrogate. reflexivity. }
  rewrite Hrun, res_of_pair, self_of_pair, trace_of_pair.
  split; [reflexivity|]. split; [reflexivity|]. split; [|split].
  - intros Hin.
    assert (Hall : Forall (fun e => e <> EvKill)
                     ([EvPrint LogStarting; EvSpawn (server_path c)]
                      ++ handshake_sent_trace c p
                      ++ trace_of (await_tools
                                     (with_process c
                                        (Some (after_write (after_write
                                                              (after_write p)))))))).
    { apply Forall_app. split; [repeat constructor; discriminate|].
      apply Forall_app. split.
      - unfold handshake_sent_trace, init_messages.
        cbn [combine flat_map app fst snd]. repeat constructor; discriminate.
      - apply (all_await_tools (fun e => e <> EvKill)); intros; discriminate. }
    rewrite Forall_forall in Hall. exact (Hall _ Hin eq_refl).
  - intros tool_name arguments. split.
    + apply call_tool_passes_guard. discriminate.
    + destruct (call_tool_requests py_str tool_name arguments
                  (with_process c
                     (Some (with_stdout (after_write (after_write (after_write p)))
                              rest)))) as (Hids & _).
      exact Hids.
  - intros launch c' cause He.
    destruct (initialize_wrapped launch c' cause He) as [Hp Hk].
    split; [exact Hp|]. split; [exact Hk|].
    intros tool_name arguments. now apply call_tool_no_process.
Qed.

Lemma initialize_failure_print_keeps_process_witness :
  res_of (initialize (Some (server [Json init_reply; Json surrogate_error_reply] Blocks))
            fresh)
  = Raise UnicodeEncodeError
  /\ process (self_of (initialize
                         (Some (server [Json init_reply; Json surrogate_error_reply]
                                  Blocks))
                         fresh))
     = Some (server [] Blocks)
  /\ ~ In EvKill
        (trace_of (initialize
                     (Some (server [Json init_reply; Json surrogate_error_reply]
                              Blocks))
                     fresh))
  /\ request_ids
       (trace_of (call_tool sample_str "get_wazuh_agents" (JObj [])
                    (self_of (initialize
                                (Some (server [Json init_reply;
                                               Json surrogate_error_reply] Blocks))
                                fresh))))
     = [101].
Proof.
  destruct (initialize_failure_print_keeps_process sample_str fresh
              (server [Json init_reply; Json surrogate_error_reply] Blocks)
              [Json init_reply]
              [("jsonrpc", JStr "2.0"); ("id", JInt 1);
               ("error", JStr ("bad " ++ lone_surrogate))]
              ("bad " ++ lone_surrogate) []
              eq_refl eq_refl ltac:(repeat constructor) ltac:(simpl; lia)
              eq_refl eq_refl eq_refl eq_refl)
    as (Hr & Hp & Hk & Hcall & _).
  split; [exact Hr|]. split; [exact Hp|]. split; [exact Hk|].
  exact (proj2 (Hcall "get_wazuh_agents" (JObj []))).
Defined.
